(** * Gateway lifecycle and service registration

    A shallow embedding of
    [src/dstack/_internal/server/services/gateways/__init__.py]:
    the retry loops ([connect_to_gateway_with_retry], [configure_gateway]),
    gateway creation and deletion, and the service registrar
    ([register_service], [unregister_service], [unregister_replica],
    [get_gateway_connection]).

    Coroutines are run to completion one after the other; every function of
    the module becomes a computation in a state-and-exception monad over a
    [World] that holds the session's rows, the connection pool, the
    processing-id registry, a clock counting the calls to the outside and a
    trace of the observable events (sleeps, log records, remote requests).
    The rows of the world are the objects of the session: [session.add] and
    [session.delete] act on them at once and [session.commit()] has no
    counterpart. *)

From stdpp Require Import base option list gmap strings.
From Stdlib Require Import String Ascii.

Local Open Scope string_scope.

#[local] Set Warnings "-clear-no-such-hyp".

Abbreviation uuid := N (only parsing).

(** ** Python strings *)

Module Py.

(** [c in chars] for a one-character string [c]. *)
Fixpoint char_in (c : ascii) (chars : string) : bool :=
  match chars with
  | EmptyString => false
  | String d rest => if Ascii.eqb c d then true else char_in c rest
  end.

(** [str.lstrip(chars)]: drops every leading character that belongs to the
    set [chars]. *)
Fixpoint lstrip (chars : string) (s : string) : string :=
  match s with
  | EmptyString => EmptyString
  | String c rest => if char_in c chars then lstrip chars rest else s
  end.

(** Truth value of a [str]: the empty string is false. *)
Definition truthy (s : string) : bool :=
  match s with
  | EmptyString => false
  | String _ _ => true
  end.

(** [str.startswith] *)
Definition startswith (s pre : string) : bool := String.prefix pre s.

(** What removing the literal prefix [pre] once would give. *)
Definition removeprefix (pre s : string) : string :=
  if String.prefix pre s
  then String.substring (String.length pre) (String.length s - String.length pre) s
  else s.

(** [sep.join(l)] *)
Fixpoint join (sep : string) (l : list string) : string :=
  match l with
  | [] => ""
  | [x] => x
  | x :: rest => x ++ sep ++ join sep rest
  end.

(** [repr] of a list of plain strings: ['a', 'b']. *)
Definition repr_str_list (l : list string) : string :=
  "[" ++ join ", " (map (λ s, "'" ++ s ++ "'") l) ++ "]".


End Py.

(** ** Errors

    The exception classes the module raises or catches.  [OtherError] stands
    for any exception that none of the module's handlers names. *)

Inductive Exn :=
| ServerClientError (msg : string)
| ResourceNotExistsError (msg : option string)
| GatewayError (msg : string)
| SSHError (msg : string)
| RequestError (msg : string)
| KeyError
| AttributeError
| OtherError (msg : string).

#[export] Instance Exn_eq_dec : EqDecision Exn.
Proof. solve_decision. Defined.

(** ** Models *)

Module BackendType.
(** Modelled from the spec: the enumeration [BackendType] of
    [core/models/backends/base.py]; a member is known by its [value]. *)
Record t := Make { value : string }.
Definition AWS := Make "aws".
Definition DSTACK := Make "dstack".
Definition KUBERNETES := Make "kubernetes".
Definition OCI := Make "oci".
#[global] Instance eq_dec : EqDecision t.
Proof. solve_decision. Defined.
End BackendType.

Module GatewayStatus.
Inductive t := SUBMITTED | PROVISIONING | RUNNING | FAILED.
#[global] Instance eq_dec : EqDecision t.
Proof. solve_decision. Defined.
End GatewayStatus.

Module GatewayConfiguration.
Record t := Make {
  name : option string;
  default : bool;
  backend : BackendType.t;
  region : string;
  domain : option string;
  public_ip : bool;
}.
#[global] Instance eq_dec : EqDecision t.
Proof. solve_decision. Defined.
Definition set_name (n : string) (c : t) : t :=
  Make (Some n) (default c) (backend c) (region c) (domain c) (public_ip c).
Definition set_default (d : bool) (c : t) : t :=
  Make (name c) d (backend c) (region c) (domain c) (public_ip c).
End GatewayConfiguration.

Module BackendModel.
Record t := Make { id : uuid; type : BackendType.t }.
#[global] Instance eq_dec : EqDecision t.
Proof. solve_decision. Defined.
End BackendModel.

Module GatewayComputeModel.
Record t := Make {
  id : uuid;
  backend_id : option uuid;
  ip_address : string;
  region : string;
  instance_id : string;
  ssh_private_key : string;
  ssh_public_key : string;
  active : bool;
  deleted : bool;
}.
#[global] Instance eq_dec : EqDecision t.
Proof. solve_decision. Defined.
End GatewayComputeModel.

Module GatewayModel.
(** [configuration] is the JSON column, kept in parsed form;
    [backend] and [gateway_compute] are the loaded relationships. *)
Record t := Make {
  id : uuid;
  name : string;
  region : string;
  project_id : uuid;
  backend : BackendModel.t;
  wildcard_domain : option string;
  configuration : option GatewayConfiguration.t;
  status : GatewayStatus.t;
  status_message : option string;
  created_at : Z;
  last_processed_at : Z;
  gateway_compute : option GatewayComputeModel.t;
}.
#[global] Instance eq_dec : EqDecision t.
Proof. solve_decision. Defined.
End GatewayModel.

Module ProjectModel.
Record t := Make {
  id : uuid;
  name : string;
  ssh_private_key : string;
  default_gateway_id : option uuid;
  default_gateway : option GatewayModel.t;
}.
#[global] Instance eq_dec : EqDecision t.
Proof. solve_decision. Defined.
Definition set_default_gateway (g : GatewayModel.t) (p : t) : t :=
  Make (id p) (name p) (ssh_private_key p) (Some (GatewayModel.id g)) (Some g).
End ProjectModel.

Module Gateway.
(** The public view of a gateway. *)
Record t := Make {
  name : string;
  ip_address : string;
  instance_id : string;
  region : string;
  wildcard_domain : option string;
  default : bool;
  created_at : Z;
  backend : BackendType.t;
  status : GatewayStatus.t;
  status_message : option string;
  configuration : GatewayConfiguration.t;
}.
End Gateway.

Module ServiceModel.
(** [run_spec.configuration.model] *)
Record t := Make { name : string; type : string }.
#[global] Instance eq_dec : EqDecision t.
Proof. solve_decision. Defined.
End ServiceModel.

Module ServiceConfiguration.
Record t := Make {
  https : bool;
  auth : bool;
  model : option ServiceModel.t;
}.
#[global] Instance eq_dec : EqDecision t.
Proof. solve_decision. Defined.
End ServiceConfiguration.

Module RunSpec.
Record t := Make { configuration : ServiceConfiguration.t }.
#[global] Instance eq_dec : EqDecision t.
Proof. solve_decision. Defined.
End RunSpec.

Abbreviation Options := (list (string * string)) (only parsing).

Module ServiceModelSpec.
Record t := Make { name : string; base_url : string; type : string }.
#[global] Instance eq_dec : EqDecision t.
Proof. solve_decision. Defined.
End ServiceModelSpec.

Module ServiceSpec.
Record t := Make {
  url : string;
  model : option ServiceModelSpec.t;
  options : Options;
}.
#[global] Instance eq_dec : EqDecision t.
Proof. solve_decision. Defined.
Definition set_model (m : ServiceModelSpec.t) (s : t) : t :=
  Make (url s) (Some m) (options s).
Definition set_options (o : Options) (s : t) : t :=
  Make (url s) (model s) o.
End ServiceSpec.

Module RunModel.
(** [run_spec] and [service_spec] are JSON columns, kept in parsed form.
    Assigning the relationship [run_model.gateway] sets [gateway_id]. *)
Record t := Make {
  id : uuid;
  run_name : string;
  project_id : uuid;
  project : ProjectModel.t;
  run_spec : RunSpec.t;
  gateway_id : option uuid;
  service_spec : option ServiceSpec.t;
}.
#[global] Instance eq_dec : EqDecision t.
Proof. solve_decision. Defined.
Definition set_gateway (g : GatewayModel.t) (r : t) : t :=
  Make (id r) (run_name r) (project_id r) (project r) (run_spec r)
       (Some (GatewayModel.id g)) (service_spec r).
Definition set_service_spec (s : ServiceSpec.t) (r : t) : t :=
  Make (id r) (run_name r) (project_id r) (project r) (run_spec r)
       (gateway_id r) (Some s).
End RunModel.

Module JobModel.
Record t := Make { id : uuid; run_id : uuid }.
#[global] Instance eq_dec : EqDecision t.
Proof. solve_decision. Defined.
End JobModel.

Module GatewayConnection.
(** A pool entry: the host it tunnels to and the key it was opened with. *)
Record t := Make { ip_address : string; id_rsa : string }.
#[global] Instance eq_dec : EqDecision t.
Proof. solve_decision. Defined.
End GatewayConnection.

(** ** Requests to the gateway daemon and observable events *)

Inductive Request :=
| SubmitGatewayConfig
| RegisterService (project : string) (run_id : uuid) (domain : option string)
    (service_https gateway_https : bool) (auth : bool) (options : Options)
    (ssh_private_key : string)
| UnregisterService (project : string) (run_id : uuid)
| UnregisterReplica (project : string) (run_id job_id : uuid).

Inductive LogLevel := DEBUG | INFO | WARNING | ERROR.

Inductive Event :=
| EvSleep (seconds : nat)
| EvLog (level : LogLevel) (format : string)
| EvRequest (host : string) (request : Request)
| EvPoolAdd (host : string)
| EvPoolGet (host : string)
| EvSessionGet (table : string) (key : option uuid)
| EvTerminateInstance (instance_id region : string).

(** ** The world *)

Record World := MkWorld {
  gateways : gmap uuid GatewayModel.t;
  gateway_computes : gmap uuid GatewayComputeModel.t;
  projects : gmap uuid ProjectModel.t;
  runs : gmap uuid RunModel.t;
  gateway_connections_pool : gmap string GatewayConnection.t;
  PROCESSING_GATEWAYS_IDS : gset uuid;
  clock : nat;
  trace : list Event;
}.

Definition set_gateways f (w : World) : World :=
  MkWorld (f (gateways w)) (gateway_computes w) (projects w) (runs w)
    (gateway_connections_pool w) (PROCESSING_GATEWAYS_IDS w) (clock w) (trace w).
Definition set_gateway_computes f (w : World) : World :=
  MkWorld (gateways w) (f (gateway_computes w)) (projects w) (runs w)
    (gateway_connections_pool w) (PROCESSING_GATEWAYS_IDS w) (clock w) (trace w).
Definition set_projects f (w : World) : World :=
  MkWorld (gateways w) (gateway_computes w) (f (projects w)) (runs w)
    (gateway_connections_pool w) (PROCESSING_GATEWAYS_IDS w) (clock w) (trace w).
Definition set_runs f (w : World) : World :=
  MkWorld (gateways w) (gateway_computes w) (projects w) (f (runs w))
    (gateway_connections_pool w) (PROCESSING_GATEWAYS_IDS w) (clock w) (trace w).
Definition set_pool f (w : World) : World :=
  MkWorld (gateways w) (gateway_computes w) (projects w) (runs w)
    (f (gateway_connections_pool w)) (PROCESSING_GATEWAYS_IDS w) (clock w) (trace w).
Definition set_processing f (w : World) : World :=
  MkWorld (gateways w) (gateway_computes w) (projects w) (runs w)
    (gateway_connections_pool w) (f (PROCESSING_GATEWAYS_IDS w)) (clock w) (trace w).
Definition tick (w : World) : World :=
  MkWorld (gateways w) (gateway_computes w) (projects w) (runs w)
    (gateway_connections_pool w) (PROCESSING_GATEWAYS_IDS w) (S (clock w)) (trace w).
Definition record_event (ev : Event) (w : World) : World :=
  MkWorld (gateways w) (gateway_computes w) (projects w) (runs w)
    (gateway_connections_pool w) (PROCESSING_GATEWAYS_IDS w) (clock w) (trace w ++ [ev]).

(** ** The monad of coroutines

    A coroutine run to completion returns, raises, or never completes
    ([Hang]: it waits for something no one else will do). *)

Inductive Result (A : Type) :=
| Return (a : A)
| Raise (e : Exn)
| Hang.
Arguments Return {A} a.
Arguments Raise {A} e.
Arguments Hang {A}.

Definition M (A : Type) : Type := World → Result A * World.

#[export] Instance M_ret : MRet M := λ A a w, (Return a, w).
#[export] Instance M_bind : MBind M := λ A B f m w,
  match m w with
  | (Return a, w') => f a w'
  | (Raise e, w') => (Raise e, w')
  | (Hang, w') => (Hang, w')
  end.

Definition raise {A} (e : Exn) : M A := λ w, (Raise e, w).
Definition hang {A} : M A := λ w, (Hang, w).
Definition get_world : M World := λ w, (Return w, w).
Definition modify (f : World → World) : M unit := λ w, (Return tt, f w).
Definition emit (ev : Event) : M unit := modify (record_event ev).

(** [try: body except <classes>: handler]; [handler e] is [None] when no
    [except] clause names the class of [e], which then propagates. *)
Definition try_except {A} (body : M A) (handler : Exn → option (M A)) : M A :=
  λ w, match body w with
       | (Raise e, w') =>
           match handler e with
           | Some h => h w'
           | None => (Raise e, w')
           end
       | r => r
       end.

Definition logger (level : LogLevel) (format : string) : M unit :=
  emit (EvLog level format).
Definition sleep (seconds : nat) : M unit := emit (EvSleep seconds).

Definition GATEWAY_CONNECT_ATTEMPTS : nat := 30.
Definition GATEWAY_CONNECT_DELAY : nat := 10.
Definition GATEWAY_CONFIGURE_ATTEMPTS : nat := 40.
Definition GATEWAY_CONFIGURE_DELAY : nat := 3.

(** ** The outside

    What the module calls but does not define is taken as given: the outcome
    of an SSH handshake, of a request to a gateway daemon and of a backend
    call depends on the moment it is made (the clock); the other helpers are
    pure. *)

Section Gateways.

(** [None]: the tunnel opens; [Some e]: constructing the connection raises. *)
Variable ssh_handshake : nat → string → string → option Exn.
(** [None]: the daemon accepts the request; [Some e]: entering
    [conn.client()] or the call itself raises [e]. *)
Variable daemon : nat → string → Request → option Exn.
(** [backend.compute().terminate_instance(instance_id, region, None)] *)
Variable terminate_instance : nat → string → string → option Exn.
(** [urlparse(url).hostname], [get_service_options], [repr] *)
Variable urlparse_hostname : string → option string.
Variable get_service_options : ServiceConfiguration.t → Options.
Variable repr : Exn → string.

(** *** Connection pool *)

(** Modelled from the spec: [gateway_connections_pool.get] of
    [gateways/pool.py], a snapshot lookup by host. *)
Definition pool_get (host : string) : M (option GatewayConnection.t) :=
  _ ← emit (EvPoolGet host);
  w ← get_world;
  mret (gateway_connections_pool w !! host).

(** Modelled from the spec: [gateway_connections_pool.add] of
    [gateways/pool.py]; an existing entry is returned as it is, a new one
    is stored only when the handshake succeeds. *)
Definition pool_add (host private_key : string) : M GatewayConnection.t :=
  _ ← emit (EvPoolAdd host);
  w ← get_world;
  match gateway_connections_pool w !! host with
  | Some conn => mret conn
  | None =>
      _ ← modify tick;
      match ssh_handshake (clock w) host private_key with
      | Some e => raise e
      | None =>
          let conn := GatewayConnection.Make host private_key in
          _ ← modify (set_pool (insert host conn));
          mret conn
      end
  end.

(** Modelled from the spec: [gateway_connections_pool.remove] of
    [gateways/pool.py], safe on unknown hosts. *)
Definition pool_remove (host : string) : M unit :=
  modify (set_pool (delete host)).

(** [async with conn.client() as client: await client.<request>(...)] *)
Definition send (conn : GatewayConnection.t) (request : Request) : M unit :=
  w ← get_world;
  _ ← emit (EvRequest (GatewayConnection.ip_address conn) request);
  _ ← modify tick;
  match daemon (clock w) (GatewayConnection.ip_address conn) request with
  | Some e => raise e
  | None => mret tt
  end.

(** *** Service registrar *)

(** Line 353:
    [gateway.wildcard_domain.lstrip("*.") if gateway.wildcard_domain else None] *)
Definition stripped_wildcard_domain (gateway : GatewayModel.t) : option string :=
  match GatewayModel.wildcard_domain gateway with
  | Some domain => if Py.truthy domain then Some (Py.lstrip "*." domain) else None
  | None => None
  end.

Definition protocol (https : bool) : string := if https then "https" else "http".

Definition register_service (run_model : RunModel.t) : M unit :=
  let run_spec := RunModel.run_spec run_model in
  (* gateway_name is the constant None: the default gateway is taken *)
  gateway ← match ProjectModel.default_gateway (RunModel.project run_model) with
             | None => raise (ResourceNotExistsError (Some "Default gateway is not set"))
             | Some gateway => mret gateway
             end;
  gateway_compute ← match GatewayModel.gateway_compute gateway with
                     | None => raise (ServerClientError "Gateway has no instance associated with it")
                     | Some compute => mret compute
                     end;
  _ ← (if decide (GatewayModel.status gateway ≠ GatewayStatus.RUNNING)
        then raise (ServerClientError "Gateway status is not running")
        else mret tt);
  let service_https := ServiceConfiguration.https (RunSpec.configuration run_spec) in
  let service_protocol := protocol service_https in
  gateway_configuration ←
    match GatewayModel.configuration gateway with
    | None => mret None
    | Some configuration =>
        if service_https && negb (GatewayConfiguration.public_ip configuration)
        then raise (ServerClientError "Cannot run HTTPS service on gateway without public IP")
        else mret (Some configuration)
    end;
  let gateway_https :=
    match gateway_configuration with
    | None => true
    | Some configuration => GatewayConfiguration.public_ip configuration
    end in
  let gateway_protocol := protocol gateway_https in
  wildcard_domain ← match stripped_wildcard_domain gateway with
                     | None => raise (ServerClientError "Domain is required for gateway")
                     | Some domain => mret domain
                     end;
  let service_spec :=
    ServiceSpec.Make
      (service_protocol ++ "://" ++ RunModel.run_name run_model ++ "." ++ wildcard_domain)
      None [] in
  let service_spec :=
    match ServiceConfiguration.model (RunSpec.configuration run_spec) with
    | None => service_spec
    | Some model =>
        ServiceSpec.set_options (get_service_options (RunSpec.configuration run_spec))
          (ServiceSpec.set_model
             (ServiceModelSpec.Make (ServiceModel.name model)
                (gateway_protocol ++ "://gateway." ++ wildcard_domain)
                (ServiceModel.type model))
             service_spec)
    end in
  _ ← modify (set_runs (insert (RunModel.id run_model)
                (RunModel.set_service_spec service_spec
                   (RunModel.set_gateway gateway run_model))));
  conn ← pool_get (GatewayComputeModel.ip_address gateway_compute);
  conn ← match conn with
          | None => raise (ServerClientError "Gateway is not connected")
          | Some conn => mret conn
          end;
  try_except
    (_ ← logger DEBUG "%s: registering service as %s";
     _ ← send conn
           (RegisterService
              (ProjectModel.name (RunModel.project run_model))
              (RunModel.id run_model)
              (urlparse_hostname (ServiceSpec.url service_spec))
              service_https
              gateway_https
              (ServiceConfiguration.auth (RunSpec.configuration run_spec))
              (ServiceSpec.options service_spec)
              (ProjectModel.ssh_private_key (RunModel.project run_model)));
     logger INFO "%s: service is registered as %s")
    (λ e, match e with
          | SSHError _ => Some (raise (ServerClientError "Gateway tunnel is not working"))
          | RequestError _ =>
              Some (_ ← logger DEBUG "Gateway request failed";
                    raise (GatewayError ("Gateway is not working: " ++ repr e)))
          | _ => None
          end).

(** [session.get(GatewayModel, gateway_id)]; a null key finds no row. *)
Definition session_get_gateway (gateway_id : option uuid) : M (option GatewayModel.t) :=
  _ ← emit (EvSessionGet "gateways" gateway_id);
  w ← get_world;
  mret (gateway_id ≫= (gateways w !!.)).

Definition get_gateway_connection (gateway_id : option uuid) : M GatewayConnection.t :=
  gateway ← session_get_gateway gateway_id;
  match gateway with
  | None => raise (GatewayError "Gateway doesn't exist")
  | Some gateway =>
      match GatewayModel.gateway_compute gateway with
      | None => raise (GatewayError "Gateway is broken, no compute")
      | Some gateway_compute =>
          conn ← pool_get (GatewayComputeModel.ip_address gateway_compute);
          match conn with
          | None => raise (GatewayError "Gateway is not connected")
          | Some conn => mret conn
          end
      end
  end.

(** [session.get(ProjectModel, project_id)] *)
Definition session_get_project (project_id : uuid) : M (option ProjectModel.t) :=
  _ ← emit (EvSessionGet "projects" (Some project_id));
  w ← get_world;
  mret (projects w !! project_id).

(** [obj.attr] on an [Optional]: [AttributeError] on [None]. *)
Definition attr {A B} (obj : option A) (field : A → B) : M B :=
  match obj with
  | None => raise AttributeError
  | Some a => mret (field a)
  end.

Definition unregister_service (run_model : RunModel.t) : M unit :=
  conn ← get_gateway_connection (RunModel.gateway_id run_model);
  project ← session_get_project (RunModel.project_id run_model);
  try_except
    (_ ← logger DEBUG "%s: unregistering service";
     project_name ← attr project ProjectModel.name;
     _ ← send conn (UnregisterService project_name (RunModel.id run_model));
     logger DEBUG "%s: service is unregistered")
    (λ e, match e with
          | GatewayError _ =>
              (* ignore if service is not registered *)
              Some (logger WARNING "%s: unregistering service: %s")
          | RequestError _ | SSHError _ =>
              Some (_ ← logger DEBUG "Gateway request failed";
                    raise (GatewayError (repr e)))
          | _ => None
          end).

(** [select(RunModel).where(RunModel.id == run_id)] followed by
    [res.scalar()] *)
Definition select_run (run_id : uuid) : M (option RunModel.t) :=
  _ ← emit (EvSessionGet "runs" (Some run_id));
  w ← get_world;
  mret (runs w !! run_id).

Definition unregister_replica (job_model : JobModel.t) : M unit :=
  run_model ← select_run (JobModel.run_id job_model);
  gateway_id ← attr run_model RunModel.gateway_id;
  match gateway_id with
  | None => mret tt
  | Some _ =>
      conn ← get_gateway_connection gateway_id;
      try_except
        (_ ← logger DEBUG "%s: unregistering replica from service %s";
         project_name ← attr run_model (λ r, ProjectModel.name (RunModel.project r));
         run_id ← attr run_model RunModel.id;
         _ ← send conn (UnregisterReplica project_name run_id (JobModel.id job_model));
         logger INFO "%s: replica is unregistered from service %s")
        (λ e, match e with
              | GatewayError _ =>
                  (* ignore if replica is not registered *)
                  Some (logger WARNING "%s: unregistering replica from service: %s")
              | RequestError _ | SSHError _ =>
                  Some (_ ← logger DEBUG "Gateway request failed";
                        raise (GatewayError (repr e)))
              | _ => None
              end)
  end.

(** *** Retry loops *)

(** The body of [for attempt in range(GATEWAY_CONNECT_ATTEMPTS)]: [inl] is
    the [break] with the connection, [inr] the end of an iteration. *)
Definition connect_attempt (gateway_compute : GatewayComputeModel.t) (attempt : nat)
  : M (GatewayConnection.t + unit) :=
  try_except
    (connection ← pool_add (GatewayComputeModel.ip_address gateway_compute)
                     (GatewayComputeModel.ssh_private_key gateway_compute);
     mret (inl connection))
    (λ e, match e with
          | SSHError _ =>
              Some (if (attempt <? GATEWAY_CONNECT_ATTEMPTS - 1)%nat
                    then _ ← logger DEBUG "Failed to connect to gateway %s: %s";
                         _ ← sleep GATEWAY_CONNECT_DELAY;
                         mret (inr tt)
                    else _ ← logger ERROR "Failed to connect to gateway %s: %s";
                         mret (inr tt))
          | _ => None
          end).

Fixpoint connect_loop (gateway_compute : GatewayComputeModel.t) (attempts : list nat)
    (connection : option GatewayConnection.t) : M (option GatewayConnection.t) :=
  match attempts with
  | [] => mret connection
  | attempt :: rest =>
      r ← connect_attempt gateway_compute attempt;
      match r with
      | inl connection => mret (Some connection)
      | inr _ => connect_loop gateway_compute rest connection
      end
  end.

Definition connect_to_gateway_with_retry (gateway_compute : GatewayComputeModel.t)
  : M (option GatewayConnection.t) :=
  connect_loop gateway_compute (seq 0 GATEWAY_CONNECT_ATTEMPTS) None.

(** The body of [for attempt in range(GATEWAY_CONFIGURE_ATTEMPTS - 1)]:
    [true] is the [break]. *)
Definition configure_attempt (connection : GatewayConnection.t) (attempt : nat) : M bool :=
  try_except
    (_ ← send connection SubmitGatewayConfig;
     mret true)
    (λ e, match e with
          | RequestError _ =>
              Some (_ ← logger DEBUG "Failed attempt %s/%s at configuring gateway %s: %r";
                    _ ← sleep GATEWAY_CONFIGURE_DELAY;
                    mret false)
          | _ => None
          end).

(** [for ... else]: the [else] suite runs when the loop ends without
    [break]. *)
Fixpoint configure_loop (connection : GatewayConnection.t) (attempts : list nat) : M unit :=
  match attempts with
  | [] => send connection SubmitGatewayConfig
  | attempt :: rest =>
      broke ← configure_attempt connection attempt;
      if broke : bool then mret tt else configure_loop connection rest
  end.

Definition configure_gateway (connection : GatewayConnection.t) : M unit :=
  _ ← logger DEBUG "Configuring gateway %s";
  _ ← configure_loop connection (seq 0 (GATEWAY_CONFIGURE_ATTEMPTS - 1));
  logger INFO "Gateway %s configured".

(** *** Lifecycle manager *)

(** [get_project_backend_by_type_or_error] and
    [get_project_backend_with_model_by_type_or_error] of
    [services/backends]: the project's backend of that type, or an error. *)
Variable get_project_backend_by_type_or_error :
  ProjectModel.t → BackendType.t → option Exn.
Variable get_project_backend_with_model_by_type_or_error :
  ProjectModel.t → BackendType.t → Exn + BackendModel.t.
Variable BACKENDS_WITH_PRIVATE_GATEWAY_SUPPORT : list BackendType.t.
(** [random_names.generate_name()], the primary key given to a new row and
    [get_current_datetime()], each at a moment of the clock. *)
Variable generate_name : nat → string.
Variable uuid4 : nat → uuid.
Variable get_current_datetime : nat → Z.

Definition list_project_gateway_models (project : ProjectModel.t)
  : M (list GatewayModel.t) :=
  w ← get_world;
  mret (filter (λ g, GatewayModel.project_id g = ProjectModel.id project)
          (map_to_list (gateways w)).*2).

Definition get_project_gateway_model_by_name (project : ProjectModel.t) (name : string)
  : M (option GatewayModel.t) :=
  w ← get_world;
  mret (head (filter (λ g, GatewayModel.project_id g = ProjectModel.id project
                           ∧ GatewayModel.name g = name)
                (map_to_list (gateways w)).*2)).

(** Modelled from the spec: [wait_to_lock] of [server/utils/common.py] on
    [PROCESSING_GATEWAYS_LOCK] and [PROCESSING_GATEWAYS_IDS]: it inserts the
    id once it is absent, and retries for as long as it is present. *)
Definition wait_to_lock (key : uuid) : M unit :=
  w ← get_world;
  if decide (key ∈ PROCESSING_GATEWAYS_IDS w)
  then hang
  else modify (set_processing (λ ids, {[key]} ∪ ids)).

(** [run_async(backend.compute().terminate_instance, instance_id, region, None)] *)
Definition run_terminate_instance (instance_id region : string) : M unit :=
  w ← get_world;
  _ ← emit (EvTerminateInstance instance_id region);
  _ ← modify tick;
  match terminate_instance (clock w) instance_id region with
  | Some e => raise e
  | None => mret tt
  end.

(** What the backend answers when the instance of [gateway] is terminated
    at moment [n]; without an instance there is nothing to terminate. *)
Definition termination_outcome (n : nat) (gateway : GatewayModel.t) : option Exn :=
  match GatewayModel.gateway_compute gateway with
  | Some c =>
      terminate_instance n (GatewayComputeModel.instance_id c)
        (GatewayComputeModel.region c)
  | None => None
  end.

Definition _terminate_gateway (gateway : GatewayModel.t) : M unit :=
  _ ← wait_to_lock (GatewayModel.id gateway);
  match GatewayModel.gateway_compute gateway with
  | Some gateway_compute =>
      run_terminate_instance (GatewayComputeModel.instance_id gateway_compute)
        (GatewayComputeModel.region gateway_compute)
  | None => mret tt
  end.

(** [asyncio.gather] of the tasks with [return_exceptions=True], the tasks
    taken in order: a task's exception becomes its result. *)
Fixpoint gather (tasks : list (M unit)) : M (list (option Exn)) :=
  match tasks with
  | [] => mret []
  | task :: rest =>
      r ← ((λ w, match task w with
                 | (Return _, w') => (Return None, w')
                 | (Raise e, w') => (Return (Some e), w')
                 | (Hang, w') => (Hang, w')
                 end) : M (option Exn));
      rs ← gather rest;
      mret (r :: rs)
  end.

(** Lines 206-213: the gateways to terminate. *)
Fixpoint select_gateways (project : ProjectModel.t) (gateways_names : list string)
    (rows : list GatewayModel.t) : M (list GatewayModel.t) :=
  match rows with
  | [] => mret []
  | gateway :: rest =>
      if decide (BackendModel.type (GatewayModel.backend gateway) = BackendType.DSTACK)
      then select_gateways project gateways_names rest
      else if decide (GatewayModel.name gateway ∉ gateways_names)
      then select_gateways project gateways_names rest
      else
        _ ← match get_project_backend_by_type_or_error project
                    (BackendModel.type (GatewayModel.backend gateway)) with
             | Some e => raise e
             | None => mret tt
             end;
        gateways ← select_gateways project gateways_names rest;
        mret (gateway :: gateways)
  end.

Definition tombstone (c : GatewayComputeModel.t) : GatewayComputeModel.t :=
  GatewayComputeModel.Make
    (GatewayComputeModel.id c) (GatewayComputeModel.backend_id c)
    (GatewayComputeModel.ip_address c) (GatewayComputeModel.region c)
    (GatewayComputeModel.instance_id c) (GatewayComputeModel.ssh_private_key c)
    (GatewayComputeModel.ssh_public_key c) false true.

(** Lines 216-224. *)
Fixpoint remove_terminated (results : list (GatewayModel.t * option Exn)) : M unit :=
  match results with
  | [] => mret tt
  | (gateway, error) :: rest =>
      _ ← match error with
           | Some _ => mret tt (* ignore error, but keep gateway *)
           | None =>
               _ ← match GatewayModel.gateway_compute gateway with
                    | Some gateway_compute =>
                        _ ← pool_remove (GatewayComputeModel.ip_address gateway_compute);
                        modify (set_gateway_computes
                                  (insert (GatewayComputeModel.id gateway_compute)
                                     (tombstone gateway_compute)))
                    | None => mret tt
                    end;
               modify (set_gateways (delete (GatewayModel.id gateway)))
           end;
      remove_terminated rest
  end.

(** [PROCESSING_GATEWAYS_IDS.remove(id)]: [KeyError] when absent. *)
Definition processing_ids_remove (key : uuid) : M unit :=
  w ← get_world;
  if decide (key ∈ PROCESSING_GATEWAYS_IDS w)
  then modify (set_processing (λ ids, ids ∖ {[key]}))
  else raise KeyError.

(** Lines 225-226. *)
Fixpoint release (gateways : list GatewayModel.t) : M unit :=
  match gateways with
  | [] => mret tt
  | gateway :: rest =>
      _ ← processing_ids_remove (GatewayModel.id gateway);
      release rest
  end.

Definition delete_gateways (project : ProjectModel.t) (gateways_names : list string)
  : M unit :=
  rows ← list_project_gateway_models project;
  gateways ← select_gateways project gateways_names rows;
  let tasks := map _terminate_gateway gateways in
  (* terminate in parallel *)
  terminate_results ← gather tasks;
  _ ← remove_terminated (zip gateways terminate_results);
  release gateways.

(** Lines 148-151, the message of the rejection. *)
Definition private_gateway_message (backend : BackendType.t) : string :=
  "Private gateways are not supported for " ++ BackendType.value backend ++ " backend. "
  ++ "Supported backends: "
  ++ Py.repr_str_list (map BackendType.value BACKENDS_WITH_PRIVATE_GATEWAY_SUPPORT)
  ++ ".".

(** [while True: name = random_names.generate_name() ...], with a bound on
    the number of names drawn; the loop that never finds a free name does
    not complete. *)
Fixpoint draw_name (names : list string) (fuel : nat) : M string :=
  match fuel with
  | 0 => hang
  | S fuel =>
      w ← get_world;
      _ ← modify tick;
      let name := generate_name (clock w) in
      if decide (name ∉ names) then mret name else draw_name names fuel
  end.

Definition generate_gateway_name (fuel : nat) (project : ProjectModel.t) : M string :=
  gateways ← list_project_gateway_models project;
  let names := map GatewayModel.name gateways in
  draw_name names fuel.

(** Modelled from the spec: [session.add(gateway)] and [session.commit()]
    on the gateways table, with its primary key and its unique constraint
    on [(project_id, name)]. *)
Definition session_add_gateway (gateway : GatewayModel.t) : M unit :=
  w ← get_world;
  if decide (is_Some (gateways w !! GatewayModel.id gateway)
             ∨ Exists (λ g, GatewayModel.project_id g = GatewayModel.project_id gateway
                            ∧ GatewayModel.name g = GatewayModel.name gateway)
                 (map_to_list (gateways w)).*2)
  then raise (OtherError "IntegrityError")
  else modify (set_gateways (insert (GatewayModel.id gateway) gateway)).

Definition set_default_gateway (project : ProjectModel.t) (name : string) : M unit :=
  gateway ← get_project_gateway_model_by_name project name;
  match gateway with
  | None => raise (ResourceNotExistsError None)
  | Some gateway =>
      modify (set_projects
                (alter (ProjectModel.set_default_gateway gateway) (ProjectModel.id project)))
  end.

(** Gateways created before [GatewayConfiguration] was introduced get one
    with [public_ip] at its default, true. *)
Definition get_gateway_configuration (gateway_model : GatewayModel.t)
  : GatewayConfiguration.t :=
  match GatewayModel.configuration gateway_model with
  | Some configuration => configuration
  | None =>
      GatewayConfiguration.Make
        (Some (GatewayModel.name gateway_model))
        false
        (BackendModel.type (GatewayModel.backend gateway_model))
        (GatewayModel.region gateway_model)
        (GatewayModel.wildcard_domain gateway_model)
        true
  end.

Definition gateway_model_to_gateway (gateway_model : GatewayModel.t) : M Gateway.t :=
  let ip_address :=
    from_option GatewayComputeModel.ip_address "" (GatewayModel.gateway_compute gateway_model) in
  let instance_id :=
    from_option GatewayComputeModel.instance_id "" (GatewayModel.gateway_compute gateway_model) in
  let backend_type := BackendModel.type (GatewayModel.backend gateway_model) in
  let backend_type :=
    if decide (BackendModel.type (GatewayModel.backend gateway_model) = BackendType.DSTACK)
    then BackendType.AWS else backend_type in
  let configuration := get_gateway_configuration gateway_model in
  w ← get_world;
  let project := projects w !! GatewayModel.project_id gateway_model in
  default_gateway_id ← attr project ProjectModel.default_gateway_id;
  let default := bool_decide (default_gateway_id = Some (GatewayModel.id gateway_model)) in
  let configuration := GatewayConfiguration.set_default default configuration in
  mret (Gateway.Make
          (GatewayModel.name gateway_model)
          ip_address
          instance_id
          (GatewayModel.region gateway_model)
          (GatewayModel.wildcard_domain gateway_model)
          default
          (GatewayModel.created_at gateway_model)
          backend_type
          (GatewayModel.status gateway_model)
          (GatewayModel.status_message gateway_model)
          configuration).

Definition create_gateway (fuel : nat) (project : ProjectModel.t)
    (configuration : GatewayConfiguration.t) : M Gateway.t :=
  backend_model ←
    match get_project_backend_with_model_by_type_or_error project
            (GatewayConfiguration.backend configuration) with
    | inl e => raise e
    | inr backend_model => mret backend_model
    end;
  _ ← (if negb (GatewayConfiguration.public_ip configuration)
          && bool_decide (GatewayConfiguration.backend configuration
                          ∉ BACKENDS_WITH_PRIVATE_GATEWAY_SUPPORT)
        then raise (ServerClientError
                      (private_gateway_message (GatewayConfiguration.backend configuration)))
        else mret tt);
  '(name, configuration) ←
    match GatewayConfiguration.name configuration with
    | None =>
        name ← generate_gateway_name fuel project;
        mret (name, GatewayConfiguration.set_name name configuration)
    | Some name => mret (name, configuration)
    end;
  w ← get_world;
  _ ← modify tick;
  let gateway :=
    GatewayModel.Make
      (uuid4 (clock w))
      name
      (GatewayConfiguration.region configuration)
      (ProjectModel.id project)
      backend_model
      (GatewayConfiguration.domain configuration)
      (Some configuration)
      GatewayStatus.SUBMITTED
      None
      (get_current_datetime (clock w))
      (get_current_datetime (clock w))
      None in
  _ ← session_add_gateway gateway;
  _ ← (if decide (ProjectModel.default_gateway project = None)
        then set_default_gateway project name
        else if GatewayConfiguration.default configuration
        then set_default_gateway project name
        else mret tt);
  gateway_model_to_gateway gateway.

End Gateways.

(** ** Observations on a trace *)

Definition is_RequestError (e : Exn) : bool :=
  match e with RequestError _ => true | _ => false end.

Definition is_SSHError (e : Exn) : bool :=
  match e with SSHError _ => true | _ => false end.

(** The number of requests sent to gateway daemons. *)
Fixpoint count_requests (t : list Event) : nat :=
  match t with
  | [] => 0
  | EvRequest _ _ :: t => S (count_requests t)
  | _ :: t => count_requests t
  end.

(** The number of calls to [gateway_connections_pool.add]. *)
Fixpoint count_pool_adds (t : list Event) : nat :=
  match t with
  | [] => 0
  | EvPoolAdd _ :: t => S (count_pool_adds t)
  | _ :: t => count_pool_adds t
  end.

(** The number of sleeps. *)
Fixpoint count_sleeps (t : list Event) : nat :=
  match t with
  | [] => 0
  | EvSleep _ :: t => S (count_sleeps t)
  | _ :: t => count_sleeps t
  end.

(** The events a computation adds to the trace of [w]. *)
Definition events_since (w w' : World) : list Event :=
  drop (List.length (trace w)) (trace w').

(** ** Predicates on gateways *)

(** The gateways [delete_gateways] goes on to terminate: not of the [DSTACK]
    backend, and named in the request. *)
Definition processed (gateways_names : list string) (gateway : GatewayModel.t) : Prop :=
  BackendModel.type (GatewayModel.backend gateway) ≠ BackendType.DSTACK
  ∧ GatewayModel.name gateway ∈ gateways_names.

#[global] Instance processed_dec gateways_names gateway :
  Decision (processed gateways_names gateway).
Proof. unfold processed. apply _. Defined.

Definition is_tombstone (c : GatewayComputeModel.t) : Prop :=
  GatewayComputeModel.active c = false ∧ GatewayComputeModel.deleted c = true.

(** The rows of the gateways table are stored under their primary key. *)
Definition keyed_by_id (w : World) : Prop :=
  ∀ key gateway, gateways w !! key = Some gateway → GatewayModel.id gateway = key.

(** ** Concrete worlds

    Stand-ins for the outside and a small project, used to run the
    definitions on examples. *)

Module Fixtures.

Definition tunnel_opens : nat → string → string → option Exn := λ _ _ _, None.
Definition tunnel_never_opens : nat → string → string → option Exn :=
  λ _ _ _, Some (SSHError "timed out").
Definition daemon_accepts : nat → string → Request → option Exn := λ _ _ _, None.
(** The daemon of the retry scenario: [RequestError] on the first three
    requests, success afterwards. *)
Definition daemon_starting : nat → string → Request → option Exn :=
  λ n _ _, if (n <? 3)%nat then Some (RequestError "connection refused") else None.
Definition daemon_without_service : nat → string → Request → option Exn :=
  λ _ _ _, Some (GatewayError "service not found").
Definition backend_terminates : nat → string → string → option Exn := λ _ _ _, None.
(** A backend that fails to terminate the instance [i-01]. *)
Definition backend_fails_on_i01 : nat → string → string → option Exn :=
  λ _ instance_id _,
    if decide (instance_id = "i-01") then Some (OtherError "backend failure") else None.
Definition hostname (url : string) : option string := None.
Definition no_options : ServiceConfiguration.t → Options := λ _, [].
Definition class_name (e : Exn) : string :=
  match e with
  | ServerClientError _ => "ServerClientError"
  | ResourceNotExistsError _ => "ResourceNotExistsError"
  | GatewayError _ => "GatewayError"
  | SSHError _ => "SSHError"
  | RequestError _ => "RequestError"
  | KeyError => "KeyError"
  | AttributeError => "AttributeError"
  | OtherError _ => "Exception"
  end.
Definition backend_found : ProjectModel.t → BackendType.t → option Exn := λ _ _, None.
Definition backend_with_model : ProjectModel.t → BackendType.t → Exn + BackendModel.t :=
  λ _ type, inr (BackendModel.Make 100 type).
Definition private_backends : list BackendType.t := [BackendType.KUBERNETES].
Definition names : nat → string :=
  λ n, if (n <? 1)%nat then "brave-otter" else "calm-heron".
Definition ids : nat → uuid := λ n, (1000 + N.of_nat n)%N.
Definition time : nat → Z := λ n, Z.of_nat n.

Definition aws : BackendModel.t := BackendModel.Make 100 BackendType.AWS.

Definition compute (id : uuid) (ip instance : string) : GatewayComputeModel.t :=
  GatewayComputeModel.Make id (Some 100%N) ip "us-east-1" instance "private" "public"
    true false.

Definition configuration (public_ip : bool) : GatewayConfiguration.t :=
  GatewayConfiguration.Make (Some "gw") false BackendType.AWS "us-east-1"
    (Some "*.example.com") public_ip.

Definition gateway (id : uuid) (name : string) (domain : option string)
    (cfg : option GatewayConfiguration.t) (status : GatewayStatus.t)
    (gc : option GatewayComputeModel.t) : GatewayModel.t :=
  GatewayModel.Make id name "us-east-1" 1%N aws domain cfg status None 0%Z 0%Z gc.

Definition project (default : option GatewayModel.t) : ProjectModel.t :=
  ProjectModel.Make 1 "main" "project-key" (GatewayModel.id <$> default) default.

Definition run (https : bool) (p : ProjectModel.t) : RunModel.t :=
  RunModel.Make 5 "svc" (ProjectModel.id p) p
    (RunSpec.Make (ServiceConfiguration.Make https false None)) None None.

Definition empty_world : World := MkWorld ∅ ∅ ∅ ∅ ∅ ∅ 0 [].

(** A running gateway whose connection is not in the pool. *)
Definition gw_running (domain : string) (public_ip : bool) : GatewayModel.t :=
  gateway 10 "gw" (Some domain) (Some (configuration public_ip)) GatewayStatus.RUNNING
    (Some (compute 20 "10.0.0.1" "i-01")).

Definition world_of (r : RunModel.t) : World :=
  MkWorld
    (from_option (λ g, {[GatewayModel.id g := g]}) ∅
       (ProjectModel.default_gateway (RunModel.project r)))
    ∅
    {[ProjectModel.id (RunModel.project r) := RunModel.project r]}
    {[RunModel.id r := r]} ∅ ∅ 0 [].

Definition connected (w : World) (c : GatewayConnection.t) : World :=
  set_pool (insert (GatewayConnection.ip_address c) c) w.

(** Two running gateways of the project, both connected. *)
Definition g1 : GatewayModel.t :=
  gateway 11 "g1" (Some "*.one.example.com") (Some (configuration true))
    GatewayStatus.RUNNING (Some (compute 21 "10.0.0.1" "i-01")).
Definition g2 : GatewayModel.t :=
  gateway 12 "g2" (Some "*.two.example.com") (Some (configuration true))
    GatewayStatus.RUNNING (Some (compute 22 "10.0.0.2" "i-02")).

Definition two_gateways : World :=
  MkWorld
    {[11%N := g1; 12%N := g2]}
    {[21%N := compute 21 "10.0.0.1" "i-01"; 22%N := compute 22 "10.0.0.2" "i-02"]}
    {[1%N := project (Some g1)]}
    ∅
    {["10.0.0.1" := GatewayConnection.Make "10.0.0.1" "private";
      "10.0.0.2" := GatewayConnection.Make "10.0.0.2" "private"]}
    ∅ 0 [].

(** A project whose only gateway is ["brave-otter"], its default. *)
Definition brave_otter : GatewayModel.t :=
  gateway 11 "brave-otter" None (Some (configuration true)) GatewayStatus.RUNNING None.

Definition one_gateway : World :=
  MkWorld {[11%N := brave_otter]} ∅ {[1%N := project (Some brave_otter)]} ∅ ∅ ∅ 0 [].

End Fixtures.

(** ** The rest of the module

    The functions of [gateways/__init__.py] that the sections above leave
    out: the read-only views, [set_gateway_wildcard_domain],
    [create_gateway_compute], [register_replica] and the startup
    reconciliation [init_gateways]. *)



(** The total time slept, in seconds. *)
Fixpoint slept (t : list Event) : nat :=
  match t with
  | [] => 0
  | EvSleep seconds :: t => seconds + slept t
  | _ :: t => slept t
  end.


Module Run.
(** [core/models/runs.Run], of which this module reads the id. *)
Record t := Make { id : uuid }.
End Run.

Module GatewayComputeConfiguration.
Record t := Make {
  project_name : string;
  instance_name : option string;
  backend : BackendType.t;
  region : string;
  public_ip : bool;
  ssh_key_pub : string;
}.
End GatewayComputeConfiguration.

Module LaunchedGatewayInfo.
(** What [backend_compute.create_gateway] returns. *)
Record t := Make {
  instance_id : string;
  ip_address : string;
  region : string;
}.
End LaunchedGatewayInfo.

Section Views.


Definition get_gateway_by_name (project : ProjectModel.t) (name : string)
  : M (option Gateway.t) :=
  gateway ← get_project_gateway_model_by_name project name;
  match gateway with
  | None => mret None
  | Some gateway => view ← gateway_model_to_gateway gateway; mret (Some view)
  end.

Definition get_project_default_gateway (project : ProjectModel.t) : M (option Gateway.t) :=
  match ProjectModel.default_gateway project with
  | None => mret None
  | Some gateway => view ← gateway_model_to_gateway gateway; mret (Some view)
  end.

(** [update(GatewayModel).where(project_id == ..., name == ...)
    .values(wildcard_domain=...)] on one row. *)
Definition with_wildcard_domain (project_id : uuid) (name : string)
    (wildcard_domain : option string) (g : GatewayModel.t) : GatewayModel.t :=
  if decide (GatewayModel.project_id g = project_id ∧ GatewayModel.name g = name)
  then GatewayModel.Make
         (GatewayModel.id g) (GatewayModel.name g) (GatewayModel.region g)
         (GatewayModel.project_id g) (GatewayModel.backend g) wildcard_domain
         (GatewayModel.configuration g) (GatewayModel.status g)
         (GatewayModel.status_message g) (GatewayModel.created_at g)
         (GatewayModel.last_processed_at g) (GatewayModel.gateway_compute g)
  else g.

Definition set_gateway_wildcard_domain (project : ProjectModel.t) (name : string)
    (wildcard_domain : option string) : M Gateway.t :=
  gateway ← get_project_gateway_model_by_name project name;
  match gateway with
  | None => raise (ResourceNotExistsError None)
  | Some gateway =>
      if decide (BackendModel.type (GatewayModel.backend gateway) = BackendType.DSTACK)
      then raise (ServerClientError "Custom domains for dstack Sky gateway are not supported")
      else
        _ ← modify (set_gateways
                      (fmap (with_wildcard_domain (ProjectModel.id project) name
                               wildcard_domain)));
        gateway ← get_project_gateway_model_by_name project name;
        match gateway with
        | None => raise (ResourceNotExistsError None)
        | Some gateway => gateway_model_to_gateway gateway
        end
  end.

End Views.

Section Replicas.

(** The answer of the daemon to [client.register_replica(run, job_submission)]
    sent at a moment of the clock to a host; the job submission is made from
    the job model by [jobs_services.job_model_to_job_submission]. *)
Variable daemon_register_replica : nat → string → Run.t → JobModel.t → option Exn.
Variable repr : Exn → string.

(** [async with conn.client() as client:
       await client.register_replica(run=run, job_submission=job_submission)] *)
Definition send_register_replica (conn : GatewayConnection.t) (run : Run.t)
    (job_model : JobModel.t) : M unit :=
  w ← get_world;
  _ ← modify tick;
  match daemon_register_replica (clock w) (GatewayConnection.ip_address conn)
          run job_model with
  | Some e => raise e
  | None => mret tt
  end.

Definition register_replica (gateway_id : uuid) (run : Run.t) (job_model : JobModel.t)
  : M unit :=
  conn ← get_gateway_connection (Some gateway_id);
  try_except
    (_ ← logger DEBUG "%s: registering replica for service %s";
     _ ← send_register_replica conn run job_model;
     logger INFO "%s: replica is registered for service %s")
    (λ e, match e with
          | RequestError _ | SSHError _ =>
              Some (_ ← logger DEBUG "Gateway request failed";
                    raise (GatewayError (repr e)))
          | _ => None
          end).

End Replicas.

Section Provisioning.

(** [generate_rsa_key_pair_bytes()], decoded: the private and the public key
    drawn at a moment of the clock. *)
Variable generate_rsa_key_pair : nat → string * string.
(** [run_async(backend_compute.create_gateway, compute_configuration)] *)
Variable backend_create_gateway :
  nat → GatewayComputeConfiguration.t → Exn + LaunchedGatewayInfo.t.
(** The primary key and the column defaults of a new [GatewayComputeModel]. *)
Variable uuid4 : nat → uuid.
Variable default_active default_deleted : bool.

Definition create_gateway_compute (project_name : string)
    (configuration : GatewayConfiguration.t) (backend_id : option uuid)
  : M GatewayComputeModel.t :=
  w ← get_world;
  _ ← modify tick;
  let '(gateway_ssh_private_key, gateway_ssh_public_key) :=
    generate_rsa_key_pair (clock w) in
  let compute_configuration :=
    GatewayComputeConfiguration.Make
      project_name
      (GatewayConfiguration.name configuration)
      (GatewayConfiguration.backend configuration)
      (GatewayConfiguration.region configuration)
      (GatewayConfiguration.public_ip configuration)
      gateway_ssh_public_key in
  w ← get_world;
  _ ← modify tick;
  match backend_create_gateway (clock w) compute_configuration with
  | inl e => raise e
  | inr info =>
      mret (GatewayComputeModel.Make
              (uuid4 (clock w))
              backend_id
              (LaunchedGatewayInfo.ip_address info)
              (LaunchedGatewayInfo.region info)
              (LaunchedGatewayInfo.instance_id info)
              gateway_ssh_private_key
              gateway_ssh_public_key
              default_active
              default_deleted)
  end.

End Provisioning.

Section Startup.

Variable ssh_handshake : nat → string → string → option Exn.
Variable daemon : nat → string → Request → option Exn.
(** [connection.tunnel.exec(command)]: the captured output, or an error. *)
Variable tunnel_exec : nat → string → string → Exn + string.
(** [settings.SKIP_GATEWAY_UPDATE], [get_dstack_runner_version()] and
    [get_dstack_gateway_wheel] *)
Variable SKIP_GATEWAY_UPDATE : bool.
Variable get_dstack_runner_version : string.
Variable get_dstack_gateway_wheel : string → string.






End Startup.

(** The session's rows, the pool and the registry of [w'] are those of [w]:
    at most the clock and the trace differ. *)
Definition untouched (w w' : World) : Prop :=
  gateways w' = gateways w
  ∧ gateway_computes w' = gateway_computes w
  ∧ projects w' = projects w
  ∧ runs w' = runs w
  ∧ gateway_connections_pool w' = gateway_connections_pool w
  ∧ PROCESSING_GATEWAYS_IDS w' = PROCESSING_GATEWAYS_IDS w.



(** * Properties *)

(** Unfolds the monad and its primitive operations. *)
Ltac run :=
  repeat (unfold mbind, mret, M_bind, M_ret, raise, hang, get_world, modify, emit,
            logger, sleep, try_except, attr in *; simpl in * ).

Lemma clock_record_event (ev : Event) (w : World) : clock (record_event ev w) = clock w.
Proof. reflexivity. Qed.

Lemma projects_record_event (ev : Event) (w : World) :
  projects (record_event ev w) = projects w.
Proof. reflexivity. Qed.

(** ** Stripping the wildcard prefix *)

Lemma lstrip_unchanged (chars s : string) :
  match s with
  | EmptyString => True
  | String c _ => Py.char_in c chars = false
  end →
  Py.lstrip chars s = s.
Proof. destruct s as [|c s]; simpl; [done|]. by intros ->. Qed.

Lemma lstrip_wildcard_prefix (domain : string) :
  match domain with
  | EmptyString => True
  | String c _ => Py.char_in c "*." = false
  end →
  Py.lstrip "*." ("*." ++ domain) = domain.
Proof. intros H. simpl. by apply lstrip_unchanged. Qed.

Lemma stripped_wildcard_domain_is_Some (gateway : GatewayModel.t) (domain : string) :
  GatewayModel.wildcard_domain gateway = Some domain →
  domain ≠ "" →
  stripped_wildcard_domain gateway = Some (Py.lstrip "*." domain).
Proof.
  intros Hd Hne. unfold stripped_wildcard_domain. rewrite Hd.
  destruct domain; [done|reflexivity].
Qed.

Section RegistrarFacts.

Context (daemon : nat → string → Request → option Exn)
        (urlparse_hostname : string → option string)
        (get_service_options : ServiceConfiguration.t → Options)
        (repr : Exn → string).

Local Abbreviation register_service' :=
  (register_service daemon urlparse_hostname get_service_options repr).

(** The guards of [register_service] that precede the composition of the
    service spec, in the order of the source. *)
Lemma register_service_not_connected_run (run_model : RunModel.t)
    (gateway : GatewayModel.t) (compute : GatewayComputeModel.t)
    (domain : string) (w : World) :
  ProjectModel.default_gateway (RunModel.project run_model) = Some gateway →
  GatewayModel.gateway_compute gateway = Some compute →
  GatewayModel.status gateway = GatewayStatus.RUNNING →
  (∀ c, GatewayModel.configuration gateway = Some c →
        ServiceConfiguration.https (RunSpec.configuration (RunModel.run_spec run_model))
        && negb (GatewayConfiguration.public_ip c) = false) →
  stripped_wildcard_domain gateway = Some domain →
  gateway_connections_pool w !! GatewayComputeModel.ip_address compute = None →
  ∃ spec,
    register_service' run_model w =
      (Raise (ServerClientError "Gateway is not connected"),
       record_event (EvPoolGet (GatewayComputeModel.ip_address compute))
         (set_runs (insert (RunModel.id run_model)
                      (RunModel.set_service_spec spec
                         (RunModel.set_gateway gateway run_model))) w))
    ∧ ServiceSpec.url spec =
        protocol (ServiceConfiguration.https
                    (RunSpec.configuration (RunModel.run_spec run_model)))
        ++ "://" ++ RunModel.run_name run_model ++ "." ++ domain.
Proof.
  intros Hg Hc Hs Hcfg Hd Hp.
  unfold register_service. rewrite Hg. run. rewrite Hc. run.
  rewrite decide_False by (by rewrite Hs; intros []). run.
  destruct (GatewayModel.configuration gateway) as [c|] eqn:Ec.
  - rewrite (Hcfg c eq_refl). run. rewrite Hd. run. unfold pool_get. run.
    rewrite Hp. eexists. split; [reflexivity|].
    by destruct (ServiceConfiguration.model _).
  - run. rewrite Hd. run. unfold pool_get. run.
    rewrite Hp. eexists. split; [reflexivity|].
    by destruct (ServiceConfiguration.model _).
Qed.


(** Every request that [register_service] sends is a [RegisterService]
    whose schemes are the run's [https] flag and the gateway's [public_ip]. *)
Lemma register_service_requests (run_model : RunModel.t) (w w' : World)
    (r : Result unit) (host : string) (request : Request) :
  register_service' run_model w = (r, w') →
  EvRequest host request ∈ trace w' →
  EvRequest host request ∈ trace w
  ∨ ∃ gateway project run_id domain auth options key,
      ProjectModel.default_gateway (RunModel.project run_model) = Some gateway
      ∧ request =
          RegisterService project run_id domain
            (ServiceConfiguration.https
               (RunSpec.configuration (RunModel.run_spec run_model)))
            (GatewayConfiguration.public_ip (get_gateway_configuration gateway))
            auth options key.
Proof.
  unfold register_service.
  destruct (ProjectModel.default_gateway _) as [gateway|] eqn:Eg; run;
    [|intros [= <- <-] ?; by left].
  destruct (GatewayModel.gateway_compute gateway) as [compute|] eqn:Ec; run;
    [|intros [= <- <-] ?; by left].
  destruct (decide (GatewayModel.status gateway ≠ _)); run;
    [intros [= <- <-] ?; by left|].
  destruct (GatewayModel.configuration gateway) as [c|] eqn:Ecfg; run.
  all: try destruct (_ && _); run; try (intros [= <- <-] ?; by left).
  all: destruct (stripped_wildcard_domain gateway) as [d|]; run;
    try (intros [= <- <-] ?; by left).
  all: unfold pool_get; run.
  all: destruct (gateway_connections_pool w !! _) as [conn|]; run;
    try (intros [= <- <-]; simpl; rewrite ?elem_of_app, ?list_elem_of_singleton;
         intros [?|[=]]; by left).
  all: unfold send; run.
  all: destruct (daemon _ _ _) as [[]|]; run; intros [= <- <-] Hin; simpl in *.
  all: rewrite ?elem_of_app, ?list_elem_of_singleton in Hin.
  all: destruct_or!; simplify_eq; try (by left).
  all: right; exists gateway; do 6 eexists; split; [done|].
  all: unfold get_gateway_configuration; rewrite Ecfg; reflexivity.
Qed.

(** C1 (amended): when the default gateway has an instance, is RUNNING,
    passes the HTTPS check and has a non-empty wildcard domain, and the
    pool has no entry for the instance's address, [register_service] fails
    with [ServerClientError("Gateway is not connected")]; the gateway and
    the composed service spec have been assigned to the run row by then. *)
Theorem register_service_disconnected (run_model : RunModel.t)
    (gateway : GatewayModel.t) (compute : GatewayComputeModel.t)
    (domain : string) (w : World) :
  ProjectModel.default_gateway (RunModel.project run_model) = Some gateway →
  GatewayModel.gateway_compute gateway = Some compute →
  GatewayModel.status gateway = GatewayStatus.RUNNING →
  (∀ c, GatewayModel.configuration gateway = Some c →
        ServiceConfiguration.https (RunSpec.configuration (RunModel.run_spec run_model))
        && negb (GatewayConfiguration.public_ip c) = false) →
  GatewayModel.wildcard_domain gateway = Some domain →
  domain ≠ "" →
  gateway_connections_pool w !! GatewayComputeModel.ip_address compute = None →
  ∃ w' spec,
    register_service' run_model w
      = (Raise (ServerClientError "Gateway is not connected"), w')
    ∧ runs w' !! RunModel.id run_model
        = Some (RunModel.set_service_spec spec (RunModel.set_gateway gateway run_model))
    ∧ ServiceSpec.url spec =
        protocol (ServiceConfiguration.https
                    (RunSpec.configuration (RunModel.run_spec run_model)))
        ++ "://" ++ RunModel.run_name run_model ++ "." ++ Py.lstrip "*." domain.
Proof.
  intros Hg Hc Hs Hcfg Hd Hne Hp.
  destruct (register_service_not_connected_run run_model gateway compute
              (Py.lstrip "*." domain) w) as (spec & Hrun & Hurl); auto.
  { by apply stripped_wildcard_domain_is_Some. }
  eexists _, spec. split; [exact Hrun|]. split; [|exact Hurl].
  simpl. apply lookup_insert_eq.
Qed.

(** C6 (amended): for the default gateway that has an instance and is
    RUNNING, a run that requests HTTPS is refused with
    [ServerClientError("Cannot run HTTPS service on gateway without public IP")]
    when the gateway's configuration has [public_ip=false]; and whatever
    the outcome, a request that [register_service] sends to the daemon
    carries [gateway_https] equal to the gateway's [public_ip]. *)
Theorem register_service_https_needs_public_ip (run_model : RunModel.t)
    (gateway : GatewayModel.t) (w : World) :
  ProjectModel.default_gateway (RunModel.project run_model) = Some gateway →
  (∀ configuration,
      GatewayModel.gateway_compute gateway ≠ None →
      GatewayModel.status gateway = GatewayStatus.RUNNING →
      ServiceConfiguration.https (RunSpec.configuration (RunModel.run_spec run_model))
        = true →
      GatewayModel.configuration gateway = Some configuration →
      GatewayConfiguration.public_ip configuration = false →
      register_service' run_model w
        = (Raise (ServerClientError
                    "Cannot run HTTPS service on gateway without public IP"), w))
  ∧ (∀ r w' host project run_id domain service_https gateway_https auth options key,
        register_service' run_model w = (r, w') →
        EvRequest host
          (RegisterService project run_id domain service_https gateway_https
             auth options key) ∈ trace w' →
        EvRequest host
          (RegisterService project run_id domain service_https gateway_https
             auth options key) ∉ trace w →
        gateway_https
          = GatewayConfiguration.public_ip (get_gateway_configuration gateway)).
Proof.
  intros Hg. split.
  - intros c Hc Hs Hhttps Hcfg Hip.
    unfold register_service. rewrite Hg. run.
    destruct (GatewayModel.gateway_compute gateway); [|done]. run.
    rewrite decide_False by (by rewrite Hs; intros []). run.
    by rewrite Hcfg, Hhttps, Hip.
  - intros r w' host p rid dom sh gh a o k Hrun Hin Hnin.
    destruct (register_service_requests _ _ _ _ _ _ Hrun Hin)
      as [?|(g & ? & ? & ? & ? & ? & ? & Hg' & Heq)]; [done|].
    rewrite Hg in Hg'. injection Hg' as <-. by injection Heq.
Qed.

End RegistrarFacts.

(** C1, as stated, fails: the service spec is assigned to the run row before
    the pool is consulted. *)
Lemma register_service_disconnected_assigns_service_spec :
  let r := Fixtures.run false (Fixtures.project (Some (Fixtures.gw_running "*.example.com" true))) in
  let w := Fixtures.world_of r in
  ∃ w',
    register_service Fixtures.daemon_accepts Fixtures.hostname Fixtures.no_options
      Fixtures.class_name r w
      = (Raise (ServerClientError "Gateway is not connected"), w')
    ∧ RunModel.service_spec <$> (runs w !! RunModel.id r) = Some None
    ∧ RunModel.service_spec <$> (runs w' !! RunModel.id r)
        = Some (Some (ServiceSpec.Make "http://svc.example.com" None [])).
Proof. eexists. by vm_compute. Qed.

Lemma register_service_disconnected_witness :
  let r := Fixtures.run false (Fixtures.project (Some (Fixtures.gw_running "*.example.com" true))) in
  ∃ w' spec,
    register_service Fixtures.daemon_accepts Fixtures.hostname Fixtures.no_options
      Fixtures.class_name r (Fixtures.world_of r)
      = (Raise (ServerClientError "Gateway is not connected"), w')
    ∧ runs w' !! RunModel.id r
        = Some (RunModel.set_service_spec spec
                  (RunModel.set_gateway (Fixtures.gw_running "*.example.com" true) r))
    ∧ ServiceSpec.url spec = "http://svc.example.com".
Proof.
  apply (register_service_disconnected Fixtures.daemon_accepts Fixtures.hostname
           Fixtures.no_options Fixtures.class_name
           (Fixtures.run false
              (Fixtures.project (Some (Fixtures.gw_running "*.example.com" true))))
           (Fixtures.gw_running "*.example.com" true)
           (Fixtures.compute 20 "10.0.0.1" "i-01") "*.example.com").
  - reflexivity.
  - reflexivity.
  - reflexivity.
  - intros c [= <-]. reflexivity.
  - reflexivity.
  - discriminate.
  - reflexivity.
Defined.

(** C6, as stated, fails: a gateway that is not RUNNING is refused for that
    reason before the HTTPS check is reached. *)
Lemma register_service_https_private_gateway_not_running :
  let g := Fixtures.gateway 10 "gw" (Some "*.example.com")
             (Some (Fixtures.configuration false)) GatewayStatus.SUBMITTED
             (Some (Fixtures.compute 20 "10.0.0.1" "i-01")) in
  let r := Fixtures.run true (Fixtures.project (Some g)) in
  ServiceConfiguration.https (RunSpec.configuration (RunModel.run_spec r)) = true
  ∧ GatewayConfiguration.public_ip <$> GatewayModel.configuration g = Some false
  ∧ register_service Fixtures.daemon_accepts Fixtures.hostname Fixtures.no_options
      Fixtures.class_name r (Fixtures.world_of r)
    = (Raise (ServerClientError "Gateway status is not running"), Fixtures.world_of r).
Proof. by vm_compute. Qed.

Lemma register_service_https_needs_public_ip_witness :
  let r := Fixtures.run true
             (Fixtures.project (Some (Fixtures.gw_running "*.example.com" false))) in
  register_service Fixtures.daemon_accepts Fixtures.hostname Fixtures.no_options
    Fixtures.class_name r (Fixtures.world_of r)
  = (Raise (ServerClientError "Cannot run HTTPS service on gateway without public IP"),
     Fixtures.world_of r).
Proof.
  refine (proj1 (register_service_https_needs_public_ip Fixtures.daemon_accepts
                   Fixtures.hostname Fixtures.no_options Fixtures.class_name
                   (Fixtures.run true
                      (Fixtures.project
                         (Some (Fixtures.gw_running "*.example.com" false))))
                   (Fixtures.gw_running "*.example.com" false) _ _)
            (Fixtures.configuration false) _ _ _ _ _).
  - reflexivity.
  - discriminate.
  - reflexivity.
  - reflexivity.
  - reflexivity.
  - reflexivity.
Defined.

(** C2: [lstrip("*.")] removes every leading ['*'] and ['.'], not the literal
    prefix.  The wildcard domain [".example.com"] does not start with ["*."]
    and should be kept as it is; the service is registered under
    [svc.example.com], one dot short. *)
Theorem register_service_lstrip_is_not_removeprefix :
  let r := Fixtures.run false
             (Fixtures.project (Some (Fixtures.gw_running ".example.com" true))) in
  let w := Fixtures.connected (Fixtures.world_of r)
             (GatewayConnection.Make "10.0.0.1" "private") in
  let '(result, w') :=
    register_service Fixtures.daemon_accepts Fixtures.hostname Fixtures.no_options
      Fixtures.class_name r w in
  result = Return tt
  ∧ (runs w' !! RunModel.id r ≫= RunModel.service_spec)
      = Some (ServiceSpec.Make "http://svc.example.com" None [])
  ∧ Py.startswith ".example.com" "*." = false
  ∧ "http://svc." ++ Py.removeprefix "*." ".example.com" = "http://svc..example.com"
  ∧ Py.lstrip "*." "*.*.example.com" = "example.com"
  ∧ Py.removeprefix "*." "*.*.example.com" = "*.example.com".
Proof. by vm_compute. Qed.

(** ** Retry loops *)

Local Open Scope nat_scope.

Lemma count_requests_app (t1 t2 : list Event) :
  count_requests (t1 ++ t2) = count_requests t1 + count_requests t2.
Proof. induction t1 as [|[] t1 IH]; simpl; lia. Qed.

Lemma count_pool_adds_app (t1 t2 : list Event) :
  count_pool_adds (t1 ++ t2) = count_pool_adds t1 + count_pool_adds t2.
Proof. induction t1 as [|[] t1 IH]; simpl; lia. Qed.

Lemma count_sleeps_app (t1 t2 : list Event) :
  count_sleeps (t1 ++ t2) = count_sleeps t1 + count_sleeps t2.
Proof. induction t1 as [|[] t1 IH]; simpl; lia. Qed.

Lemma events_since_app (w w' : World) (evs : list Event) :
  trace w' = (trace w ++ evs)%list → events_since w w' = evs.
Proof. intros H. unfold events_since. rewrite H. apply drop_app_length. Qed.

Section ConfigureFacts.

Context (daemon : nat → string → Request → option Exn).

(** The loop of [configure_gateway] over [n] caught attempts, when the first
    [k] requests fail with [RequestError] and the next one ends with [o]. *)
Lemma configure_loop_run (connection : GatewayConnection.t) (k : nat) :
  ∀ (n a : nat) (w : World) (o : option Exn),
    k ≤ n →
    (∀ j, j < k →
       ∃ m, daemon (clock w + j) (GatewayConnection.ip_address connection)
              SubmitGatewayConfig = Some (RequestError m)) →
    daemon (clock w + k) (GatewayConnection.ip_address connection) SubmitGatewayConfig = o →
    (k = n ∨ from_option is_RequestError false o = false) →
    ∃ w' evs,
      configure_loop daemon connection (seq a n) w
        = (from_option Raise (Return tt) o, w')
      ∧ clock w' = clock w + k + 1
      ∧ trace w' = (trace w ++ evs)%list
      ∧ count_requests evs = k + 1
      ∧ count_sleeps evs = k.
Proof.
  induction k as [|k IH]; intros n a w o Hk Hfail Ho Hlast.
  - rewrite Nat.add_0_r in Ho.
    destruct n as [|n]; simpl.
    + unfold send. run. rewrite Ho.
      exists (tick (record_event (EvRequest (GatewayConnection.ip_address connection)
                                    SubmitGatewayConfig) w)), [EvRequest (GatewayConnection.ip_address connection) SubmitGatewayConfig].
      destruct o; simpl; repeat split; lia.
    + unfold configure_attempt, send. run. rewrite Ho.
      destruct Hlast as [?|Hlast]; [lia|].
      exists (tick (record_event (EvRequest (GatewayConnection.ip_address connection)
                                    SubmitGatewayConfig) w)), [EvRequest (GatewayConnection.ip_address connection) SubmitGatewayConfig].
      destruct o as [[]|]; simpl in *; try discriminate; repeat split; lia.
  - destruct n as [|n]; [lia|]. simpl.
    destruct (Hfail 0) as [m Hm]; [lia|]. rewrite Nat.add_0_r in Hm.
    unfold configure_attempt at 1. unfold send. run. rewrite Hm. run.
    match goal with |- context [configure_loop _ _ _ ?x] => set (w1 := x) end.
    destruct (IH n (S a) w1 o) as (w' & evs & Hrun & Hclock & Htrace & Hreq & Hsleep).
    + lia.
    + intros j Hj. destruct (Hfail (S j)) as [m' Hm']; [lia|].
      exists m'. rewrite <- Hm'. f_equal. simpl. lia.
    + rewrite <- Ho. f_equal. simpl. lia.
    + destruct Hlast as [?|?]; [left; lia|by right].
    + exists w', ([EvRequest (GatewayConnection.ip_address connection) SubmitGatewayConfig;
                  EvLog DEBUG "Failed attempt %s/%s at configuring gateway %s: %r";
                  EvSleep GATEWAY_CONFIGURE_DELAY] ++ evs)%list.
      rewrite Hrun. split; [done|]. rewrite Hclock, Htrace. simpl.
      rewrite <- !app_assoc. simpl. repeat split; lia.
Qed.


(** Some attempt among the first [n + 1] is the last one: it is the first
    whose outcome is not an error the loop catches, or it is attempt [n]. *)
Lemma last_attempt_exists (caught : Exn → bool) (outcome : nat → option Exn) (n : nat) :
  ∃ k, k ≤ n
       ∧ (∀ j, j < k → ∃ e, outcome j = Some e ∧ caught e = true)
       ∧ (k = n ∨ from_option caught false (outcome k) = false).
Proof.
  induction n as [|n (k & Hk & Hfail & Hlast)].
  - exists 0. split; [lia|]. split; [intros; lia|by left].
  - destruct (from_option caught false (outcome k)) eqn:Ek.
    + destruct Hlast as [->|?]; [|congruence].
      exists (S n). split; [lia|]. split; [|by left].
      intros j Hj. destruct (decide (j = n)) as [->|]; [|apply Hfail; lia].
      destruct (outcome n) as [e|]; [|discriminate]. by exists e.
    + exists k. split; [lia|]. split; [done|by right].
Qed.

Lemma is_RequestError_true (e : Exn) :
  is_RequestError e = true → ∃ m, e = RequestError m.
Proof. destruct e; try discriminate. by eexists. Qed.

Lemma is_SSHError_true (e : Exn) :
  is_SSHError e = true → ∃ m, e = SSHError m.
Proof. destruct e; try discriminate. by eexists. Qed.

Lemma configure_gateway_run (connection : GatewayConnection.t) (w : World)
    (k : nat) (o : option Exn) :
  k < GATEWAY_CONFIGURE_ATTEMPTS →
  (∀ j, j < k →
     ∃ m, daemon (clock w + j) (GatewayConnection.ip_address connection)
            SubmitGatewayConfig = Some (RequestError m)) →
  daemon (clock w + k) (GatewayConnection.ip_address connection) SubmitGatewayConfig = o →
  (k = GATEWAY_CONFIGURE_ATTEMPTS - 1 ∨ from_option is_RequestError false o = false) →
  ∃ w',
    configure_gateway daemon connection w = (from_option Raise (Return tt) o, w')
    ∧ count_requests (events_since w w') = k + 1
    ∧ count_sleeps (events_since w w') = k.
Proof.
  intros Hk Hfail Ho Hlast.
  destruct (configure_loop_run connection k (GATEWAY_CONFIGURE_ATTEMPTS - 1) 0
              (record_event (EvLog DEBUG "Configuring gateway %s") w) o)
    as (w' & evs & Hrun & Hclock & Htrace & Hreq & Hsleep); auto.
  { unfold GATEWAY_CONFIGURE_ATTEMPTS in *. lia. }
  unfold configure_gateway.
  remember (configure_loop daemon connection (seq 0 (GATEWAY_CONFIGURE_ATTEMPTS - 1)))
    as loop eqn:Hloop.
  run. rewrite Hrun. destruct o as [e|]; simpl.
  - exists w'. split; [done|].
    rewrite (events_since_app w w' (EvLog DEBUG "Configuring gateway %s" :: evs)).
    + simpl. by rewrite Hreq, Hsleep.
    + rewrite Htrace. simpl. by rewrite <- app_assoc.
  - eexists. split; [done|].
    rewrite (events_since_app w _
               (EvLog DEBUG "Configuring gateway %s" :: evs
                ++ [EvLog INFO "Gateway %s configured"])%list).
    + simpl. rewrite count_requests_app, count_sleeps_app. simpl. lia.
    + simpl. rewrite Htrace. simpl. by rewrite <- !app_assoc.
Qed.

(** C3: [configure_gateway] sends [submit_gateway_config] at most
    [GATEWAY_CONFIGURE_ATTEMPTS = 40] times.  When the first [k] attempts
    fail with [RequestError] and attempt [k + 1] either succeeds, or fails
    with another error, or is the 40th, there are exactly [k + 1] attempts
    and the outcome of the last one is the outcome of the call: success
    returns, any error of that attempt ([RequestError] on the 40th included)
    propagates. *)
Theorem configure_gateway_attempts (connection : GatewayConnection.t) (w : World) :
  GATEWAY_CONFIGURE_ATTEMPTS = 40
  ∧ count_requests (events_since w (configure_gateway daemon connection w).2)
    ≤ GATEWAY_CONFIGURE_ATTEMPTS
  ∧ ∀ (k : nat) (o : option Exn),
      k < GATEWAY_CONFIGURE_ATTEMPTS →
      (∀ j, j < k →
         ∃ m, daemon (clock w + j) (GatewayConnection.ip_address connection)
                SubmitGatewayConfig = Some (RequestError m)) →
      daemon (clock w + k) (GatewayConnection.ip_address connection)
        SubmitGatewayConfig = o →
      (k = GATEWAY_CONFIGURE_ATTEMPTS - 1 ∨ from_option is_RequestError false o = false) →
      (configure_gateway daemon connection w).1 = from_option Raise (Return tt) o
      ∧ count_requests (events_since w (configure_gateway daemon connection w).2) = k + 1.
Proof.
  split; [reflexivity|]. split.
  - destruct (last_attempt_exists is_RequestError
                (λ j, daemon (clock w + j) (GatewayConnection.ip_address connection)
                        SubmitGatewayConfig) (GATEWAY_CONFIGURE_ATTEMPTS - 1))
      as (k & Hk & Hfail & Hlast).
    assert (k < GATEWAY_CONFIGURE_ATTEMPTS) as Hk'
      by (unfold GATEWAY_CONFIGURE_ATTEMPTS in *; lia).
    assert (∀ j, j < k →
              ∃ m, daemon (clock w + j) (GatewayConnection.ip_address connection)
                     SubmitGatewayConfig = Some (RequestError m)) as Hfail'.
    { intros j Hj. destruct (Hfail j Hj) as (e & He & Hc).
      destruct (is_RequestError_true e Hc) as [m ->]. by exists m. }
    destruct (configure_gateway_run connection w k _ Hk' Hfail' eq_refl Hlast)
      as (w' & Hrun & Hreq & _).
    rewrite Hrun. simpl. rewrite Hreq. unfold GATEWAY_CONFIGURE_ATTEMPTS in *. lia.
  - intros k o Hk Hfail Ho Hlast.
    destruct (configure_gateway_run connection w k o Hk Hfail Ho Hlast)
      as (w' & Hrun & Hreq & _).
    by rewrite Hrun.
Qed.

End ConfigureFacts.

(** Scenario 6: the daemon answers [RequestError] to the first three
    requests and accepts the fourth; there are exactly four attempts. *)
Lemma configure_gateway_attempts_witness :
  let connection := GatewayConnection.Make "10.0.0.1" "private" in
  (configure_gateway Fixtures.daemon_starting connection Fixtures.empty_world).1
    = Return tt
  ∧ count_requests
      (events_since Fixtures.empty_world
         (configure_gateway Fixtures.daemon_starting connection Fixtures.empty_world).2)
    = 4.
Proof.
  apply (proj2 (proj2 (configure_gateway_attempts Fixtures.daemon_starting
                         (GatewayConnection.Make "10.0.0.1" "private")
                         Fixtures.empty_world)) 3 None).
  - unfold GATEWAY_CONFIGURE_ATTEMPTS. lia.
  - intros j Hj. exists "connection refused".
    destruct j as [|[|[|j]]]; [reflexivity..|lia].
  - reflexivity.
  - by right.
Defined.

Section ConnectFacts.

Context (ssh_handshake : nat → string → string → option Exn).

Local Abbreviation host_of gc := (GatewayComputeModel.ip_address gc).
Local Abbreviation key_of gc := (GatewayComputeModel.ssh_private_key gc).

(** One iteration whose handshake fails with [SSHError]: the pool and the
    rest of the world stay as they are, the clock advances by one. *)
Lemma connect_attempt_fails (gateway_compute : GatewayComputeModel.t) (attempt : nat)
    (w : World) (m : string) :
  gateway_connections_pool w !! host_of gateway_compute = None →
  ssh_handshake (clock w) (host_of gateway_compute) (key_of gateway_compute)
    = Some (SSHError m) →
  ∃ w' evs,
    connect_attempt ssh_handshake gateway_compute attempt w = (Return (inr tt), w')
    ∧ clock w' = S (clock w)
    ∧ gateway_connections_pool w' = gateway_connections_pool w
    ∧ trace w' = (trace w ++ evs)%list
    ∧ count_pool_adds evs = 1.
Proof.
  intros Hp Hh. unfold connect_attempt, pool_add. run. rewrite Hp. run. rewrite Hh. run.
  destruct (attempt <? _); run; eexists _, _; (split; [reflexivity|]); simpl;
    rewrite <- ?app_assoc; repeat split; reflexivity.
Qed.

(** One iteration whose handshake does not fail with [SSHError]. *)
Lemma connect_attempt_ends (gateway_compute : GatewayComputeModel.t) (attempt : nat)
    (w : World) (o : option Exn) :
  gateway_connections_pool w !! host_of gateway_compute = None →
  ssh_handshake (clock w) (host_of gateway_compute) (key_of gateway_compute) = o →
  from_option is_SSHError false o = false →
  ∃ w',
    connect_attempt ssh_handshake gateway_compute attempt w
      = (from_option Raise
           (Return (inl (GatewayConnection.Make (host_of gateway_compute)
                           (key_of gateway_compute)))) o, w')
    ∧ trace w' = (trace w ++ [EvPoolAdd (host_of gateway_compute)])%list
    ∧ (o = None →
       gateway_connections_pool w' !! host_of gateway_compute
         = Some (GatewayConnection.Make (host_of gateway_compute)
                   (key_of gateway_compute))).
Proof.
  intros Hp Hh Ho. unfold connect_attempt, pool_add. run. rewrite Hp. run. rewrite Hh.
  destruct o as [[]|]; simpl in *; try discriminate; run;
    eexists; (split; [reflexivity|]); (split; [reflexivity|]); try done.
  intros _. simpl. apply lookup_insert_eq.
Qed.

Lemma connect_loop_exhausted (gateway_compute : GatewayComputeModel.t) (n : nat) :
  ∀ (a : nat) (w : World) (connection : option GatewayConnection.t),
    gateway_connections_pool w !! host_of gateway_compute = None →
    (∀ j, j < n →
       ∃ m, ssh_handshake (clock w + j) (host_of gateway_compute)
              (key_of gateway_compute) = Some (SSHError m)) →
    ∃ w' evs,
      connect_loop ssh_handshake gateway_compute (seq a n) connection w
        = (Return connection, w')
      ∧ trace w' = (trace w ++ evs)%list
      ∧ count_pool_adds evs = n.
Proof.
  induction n as [|n IH]; intros a w connection Hp Hfail.
  - exists w, []. simpl. by rewrite app_nil_r.
  - destruct (Hfail 0) as [m Hm]; [lia|]. rewrite Nat.add_0_r in Hm.
    destruct (connect_attempt_fails gateway_compute a w m Hp Hm)
      as (w1 & evs1 & Hrun1 & Hclock1 & Hpool1 & Htrace1 & Hcount1).
    destruct (IH (S a) w1 connection) as (w' & evs & Hrun & Htrace & Hcount).
    + by rewrite Hpool1.
    + intros j Hj. destruct (Hfail (S j)) as [m' Hm']; [lia|].
      exists m'. rewrite <- Hm'. f_equal. lia.
    + exists w', (evs1 ++ evs)%list.
      simpl. unfold mbind, M_bind at 1. rewrite Hrun1, Hrun.
      split; [done|]. rewrite Htrace, Htrace1, app_assoc, count_pool_adds_app.
      split; [done|lia].
Qed.

Lemma connect_loop_ends (gateway_compute : GatewayComputeModel.t) (k : nat) :
  ∀ (n a : nat) (w : World) (connection : option GatewayConnection.t) (o : option Exn),
    k < n →
    gateway_connections_pool w !! host_of gateway_compute = None →
    (∀ j, j < k →
       ∃ m, ssh_handshake (clock w + j) (host_of gateway_compute)
              (key_of gateway_compute) = Some (SSHError m)) →
    ssh_handshake (clock w + k) (host_of gateway_compute) (key_of gateway_compute) = o →
    from_option is_SSHError false o = false →
    ∃ w' evs,
      connect_loop ssh_handshake gateway_compute (seq a n) connection w
        = (from_option Raise
             (Return (Some (GatewayConnection.Make (host_of gateway_compute)
                              (key_of gateway_compute)))) o, w')
      ∧ trace w' = (trace w ++ evs)%list
      ∧ count_pool_adds evs = k + 1
      ∧ (o = None →
         gateway_connections_pool w' !! host_of gateway_compute
           = Some (GatewayConnection.Make (host_of gateway_compute)
                     (key_of gateway_compute))).
Proof.
  induction k as [|k IH]; intros n a w connection o Hk Hp Hfail Ho Hlast.
  - destruct n as [|n]; [lia|]. rewrite Nat.add_0_r in Ho.
    destruct (connect_attempt_ends gateway_compute a w o Hp Ho Hlast)
      as (w' & Hrun & Htrace & Hpool).
    exists w', [EvPoolAdd (host_of gateway_compute)].
    simpl. unfold mbind, M_bind at 1. rewrite Hrun.
    destruct o; simpl; by repeat split.
  - destruct n as [|n]; [lia|].
    destruct (Hfail 0) as [m Hm]; [lia|]. rewrite Nat.add_0_r in Hm.
    destruct (connect_attempt_fails gateway_compute a w m Hp Hm)
      as (w1 & evs1 & Hrun1 & Hclock1 & Hpool1 & Htrace1 & Hcount1).
    destruct (IH n (S a) w1 connection o) as (w' & evs & Hrun & Htrace & Hcount & Hpool).
    + lia.
    + by rewrite Hpool1.
    + intros j Hj. destruct (Hfail (S j)) as [m' Hm']; [lia|].
      exists m'. rewrite <- Hm'. f_equal. lia.
    + rewrite <- Ho. f_equal. lia.
    + done.
    + exists w', (evs1 ++ evs)%list.
      simpl. unfold mbind, M_bind at 1. rewrite Hrun1, Hrun.
      split; [done|]. rewrite Htrace, Htrace1, app_assoc, count_pool_adds_app.
      split; [done|]. split; [lia|done].
Qed.


Lemma connect_existing_entry (gateway_compute : GatewayComputeModel.t) (w : World)
    (conn : GatewayConnection.t) :
  gateway_connections_pool w !! host_of gateway_compute = Some conn →
  connect_to_gateway_with_retry ssh_handshake gateway_compute w
    = (Return (Some conn), record_event (EvPoolAdd (host_of gateway_compute)) w).
Proof.
  intros Hp. unfold connect_to_gateway_with_retry. simpl.
  unfold connect_attempt, pool_add. run. by rewrite Hp.
Qed.

(** C4: [connect_to_gateway_with_retry] always completes and never raises
    [SSHError].  With no pool entry for the host: when the first [k < 30]
    handshakes fail with [SSHError] and the next one succeeds, it returns the
    connection of that [add], [k + 1] calls to [add] having been made and the
    connection being in the pool; when the 30 handshakes all fail with
    [SSHError], it returns [None] after exactly
    [GATEWAY_CONNECT_ATTEMPTS = 30] calls to [add].  With a pool entry, the
    first [add] returns it. *)
Theorem connect_to_gateway_with_retry_total (gateway_compute : GatewayComputeModel.t)
    (w : World) :
  let run := connect_to_gateway_with_retry ssh_handshake gateway_compute w in
  let connection :=
    GatewayConnection.Make (host_of gateway_compute) (key_of gateway_compute) in
  GATEWAY_CONNECT_ATTEMPTS = 30
  ∧ run.1 ≠ Hang
  ∧ (∀ m, run.1 ≠ Raise (SSHError m))
  ∧ (∀ conn, gateway_connections_pool w !! host_of gateway_compute = Some conn →
             run.1 = Return (Some conn))
  ∧ (∀ k, gateway_connections_pool w !! host_of gateway_compute = None →
          k < GATEWAY_CONNECT_ATTEMPTS →
          (∀ j, j < k →
             ∃ m, ssh_handshake (clock w + j) (host_of gateway_compute)
                    (key_of gateway_compute) = Some (SSHError m)) →
          ssh_handshake (clock w + k) (host_of gateway_compute)
            (key_of gateway_compute) = None →
          run.1 = Return (Some connection)
          ∧ count_pool_adds (events_since w run.2) = k + 1
          ∧ gateway_connections_pool run.2 !! host_of gateway_compute = Some connection)
  ∧ (gateway_connections_pool w !! host_of gateway_compute = None →
     (∀ j, j < GATEWAY_CONNECT_ATTEMPTS →
        ∃ m, ssh_handshake (clock w + j) (host_of gateway_compute)
               (key_of gateway_compute) = Some (SSHError m)) →
     run.1 = Return None
     ∧ count_pool_adds (events_since w run.2) = GATEWAY_CONNECT_ATTEMPTS).
Proof.
  intros run connection. subst run connection.
  assert (∀ k, gateway_connections_pool w !! host_of gateway_compute = None →
               k < GATEWAY_CONNECT_ATTEMPTS →
               (∀ j, j < k →
                  ∃ m, ssh_handshake (clock w + j) (host_of gateway_compute)
                         (key_of gateway_compute) = Some (SSHError m)) →
               ∀ o, ssh_handshake (clock w + k) (host_of gateway_compute)
                      (key_of gateway_compute) = o →
                    from_option is_SSHError false o = false →
                    ∃ w', connect_to_gateway_with_retry ssh_handshake gateway_compute w
                          = (from_option Raise
                               (Return (Some (GatewayConnection.Make
                                                (host_of gateway_compute)
                                                (key_of gateway_compute)))) o, w')
                          ∧ count_pool_adds (events_since w w') = k + 1
                          ∧ (o = None →
                             gateway_connections_pool w' !! host_of gateway_compute
                             = Some (GatewayConnection.Make (host_of gateway_compute)
                                       (key_of gateway_compute)))) as Hends.
  { intros k Hp Hk Hfail o Ho Hlast.
    destruct (connect_loop_ends gateway_compute k GATEWAY_CONNECT_ATTEMPTS 0 w None o
                Hk Hp Hfail Ho Hlast) as (w' & evs & Hrun & Htrace & Hcount & Hpool).
    exists w'. split; [exact Hrun|]. by rewrite (events_since_app w w' evs). }
  assert (gateway_connections_pool w !! host_of gateway_compute = None →
          (∀ j, j < GATEWAY_CONNECT_ATTEMPTS →
             ∃ m, ssh_handshake (clock w + j) (host_of gateway_compute)
                    (key_of gateway_compute) = Some (SSHError m)) →
          ∃ w', connect_to_gateway_with_retry ssh_handshake gateway_compute w
                = (Return None, w')
                ∧ count_pool_adds (events_since w w') = GATEWAY_CONNECT_ATTEMPTS)
    as Hexhausted.
  { intros Hp Hfail.
    destruct (connect_loop_exhausted gateway_compute GATEWAY_CONNECT_ATTEMPTS 0 w None
                Hp Hfail) as (w' & evs & Hrun & Htrace & Hcount).
    exists w'. split; [exact Hrun|]. by rewrite (events_since_app w w' evs). }
  assert (∃ r w', connect_to_gateway_with_retry ssh_handshake gateway_compute w = (r, w')
                  ∧ r ≠ Hang ∧ ∀ m, r ≠ Raise (SSHError m)) as (r & w' & Hrun & Hr1 & Hr2).
  { destruct (gateway_connections_pool w !! host_of gateway_compute) as [conn|] eqn:Hp.
    { rewrite (connect_existing_entry _ _ _ Hp). by eexists _, _. }
    destruct (last_attempt_exists is_SSHError
                (λ j, ssh_handshake (clock w + j) (host_of gateway_compute)
                        (key_of gateway_compute)) GATEWAY_CONNECT_ATTEMPTS)
      as (k & Hk & Hfail & Hlast).
    assert (∀ j, j < k →
              ∃ m, ssh_handshake (clock w + j) (host_of gateway_compute)
                     (key_of gateway_compute) = Some (SSHError m)) as Hfail'.
    { intros j Hj. destruct (Hfail j Hj) as (e & He & Hc).
      destruct (is_SSHError_true e Hc) as [m ->]. by exists m. }
    destruct (decide (k = GATEWAY_CONNECT_ATTEMPTS)) as [->|Hne].
    - destruct (Hexhausted eq_refl Hfail') as (w' & Hrun & _).
      rewrite Hrun. by eexists _, _.
    - destruct Hlast as [?|Hlast]; [done|].
      destruct (Hends k eq_refl ltac:(lia) Hfail' _ eq_refl Hlast) as (w' & Hrun & _).
      rewrite Hrun. eexists _, _. split; [done|].
      destruct (ssh_handshake _ _ _) as [[]|]; simpl in *; done. }
  split; [reflexivity|]. rewrite Hrun. simpl.
  split; [done|]. split; [done|]. split; [|split].
  - intros conn Hp. rewrite (connect_existing_entry _ _ _ Hp) in Hrun. by simplify_eq.
  - intros k Hp Hk Hfail Ho.
    destruct (Hends k Hp Hk Hfail None Ho eq_refl) as (w'' & Hrun' & ? & Hpool).
    rewrite Hrun in Hrun'. simplify_eq. auto.
  - intros Hp Hfail.
    destruct (Hexhausted Hp Hfail) as (w'' & Hrun' & ?).
    rewrite Hrun in Hrun'. by simplify_eq.
Qed.

End ConnectFacts.

(** A gateway that never answers: 30 calls to [add], then [None]. *)
Lemma connect_to_gateway_with_retry_total_witness :
  let gc := Fixtures.compute 20 "10.0.0.1" "i-01" in
  let run := connect_to_gateway_with_retry Fixtures.tunnel_never_opens gc
               Fixtures.empty_world in
  run.1 = Return None ∧ count_pool_adds (events_since Fixtures.empty_world run.2) = 30.
Proof.
  apply (proj2 (proj2 (proj2 (proj2 (proj2
           (connect_to_gateway_with_retry_total Fixtures.tunnel_never_opens
              (Fixtures.compute 20 "10.0.0.1" "i-01") Fixtures.empty_world)))))).
  - reflexivity.
  - intros j _. by exists "timed out".
Defined.

(** ** Unregistering *)

(** What [get_gateway_connection] does, case by case. *)
Lemma get_gateway_connection_run (gateway_id : option uuid) (w : World) :
  get_gateway_connection gateway_id w =
    match gateway_id ≫= (gateways w !!.) with
    | None =>
        (Raise (GatewayError "Gateway doesn't exist"),
         record_event (EvSessionGet "gateways" gateway_id) w)
    | Some gateway =>
        match GatewayModel.gateway_compute gateway with
        | None =>
            (Raise (GatewayError "Gateway is broken, no compute"),
             record_event (EvSessionGet "gateways" gateway_id) w)
        | Some gateway_compute =>
            (match gateway_connections_pool w
                   !! GatewayComputeModel.ip_address gateway_compute with
             | None => Raise (GatewayError "Gateway is not connected")
             | Some conn => Return conn
             end,
             record_event (EvPoolGet (GatewayComputeModel.ip_address gateway_compute))
               (record_event (EvSessionGet "gateways" gateway_id) w))
        end
    end.
Proof.
  unfold get_gateway_connection, session_get_gateway, pool_get. run.
  destruct gateway_id as [gid|]; simpl; [|done].
  destruct (gateways w !! gid) as [gateway|]; simpl; [|done].
  destruct (GatewayModel.gateway_compute gateway) as [gateway_compute|]; [|done]. run.
  by destruct (gateway_connections_pool w !! _).
Qed.

(** The lookup reads the gateways and the pool only. *)
Lemma get_gateway_connection_record_event (gateway_id : option uuid) (w : World)
    (ev : Event) :
  (get_gateway_connection gateway_id (record_event ev w)).1
  = (get_gateway_connection gateway_id w).1.
Proof.
  rewrite !get_gateway_connection_run. simpl.
  by repeat case_match.
Qed.

Lemma get_gateway_connection_clock (gateway_id : option uuid) (w : World) :
  clock (get_gateway_connection gateway_id w).2 = clock w.
Proof. rewrite get_gateway_connection_run. by repeat case_match. Qed.

Section UnregisterFacts.

Context (daemon : nat → string → Request → option Exn) (repr : Exn → string).

(** C9: [get_gateway_connection] raises [GatewayError] when the gateway row
    is missing, has no compute, or has no pool entry; in [unregister_service]
    and in [unregister_replica] (for a run with a gateway) whatever the lookup
    raises is the outcome of the call: it is raised before the [try] whose
    handler turns [GatewayError] into a warning. *)
Theorem connection_lookup_error_propagates (gateway_id : option uuid) (w : World) :
  let lookup := (get_gateway_connection gateway_id w).1 in
  (gateway_id ≫= (gateways w !!.) = None →
   lookup = Raise (GatewayError "Gateway doesn't exist"))
  ∧ (∀ gateway,
       gateway_id ≫= (gateways w !!.) = Some gateway →
       GatewayModel.gateway_compute gateway = None →
       lookup = Raise (GatewayError "Gateway is broken, no compute"))
  ∧ (∀ gateway gateway_compute,
       gateway_id ≫= (gateways w !!.) = Some gateway →
       GatewayModel.gateway_compute gateway = Some gateway_compute →
       gateway_connections_pool w !! GatewayComputeModel.ip_address gateway_compute = None →
       lookup = Raise (GatewayError "Gateway is not connected"))
  ∧ (∀ run_model e,
       RunModel.gateway_id run_model = gateway_id →
       lookup = Raise e →
       unregister_service daemon repr run_model w
       = (Raise e, (get_gateway_connection gateway_id w).2))
  ∧ (∀ job_model run_model e,
       runs w !! JobModel.run_id job_model = Some run_model →
       RunModel.gateway_id run_model = gateway_id →
       is_Some gateway_id →
       lookup = Raise e →
       unregister_replica daemon repr job_model w
       = (Raise e,
          (get_gateway_connection gateway_id
             (record_event (EvSessionGet "runs" (Some (JobModel.run_id job_model))) w)).2)).
Proof.
  intros lookup. subst lookup. split; [|split; [|split; [|split]]].
  - intros Hg. rewrite get_gateway_connection_run. by rewrite Hg.
  - intros gateway Hg Hc. rewrite get_gateway_connection_run. by rewrite Hg, Hc.
  - intros gateway gateway_compute Hg Hc Hp.
    rewrite get_gateway_connection_run. by rewrite Hg, Hc, Hp.
  - intros run_model e <- He. unfold unregister_service.
    unfold mbind, M_bind at 1.
    destruct (get_gateway_connection _ w) as [r w1]. simpl in *. by subst r.
  - intros job_model run_model e Hrun <- [gid Hgid] He.
    unfold unregister_replica, select_run. run. rewrite Hrun. run. rewrite Hgid in *.
    pose proof (get_gateway_connection_record_event (Some gid) w
                  (EvSessionGet "runs" (Some (JobModel.run_id job_model)))) as Hev.
    destruct (get_gateway_connection (Some gid) (record_event _ w)) as [r w1].
    simpl in *. by rewrite Hev, He.
Qed.

(** [unregister_service] once the connection is there: one request, whose
    outcome decides. *)
Lemma unregister_service_run (run_model : RunModel.t) (w : World)
    (conn : GatewayConnection.t) (project : ProjectModel.t) (o : option Exn) :
  (get_gateway_connection (RunModel.gateway_id run_model) w).1 = Return conn →
  projects w !! RunModel.project_id run_model = Some project →
  daemon (clock w) (GatewayConnection.ip_address conn)
    (UnregisterService (ProjectModel.name project) (RunModel.id run_model)) = o →
  ∃ w2 evs,
    trace w2 = (trace w ++ evs)%list
    ∧ count_requests evs = 1
    ∧ unregister_service daemon repr run_model w =
        match o with
        | None => (Return tt, record_event (EvLog DEBUG "%s: service is unregistered") w2)
        | Some e =>
            match e with
            | GatewayError _ =>
                (Return tt, record_event (EvLog WARNING "%s: unregistering service: %s") w2)
            | RequestError _ | SSHError _ =>
                (Raise (GatewayError (repr e)),
                 record_event (EvLog DEBUG "Gateway request failed") w2)
            | _ => (Raise e, w2)
            end
        end.
Proof.
  intros Hconn Hproject Ho.
  unfold unregister_service. unfold mbind at 1. unfold M_bind at 1.
  pose proof (get_gateway_connection_clock (RunModel.gateway_id run_model) w) as Hclock.
  assert (∃ evs, trace (get_gateway_connection (RunModel.gateway_id run_model) w).2
                 = (trace w ++ evs)%list ∧ count_requests evs = 0
                 ∧ projects (get_gateway_connection (RunModel.gateway_id run_model) w).2
                   = projects w) as (evs & Htrace & Hcount & Hprojects).
  { rewrite get_gateway_connection_run.
    repeat case_match; simpl; rewrite <- ?app_assoc; by eexists. }
  destruct (get_gateway_connection _ w) as [r w1]. simpl in *. subst r.
  unfold session_get_project, send. run.
  rewrite Hprojects, Hproject, !clock_record_event, Hclock. run.
  rewrite Ho.
  eexists _, (evs ++ [EvSessionGet "projects" (Some (RunModel.project_id run_model));
                      EvLog DEBUG "%s: unregistering service";
                      EvRequest (GatewayConnection.ip_address conn)
                        (UnregisterService (ProjectModel.name project)
                           (RunModel.id run_model))])%list.
  split; [|split]; [| |destruct o as [[]|]; reflexivity].
  - simpl. rewrite Htrace, <- !app_assoc. reflexivity.
  - rewrite count_requests_app, Hcount. reflexivity.
Qed.

(** C8: with the gateway connection available, [unregister_service] sends
    one request; a [GatewayError] of the daemon (the service is not there) is
    logged as a warning and the call returns; a [RequestError] or an
    [SSHError] is raised again as [GatewayError(repr(e))]. *)
Theorem unregister_service_outcomes (run_model : RunModel.t) (w : World)
    (conn : GatewayConnection.t) (project : ProjectModel.t) (o : option Exn) :
  (get_gateway_connection (RunModel.gateway_id run_model) w).1 = Return conn →
  projects w !! RunModel.project_id run_model = Some project →
  daemon (clock w) (GatewayConnection.ip_address conn)
    (UnregisterService (ProjectModel.name project) (RunModel.id run_model)) = o →
  let result := unregister_service daemon repr run_model w in
  count_requests (events_since w result.2) = 1
  ∧ (o = None → result.1 = Return tt)
  ∧ (∀ m, o = Some (GatewayError m) →
          result.1 = Return tt
          ∧ last (trace result.2) = Some (EvLog WARNING "%s: unregistering service: %s"))
  ∧ (∀ m, o = Some (RequestError m) →
          result.1 = Raise (GatewayError (repr (RequestError m))))
  ∧ (∀ m, o = Some (SSHError m) →
          result.1 = Raise (GatewayError (repr (SSHError m)))).
Proof.
  intros Hconn Hproject Ho result. subst result.
  destruct (unregister_service_run run_model w conn project o Hconn Hproject Ho)
    as (w2 & evs & Htrace & Hcount & ->).
  split; [|split; [|split; [|split]]].
  - destruct o as [[]|]; simpl;
      match goal with
      | |- count_requests (events_since w ?w') = 1 =>
          erewrite (events_since_app w w')
            by (simpl; rewrite Htrace, <- ?app_assoc; reflexivity)
      end; rewrite ?count_requests_app, Hcount; reflexivity.
  - by intros ->.
  - intros m ->. simpl. split; [done|]. apply last_snoc.
  - by intros m ->.
  - by intros m ->.
Qed.

(** C10: for a job whose run row has no gateway, [unregister_replica]
    returns at once; selecting the run row is all it has done: no gateway
    row is fetched, the pool is not consulted, nothing is sent. *)
Theorem unregister_replica_without_gateway (job_model : JobModel.t)
    (run_model : RunModel.t) (w : World) :
  runs w !! JobModel.run_id job_model = Some run_model →
  RunModel.gateway_id run_model = None →
  let result := unregister_replica daemon repr job_model w in
  result = (Return tt,
            record_event (EvSessionGet "runs" (Some (JobModel.run_id job_model))) w)
  ∧ events_since w result.2 = [EvSessionGet "runs" (Some (JobModel.run_id job_model))].
Proof.
  intros Hrun Hgateway result. subst result.
  unfold unregister_replica, select_run. run. rewrite Hrun. run. rewrite Hgateway.
  split; [done|]. by apply events_since_app.
Qed.

End UnregisterFacts.

(** Unregistering a service the daemon does not know: success. *)
Lemma unregister_service_outcomes_witness :
  let g := Fixtures.gw_running "*.example.com" true in
  let r := RunModel.set_gateway g (Fixtures.run false (Fixtures.project (Some g))) in
  let w := Fixtures.connected (Fixtures.world_of r)
             (GatewayConnection.Make "10.0.0.1" "private") in
  (unregister_service Fixtures.daemon_without_service Fixtures.class_name r w).1
  = Return tt.
Proof.
  intros g r w.
  refine (proj1 (proj1 (proj2 (proj2
            (unregister_service_outcomes Fixtures.daemon_without_service
               Fixtures.class_name r w (GatewayConnection.Make "10.0.0.1" "private")
               (Fixtures.project (Some g)) (Some (GatewayError "service not found"))
               _ _ _))) "service not found" eq_refl)).
  - reflexivity.
  - reflexivity.
  - reflexivity.
Defined.

(** Unregistering a service whose gateway row is gone. *)
Lemma connection_lookup_error_propagates_witness :
  let g := Fixtures.gw_running "*.example.com" true in
  let r := RunModel.set_gateway g (Fixtures.run false (Fixtures.project None)) in
  unregister_service Fixtures.daemon_accepts Fixtures.class_name r Fixtures.empty_world
  = (Raise (GatewayError "Gateway doesn't exist"),
     (get_gateway_connection (Some 10%N) Fixtures.empty_world).2).
Proof.
  intros g r.
  pose proof (connection_lookup_error_propagates Fixtures.daemon_accepts
                Fixtures.class_name (Some 10%N) Fixtures.empty_world) as (H1 & _ & _ & H4 & _).
  apply (H4 r (GatewayError "Gateway doesn't exist")).
  - reflexivity.
  - apply H1. reflexivity.
Defined.

Lemma unregister_replica_without_gateway_witness :
  let r := Fixtures.run false (Fixtures.project None) in
  let job := JobModel.Make 9 (RunModel.id r) in
  (unregister_replica Fixtures.daemon_accepts Fixtures.class_name job
     (Fixtures.world_of r)).1 = Return tt.
Proof.
  intros r job.
  pose proof (unregister_replica_without_gateway Fixtures.daemon_accepts
                Fixtures.class_name job r (Fixtures.world_of r) eq_refl eq_refl) as [H _].
  simpl in H. by rewrite H.
Defined.

(** ** Deleting gateways *)

Section DeleteFacts.

Context (terminate_instance : nat → string → string → option Exn)
        (get_project_backend_by_type_or_error : ProjectModel.t → BackendType.t → option Exn).

Lemma select_gateways_run (project : ProjectModel.t) (gateways_names : list string)
    (rows : list GatewayModel.t) (w : World) :
  (∀ g, g ∈ rows → processed gateways_names g →
        get_project_backend_by_type_or_error project
          (BackendModel.type (GatewayModel.backend g)) = None) →
  select_gateways get_project_backend_by_type_or_error project gateways_names rows w
  = (Return (filter (processed gateways_names) rows), w).
Proof.
  induction rows as [|g rows IH]; intros Hfound; [done|].
  simpl. rewrite filter_cons.
  assert (select_gateways get_project_backend_by_type_or_error project gateways_names
            rows w = (Return (filter (processed gateways_names) rows), w)) as Hrest.
  { apply IH. intros g' Hg'. apply Hfound. by right. }
  destruct (decide (_ = BackendType.DSTACK)) as [Hd|Hd].
  { rewrite decide_False by (intros [? _]; done). exact Hrest. }
  destruct (decide (_ ∉ gateways_names)) as [Hn|Hn].
  { rewrite decide_False by (intros [_ ?]; done). exact Hrest. }
  assert (processed gateways_names g) as Hp.
  { split; [done|]. by destruct (decide (GatewayModel.name g ∈ gateways_names)). }
  rewrite decide_True by done.
  rewrite (Hfound g); [|by left|done]. run. by rewrite Hrest.
Qed.

Lemma gather_cons (task : M unit) (tasks : list (M unit)) (w : World) :
  gather (task :: tasks) w =
    match task w with
    | (Hang, w0) => (Hang, w0)
    | (r, w0) =>
        match gather tasks w0 with
        | (Return rs, w1) =>
            (Return (match r with Raise e => Some e | _ => None end :: rs), w1)
        | (Raise e, w1) => (Raise e, w1)
        | (Hang, w1) => (Hang, w1)
        end
    end.
Proof.
  simpl. unfold mbind, M_bind. destruct (task w) as [[| |] w0]; try reflexivity.
  all: destruct (gather tasks w0) as [[| |] w1]; reflexivity.
Qed.

(** One termination task on a free id. *)
Lemma terminate_gateway_run (g : GatewayModel.t) (w : World) :
  GatewayModel.id g ∉ PROCESSING_GATEWAYS_IDS w →
  ∃ n w0,
    _terminate_gateway terminate_instance g w
      = (from_option Raise (Return tt) (termination_outcome terminate_instance n g), w0)
    ∧ PROCESSING_GATEWAYS_IDS w0 = {[GatewayModel.id g]} ∪ PROCESSING_GATEWAYS_IDS w
    ∧ gateways w0 = gateways w
    ∧ gateway_computes w0 = gateway_computes w
    ∧ gateway_connections_pool w0 = gateway_connections_pool w.
Proof.
  intros Hfree. exists (clock w).
  unfold _terminate_gateway, wait_to_lock, run_terminate_instance, termination_outcome.
  run. rewrite decide_False by done. run.
  destruct (GatewayModel.gateway_compute g) as [c|]; run.
  - destruct (terminate_instance (clock w) _ _) as [e|]; run; by eexists.
  - by eexists.
Qed.

(** The termination tasks: every id is taken in the registry, nothing else
    of the session or the pool changes, and every result is the outcome of
    the backend call. *)
Lemma gather_terminate_run (gs : list GatewayModel.t) :
  ∀ w : World,
    NoDup (map GatewayModel.id gs) →
    (∀ g, g ∈ gs → GatewayModel.id g ∉ PROCESSING_GATEWAYS_IDS w) →
    ∃ results w1,
      gather (map (_terminate_gateway terminate_instance) gs) w = (Return results, w1)
      ∧ Forall2 (λ g r, ∃ n, r = termination_outcome terminate_instance n g) gs results
      ∧ PROCESSING_GATEWAYS_IDS w1
        = list_to_set (map GatewayModel.id gs) ∪ PROCESSING_GATEWAYS_IDS w
      ∧ gateways w1 = gateways w
      ∧ gateway_computes w1 = gateway_computes w
      ∧ gateway_connections_pool w1 = gateway_connections_pool w.
Proof.
  induction gs as [|g gs IH]; intros w Hnodup Hfree.
  - exists [], w. simpl. repeat split; [constructor|set_solver].
  - simpl in Hnodup. apply NoDup_cons in Hnodup as [Hg Hnodup].
    destruct (terminate_gateway_run g w) as (n & w0 & Hrun0 & Hids0 & Hg0 & Hc0 & Hp0).
    { apply Hfree. by left. }
    destruct (IH w0) as (rs & w1 & Hrun & Hrs & Hids & Hg1 & Hc1 & Hp1); [done| |].
    { intros g' Hg'. rewrite Hids0.
      assert (GatewayModel.id g' ≠ GatewayModel.id g).
      { intros Heq. apply Hg. rewrite <- Heq. apply list_elem_of_In, in_map.
        by apply list_elem_of_In. }
      assert (GatewayModel.id g' ∉ PROCESSING_GATEWAYS_IDS w)
        by (apply Hfree; by right).
      set_solver. }
    exists (termination_outcome terminate_instance n g :: rs), w1.
    change (map (_terminate_gateway terminate_instance) (g :: gs))
      with (_terminate_gateway terminate_instance g
            :: map (_terminate_gateway terminate_instance) gs).
    rewrite gather_cons, Hrun0.
    split.
    { destruct (termination_outcome terminate_instance n g); simpl; by rewrite Hrun. }
    split; [constructor; [by exists n|done]|].
    rewrite Hids, Hids0, Hg1, Hg0, Hc1, Hc0, Hp1, Hp0.
    repeat split. simpl. set_solver.
Qed.

(** The loop over the results: the rows of the gateways that terminated are
    deleted, their connections dropped and their computes tombstoned; the
    other rows and the registry stay as they are. *)
Lemma remove_terminated_run (results : list (GatewayModel.t * option Exn)) :
  ∀ w1 : World,
    ∃ w2,
      remove_terminated results w1 = (Return tt, w2)
      ∧ PROCESSING_GATEWAYS_IDS w2 = PROCESSING_GATEWAYS_IDS w1
      ∧ (∀ k, gateways w1 !! k = None → gateways w2 !! k = None)
      ∧ (∀ g, (g, None) ∈ results → gateways w2 !! GatewayModel.id g = None)
      ∧ (∀ k, (∀ g, (g, None) ∈ results → GatewayModel.id g ≠ k) →
              gateways w2 !! k = gateways w1 !! k)
      ∧ (∀ h, gateway_connections_pool w1 !! h = None →
              gateway_connections_pool w2 !! h = None)
      ∧ (∀ g c, (g, None) ∈ results → GatewayModel.gateway_compute g = Some c →
                gateway_connections_pool w2 !! GatewayComputeModel.ip_address c = None)
      ∧ (∀ k c, gateway_computes w1 !! k = Some c → is_tombstone c →
                ∃ c', gateway_computes w2 !! k = Some c' ∧ is_tombstone c')
      ∧ (∀ g c, (g, None) ∈ results → GatewayModel.gateway_compute g = Some c →
                ∃ c', gateway_computes w2 !! GatewayComputeModel.id c = Some c'
                      ∧ is_tombstone c').
Proof.
  induction results as [|[g [e|]] results IH]; intros w1.
  - exists w1. do 3 (split; [done|]). split; [intros ? []%elem_of_nil|].
    do 2 (split; [done|]). split; [intros ?? []%elem_of_nil|].
    split; [eauto|]. intros ?? []%elem_of_nil.
  - destruct (IH w1) as (w2 & Hrun & Hids & HG1 & HG2 & HG3 & HP1 & HP2 & HC1 & HC2).
    exists w2. simpl. run. rewrite Hrun. repeat split; try done.
    + intros g' Hg'. apply HG2. by decompose_list_elem_of.
    + intros k Hk. apply HG3. intros g' Hg'. apply Hk. by right.
    + intros g' c Hg'. apply HP2. by decompose_list_elem_of.
    + intros g' c Hg'. apply HC2. by decompose_list_elem_of.
  - set (w1' := set_gateways (delete (GatewayModel.id g))
                  match GatewayModel.gateway_compute g with
                  | Some c =>
                      set_gateway_computes
                        (insert (GatewayComputeModel.id c) (tombstone c))
                        (set_pool (delete (GatewayComputeModel.ip_address c)) w1)
                  | None => w1
                  end).
    destruct (IH w1') as (w2 & Hrun & Hids & HG1 & HG2 & HG3 & HP1 & HP2 & HC1 & HC2).
    assert (remove_terminated ((g, None) :: results) w1 = (Return tt, w2)) as Hrun'.
    { simpl. unfold pool_remove. run. rewrite <- Hrun. unfold w1'.
      by destruct (GatewayModel.gateway_compute g). }
    assert (PROCESSING_GATEWAYS_IDS w1' = PROCESSING_GATEWAYS_IDS w1) as Hids'.
    { unfold w1'. by destruct (GatewayModel.gateway_compute g). }
    assert (gateways w1' = delete (GatewayModel.id g) (gateways w1)) as Hg'.
    { unfold w1'. by destruct (GatewayModel.gateway_compute g). }
    assert (∀ h, gateway_connections_pool w1 !! h = None →
                 gateway_connections_pool w1' !! h = None) as Hp'.
    { intros h Hh. unfold w1'. destruct (GatewayModel.gateway_compute g); simpl; [|done].
      rewrite lookup_delete_None. by right. }
    assert (∀ c, GatewayModel.gateway_compute g = Some c →
                 gateway_connections_pool w1' !! GatewayComputeModel.ip_address c = None
                 ∧ gateway_computes w1' !! GatewayComputeModel.id c = Some (tombstone c))
      as Hc'.
    { intros c Hc. unfold w1'. rewrite Hc. simpl.
      by rewrite lookup_delete_eq, lookup_insert_eq. }
    assert (∀ k c, gateway_computes w1 !! k = Some c → is_tombstone c →
                   ∃ c', gateway_computes w1' !! k = Some c' ∧ is_tombstone c') as Ht'.
    { intros k c Hk Ht. unfold w1'.
      destruct (GatewayModel.gateway_compute g) as [c0|]; simpl; [|by exists c].
      destruct (decide (GatewayComputeModel.id c0 = k)) as [<-|Hne].
      - exists (tombstone c0). by rewrite lookup_insert_eq.
      - exists c. by rewrite lookup_insert_ne. }
    exists w2. split; [exact Hrun'|]. split; [congruence|].
    split; [|split; [|split; [|split; [|split; [|split]]]]].
    + intros k Hk. apply HG1. rewrite Hg'. rewrite lookup_delete_None. by right.
    + intros g' Hin. apply elem_of_cons in Hin as [[= ->]|Hin]; [|by apply HG2].
      apply HG1. rewrite Hg'. apply lookup_delete_eq.
    + intros k Hk. rewrite HG3 by (intros g' Hin; apply Hk; by right).
      rewrite Hg'. apply lookup_delete_ne. apply Hk. by left.
    + intros h Hh. by apply HP1, Hp'.
    + intros g' c Hin Hc. apply elem_of_cons in Hin as [[= ->]|Hin]; [|by eapply HP2].
      apply HP1. by apply Hc'.
    + intros k c Hk Ht. destruct (Ht' k c Hk Ht) as (c' & Hk' & Ht''). by eapply HC1.
    + intros g' c Hin Hc. apply elem_of_cons in Hin as [[= ->]|Hin]; [|by eapply HC2].
      eapply HC1; [by apply Hc'|]. done.
Qed.

(** The last loop: every id is taken out of the registry. *)
Lemma release_run (gs : list GatewayModel.t) :
  ∀ w : World,
    NoDup (map GatewayModel.id gs) →
    (∀ g, g ∈ gs → GatewayModel.id g ∈ PROCESSING_GATEWAYS_IDS w) →
    ∃ w',
      release gs w = (Return tt, w')
      ∧ PROCESSING_GATEWAYS_IDS w'
        = PROCESSING_GATEWAYS_IDS w ∖ list_to_set (map GatewayModel.id gs)
      ∧ gateways w' = gateways w
      ∧ gateway_computes w' = gateway_computes w
      ∧ gateway_connections_pool w' = gateway_connections_pool w.
Proof.
  induction gs as [|g gs IH]; intros w Hnodup Hheld.
  - exists w. simpl. repeat split. set_solver.
  - simpl in Hnodup. apply NoDup_cons in Hnodup as [Hg Hnodup].
    destruct (IH (set_processing (λ ids, ids ∖ {[GatewayModel.id g]}) w))
      as (w' & Hrun & Hids & Hg' & Hc' & Hp'); [done| |].
    { intros g' Hg''. simpl.
      assert (GatewayModel.id g' ≠ GatewayModel.id g).
      { intros Heq. apply Hg. rewrite <- Heq. apply list_elem_of_In, in_map.
        by apply list_elem_of_In. }
      assert (GatewayModel.id g' ∈ PROCESSING_GATEWAYS_IDS w)
        by (apply Hheld; by right).
      set_solver. }
    exists w'. simpl. unfold processing_ids_remove. run.
    rewrite decide_True by (apply Hheld; by left). run. rewrite Hrun.
    split; [done|]. rewrite Hids, Hg', Hc', Hp'. simpl. repeat split. set_solver.
Qed.

(** The rows [delete_gateways] selects are the rows of the project that are
    [processed]; their ids are pairwise distinct. *)
Lemma processed_rows (project : ProjectModel.t) (gateways_names : list string)
    (w : World) :
  keyed_by_id w →
  let gs := filter (processed gateways_names)
              (filter (λ g, GatewayModel.project_id g = ProjectModel.id project)
                 (map_to_list (gateways w)).*2) in
  NoDup (map GatewayModel.id gs)
  ∧ ∀ g, g ∈ gs ↔ gateways w !! GatewayModel.id g = Some g
                    ∧ GatewayModel.project_id g = ProjectModel.id project
                    ∧ processed gateways_names g.
Proof.
  intros Hkeyed gs. split.
  - change (map GatewayModel.id gs) with (GatewayModel.id <$> gs).
    apply (sublist_NoDup _ (GatewayModel.id <$> (map_to_list (gateways w)).*2)).
    + assert (GatewayModel.id <$> (map_to_list (gateways w)).*2
              = (map_to_list (gateways w)).*1) as ->.
      { rewrite <- list_fmap_compose. apply list_fmap_ext.
        intros i [k g] Hi. simpl. apply Hkeyed.
        apply elem_of_map_to_list. by eapply list_elem_of_lookup_2. }
      apply NoDup_fst_map_to_list.
    + apply fmap_sublist. unfold gs.
      etrans; apply sublist_filter.
  - intros g. unfold gs. rewrite !list_elem_of_filter, list_elem_of_fmap. split.
    + intros (Hp & Hproject & [k g'] & -> & Hin). simpl in *.
      apply elem_of_map_to_list in Hin. by rewrite (Hkeyed _ _ Hin).
    + intros (Hrow & Hproject & Hp). split; [done|]. split; [done|].
      exists (GatewayModel.id g, g). split; [done|]. by apply elem_of_map_to_list.
Qed.

(** C5: [delete_gateways], for the gateways it goes on to terminate (rows of
    the project, not of the [DSTACK] backend, named in the request), when
    the project has their backends and none of their ids is held in the
    registry.  It returns, and for each such gateway, with [n] the moment its
    termination was called: when the termination succeeded, the row is gone
    and, for a gateway with an instance, the pool has no connection for the
    instance's address and the compute is tombstoned; when the termination
    raised, the row is as it was; in both cases the id is out of the
    registry. *)
Theorem delete_gateways_outcomes (project : ProjectModel.t)
    (gateways_names : list string) (w : World) :
  keyed_by_id w →
  (∀ g, gateways w !! GatewayModel.id g = Some g →
        GatewayModel.project_id g = ProjectModel.id project →
        processed gateways_names g →
        get_project_backend_by_type_or_error project
          (BackendModel.type (GatewayModel.backend g)) = None
        ∧ GatewayModel.id g ∉ PROCESSING_GATEWAYS_IDS w) →
  ∃ w',
    delete_gateways terminate_instance get_project_backend_by_type_or_error
      project gateways_names w = (Return tt, w')
    ∧ ∀ g, gateways w !! GatewayModel.id g = Some g →
           GatewayModel.project_id g = ProjectModel.id project →
           processed gateways_names g →
           ∃ n,
             (termination_outcome terminate_instance n g = None →
              gateways w' !! GatewayModel.id g = None
              ∧ ∀ c, GatewayModel.gateway_compute g = Some c →
                     gateway_connections_pool w' !! GatewayComputeModel.ip_address c = None
                     ∧ ∃ c', gateway_computes w' !! GatewayComputeModel.id c = Some c'
                             ∧ is_tombstone c')
             ∧ (is_Some (termination_outcome terminate_instance n g) →
                gateways w' !! GatewayModel.id g = Some g)
             ∧ GatewayModel.id g ∉ PROCESSING_GATEWAYS_IDS w'.
Proof.
  intros Hkeyed Hready.
  destruct (processed_rows project gateways_names w Hkeyed) as [Hnodup Hgs].
  set (rows := filter (λ g, GatewayModel.project_id g = ProjectModel.id project)
                 (map_to_list (gateways w)).*2) in *.
  set (gs := filter (processed gateways_names) rows) in *.
  assert (select_gateways get_project_backend_by_type_or_error project gateways_names
            rows w = (Return gs, w)) as Hselect.
  { apply select_gateways_run. intros g Hrow Hp.
    assert (g ∈ gs) as Hg by (by apply list_elem_of_filter).
    apply Hgs in Hg as (? & ? & ?). by apply Hready. }
  destruct (gather_terminate_run gs w Hnodup)
    as (results & w1 & Hgather & Hresults & Hids1 & Hg1 & Hc1 & Hp1).
  { intros g Hg. apply Hgs in Hg as (? & ? & ?). by apply Hready. }
  destruct (remove_terminated_run (zip gs results) w1)
    as (w2 & Hremove & Hids2 & HG1 & HG2 & HG3 & HP1 & HP2 & HC1 & HC2).
  destruct (release_run gs w2 Hnodup) as (w3 & Hrelease & Hids3 & Hg3 & Hc3 & Hp3).
  { intros g Hg. rewrite Hids2, Hids1. apply elem_of_union_l, elem_of_list_to_set.
    apply list_elem_of_In, in_map. by apply list_elem_of_In. }
  exists w3. split.
  { unfold delete_gateways, list_project_gateway_models.
    unfold mbind, M_bind, mret, M_ret, get_world. fold rows.
    rewrite Hselect. cbv beta iota. rewrite Hgather. cbv beta iota.
    rewrite Hremove. cbv beta iota. exact Hrelease. }
  intros g Hrow Hproject Hp.
  assert (g ∈ gs) as Hg by (by apply Hgs).
  apply list_elem_of_lookup in Hg as [i Hi].
  destruct (Forall2_lookup_l _ _ _ _ _ Hresults Hi) as (r & Hr & n & ->).
  assert ((g, termination_outcome terminate_instance n g) ∈ zip gs results) as Hzip.
  { exact (elem_of_lookup_zip_with_2 pair gs results g _ (g, None) i Hi Hr). }
  exists n. rewrite Hg3, Hc3, Hp3. split; [|split].
  - intros Hnone. rewrite Hnone in Hzip. split; [by apply HG2|].
    intros c Hc. split; [by eapply HP2|by eapply HC2].
  - intros Hsome. rewrite HG3, Hg1; [done|].
    intros g' Hin Heq.
    apply (elem_of_lookup_zip_with_1 pair) in Hin as (j & g'' & r' & Hpair & Hj & Hrj).
    injection Hpair as -> <-.
    assert (i = j) as ->.
    { apply (NoDup_lookup (GatewayModel.id <$> gs) i j (GatewayModel.id g)).
      - exact Hnodup.
      - by rewrite list_lookup_fmap, Hi.
      - rewrite list_lookup_fmap, Hj. simpl. by rewrite Heq. }
    rewrite Hr in Hrj. injection Hrj as Hrj. rewrite Hrj in Hsome. by destruct Hsome.
  - rewrite Hids3. apply not_elem_of_difference. right. apply elem_of_list_to_set.
    apply list_elem_of_In, in_map, list_elem_of_In. by eapply list_elem_of_lookup_2.
Qed.

End DeleteFacts.

(** Scenario 5: two gateways are deleted and the backend fails for [g1]. *)
Lemma delete_gateways_outcomes_witness :
  ∃ w',
    delete_gateways Fixtures.backend_fails_on_i01 Fixtures.backend_found
      (Fixtures.project (Some Fixtures.g1)) ["g1"; "g2"] Fixtures.two_gateways
    = (Return tt, w')
    ∧ gateways w' !! 11%N = Some Fixtures.g1
    ∧ gateways w' !! 12%N = None
    ∧ gateway_connections_pool w' !! "10.0.0.2" = None
    ∧ (∃ c', gateway_computes w' !! 22%N = Some c' ∧ is_tombstone c')
    ∧ (11%N ∉ PROCESSING_GATEWAYS_IDS w')
    ∧ (12%N ∉ PROCESSING_GATEWAYS_IDS w').
Proof.
  destruct (delete_gateways_outcomes Fixtures.backend_fails_on_i01 Fixtures.backend_found
              (Fixtures.project (Some Fixtures.g1)) ["g1"; "g2"] Fixtures.two_gateways)
    as (w' & Hrun & Hall).
  - intros key g. simpl.
    rewrite lookup_insert_Some, lookup_singleton_Some. by intros [[<- <-]|[_ [<- <-]]].
  - intros g _ _ _. split; [reflexivity|]. simpl. apply not_elem_of_empty.
  - exists w'. split; [exact Hrun|].
    destruct (Hall Fixtures.g1) as (n1 & _ & Hkept & Hfree1);
      [reflexivity|reflexivity|by (vm_compute; split; [|apply list_elem_of_In; left])|].
    destruct (Hall Fixtures.g2) as (n2 & Hgone & _ & Hfree2);
      [reflexivity|reflexivity|by (vm_compute; split; [|apply list_elem_of_In; right; left])|].
    destruct (Hgone eq_refl) as (Hrow & Hcompute).
    destruct (Hcompute _ eq_refl) as (Hpool & Htomb).
    split; [apply Hkept; by eexists|]. by repeat split.
Defined.

(** ** Creating a gateway *)

Lemma append_cons (c : ascii) (s1 s2 : string) :
  String c s1 ++ s2 = String c (s1 ++ s2).
Proof. reflexivity. Qed.







Section CreateFacts.

Context (get_project_backend_with_model_by_type_or_error :
           ProjectModel.t → BackendType.t → Exn + BackendModel.t)
        (BACKENDS_WITH_PRIVATE_GATEWAY_SUPPORT : list BackendType.t)
        (generate_name : nat → string)
        (uuid4 : nat → uuid)
        (get_current_datetime : nat → Z).

Local Abbreviation create_gateway' :=
  (create_gateway get_project_backend_with_model_by_type_or_error
     BACKENDS_WITH_PRIVATE_GATEWAY_SUPPORT generate_name uuid4 get_current_datetime).





End CreateFacts.


(** Scenario 1: a gateway without a name, in a project that has
    ["brave-otter"] as its default gateway: the first name drawn is taken, the
    second is given to the new row, which is SUBMITTED; the default gateway of
    the project stays. *)
Example create_gateway_generates_fresh_name :
  let configuration :=
    GatewayConfiguration.Make None false BackendType.AWS "us-east-1" None true in
  let '(result, w') :=
    create_gateway Fixtures.backend_with_model Fixtures.private_backends Fixtures.names
      Fixtures.ids Fixtures.time 10 (Fixtures.project (Some Fixtures.brave_otter))
      configuration Fixtures.one_gateway in
  Gateway.name <$> (match result with Return g => Some g | _ => None end)
    = Some "calm-heron"
  ∧ (GatewayModel.name <$> gateways w' !! 1002%N) = Some "calm-heron"
  ∧ (GatewayModel.status <$> gateways w' !! 1002%N) = Some GatewayStatus.SUBMITTED
  ∧ (projects w' !! 1%N ≫= ProjectModel.default_gateway_id) = Some 11%N.
Proof. by vm_compute. Qed.

(** ** More on the service registrar *)

Section RegistrarMore.

Context (daemon : nat → string → Request → option Exn)
        (urlparse_hostname : string → option string)
        (get_service_options : ServiceConfiguration.t → Options)
        (repr : Exn → string).

Local Abbreviation register_service' :=
  (register_service daemon urlparse_hostname get_service_options repr).




(** X3: the refusals of [register_service] that come before the service
    spec is composed leave the world as it was: no default gateway, no
    instance, a status other than RUNNING, and a wildcard domain that is
    absent or empty. *)
Theorem register_service_refusals (run_model : RunModel.t) (w : World) :
  (ProjectModel.default_gateway (RunModel.project run_model) = None →
   register_service' run_model w
   = (Raise (ResourceNotExistsError (Some "Default gateway is not set")), w))
  ∧ ∀ gateway,
      ProjectModel.default_gateway (RunModel.project run_model) = Some gateway →
      (GatewayModel.gateway_compute gateway = None →
       register_service' run_model w
       = (Raise (ServerClientError "Gateway has no instance associated with it"), w))
      ∧ (GatewayModel.gateway_compute gateway ≠ None →
         GatewayModel.status gateway ≠ GatewayStatus.RUNNING →
         register_service' run_model w
         = (Raise (ServerClientError "Gateway status is not running"), w))
      ∧ (GatewayModel.gateway_compute gateway ≠ None →
         GatewayModel.status gateway = GatewayStatus.RUNNING →
         ServiceConfiguration.https (RunSpec.configuration (RunModel.run_spec run_model))
         && negb (GatewayConfiguration.public_ip (get_gateway_configuration gateway))
         = false →
         GatewayModel.wildcard_domain gateway = None
         ∨ GatewayModel.wildcard_domain gateway = Some "" →
         register_service' run_model w
         = (Raise (ServerClientError "Domain is required for gateway"), w)).
Proof.
  split.
  - intros Hg. unfold register_service. by rewrite Hg.
  - intros gateway Hg. unfold register_service. rewrite Hg. run. split; [|split].
    + by intros ->.
    + intros Hc Hs. destruct (GatewayModel.gateway_compute gateway); [|done]. run.
      by rewrite decide_True.
    + intros Hc Hs Hcheck Hd.
      destruct (GatewayModel.gateway_compute gateway); [|done]. run.
      rewrite decide_False by (by rewrite Hs; intros []). run.
      unfold get_gateway_configuration in Hcheck.
      assert (stripped_wildcard_domain gateway = None) as Hnone.
      { unfold stripped_wildcard_domain. by destruct Hd as [-> | ->]. }
      destruct (GatewayModel.configuration gateway); simpl in *.
      * rewrite Hcheck. run. by rewrite Hnone.
      * run. by rewrite Hnone.
Qed.

End RegistrarMore.

Lemma lstrip_split (chars s : string) :
  ∃ stripped,
    s = stripped ++ Py.lstrip chars s
    ∧ Forall (λ c, Py.char_in c chars = true) (list_ascii_of_string stripped)
    ∧ match Py.lstrip chars s with
      | EmptyString => True
      | String c _ => Py.char_in c chars = false
      end.
Proof.
  induction s as [|c s (stripped & Hs & Hall & Hhead)]; simpl.
  - exists "". by repeat split.
  - destruct (Py.char_in c chars) eqn:Hc.
    + exists (String c stripped). rewrite append_cons, <- Hs. split; [done|].
      split; [by constructor|done].
    + exists "". by repeat split.
Qed.

Lemma char_in_wildcard (c : ascii) :
  Py.char_in c "*." = true ↔ c = "*"%char ∨ c = "."%char.
Proof.
  simpl. destruct (Ascii.eqb c "*") eqn:H1; [apply Ascii.eqb_eq in H1; tauto|].
  destruct (Ascii.eqb c ".") eqn:H2; [apply Ascii.eqb_eq in H2; tauto|].
  apply Ascii.eqb_neq in H1, H2. split; [done|]. by intros [?|?].
Qed.

(** X4: the domain [register_service] puts in the URL is the wildcard domain
    without its longest prefix made of ['*'] and ['.']: it comes from a
    non-empty wildcard domain, and it never starts with ['*'] or ['.']. *)
Theorem stripped_wildcard_domain_spec (gateway : GatewayModel.t) (domain : string) :
  stripped_wildcard_domain gateway = Some domain →
  ∃ wildcard stripped,
    GatewayModel.wildcard_domain gateway = Some wildcard
    ∧ wildcard ≠ ""
    ∧ wildcard = stripped ++ domain
    ∧ Forall (λ c, c = "*"%char ∨ c = "."%char) (list_ascii_of_string stripped)
    ∧ match domain with
      | EmptyString => True
      | String c _ => c ≠ "*"%char ∧ c ≠ "."%char
      end.
Proof.
  unfold stripped_wildcard_domain.
  destruct (GatewayModel.wildcard_domain gateway) as [wildcard|]; [|done].
  destruct (Py.truthy wildcard) eqn:Ht; [|done]. intros [= <-].
  destruct (lstrip_split "*." wildcard) as (stripped & Hs & Hall & Hhead).
  exists wildcard, stripped. split; [done|]. split; [by destruct wildcard|].
  split; [done|]. split.
  - eapply Forall_impl; [exact Hall|]. intros c. apply char_in_wildcard.
  - destruct (Py.lstrip "*." wildcard) as [|c rest]; [done|].
    split; intros ->; by rewrite (proj2 (char_in_wildcard _)) in Hhead; auto.
Qed.

Lemma stripped_wildcard_domain_spec_witness :
  ∃ wildcard stripped,
    GatewayModel.wildcard_domain (Fixtures.gw_running "*.example.com" true) = Some wildcard
    ∧ wildcard ≠ ""
    ∧ wildcard = stripped ++ "example.com"
    ∧ Forall (λ c, c = "*"%char ∨ c = "."%char) (list_ascii_of_string stripped)
    ∧ ("e"%char ≠ "*"%char ∧ "e"%char ≠ "."%char).
Proof.
  apply (stripped_wildcard_domain_spec (Fixtures.gw_running "*.example.com" true)
           "example.com").
  reflexivity.
Defined.



Lemma register_service_refusals_witness :
  let g := Fixtures.gateway 10 "gw" (Some "") (Some (Fixtures.configuration true))
             GatewayStatus.RUNNING (Some (Fixtures.compute 20 "10.0.0.1" "i-01")) in
  let r := Fixtures.run true (Fixtures.project (Some g)) in
  register_service Fixtures.daemon_accepts Fixtures.hostname
    Fixtures.no_options Fixtures.class_name r (Fixtures.world_of r)
  = (Raise (ServerClientError "Domain is required for gateway"), Fixtures.world_of r).
Proof.
  intros g r.
  apply (proj2 (register_service_refusals Fixtures.daemon_accepts Fixtures.hostname
                  Fixtures.no_options Fixtures.class_name r (Fixtures.world_of r))
           g eq_refl).
  - discriminate.
  - reflexivity.
  - reflexivity.
  - by right.
Defined.

(** ** More on unregistering and on replicas *)

Section ReplicaFacts.

Context (daemon : nat → string → Request → option Exn) (repr : Exn → string).

(** X5: with the run's gateway connection available, [unregister_replica]
    sends one request; a [GatewayError] of the daemon (the replica is not
    registered) ends in a warning and a normal return, a [RequestError] or an
    [SSHError] is raised again as [GatewayError(repr(e))], any other error is
    raised as it is. *)
Theorem unregister_replica_outcomes (job_model : JobModel.t) (run_model : RunModel.t)
    (gateway_id : uuid) (conn : GatewayConnection.t) (w : World) (o : option Exn) :
  runs w !! JobModel.run_id job_model = Some run_model →
  RunModel.gateway_id run_model = Some gateway_id →
  (get_gateway_connection (Some gateway_id) w).1 = Return conn →
  daemon (clock w) (GatewayConnection.ip_address conn)
    (UnregisterReplica (ProjectModel.name (RunModel.project run_model))
       (RunModel.id run_model) (JobModel.id job_model)) = o →
  let result := unregister_replica daemon repr job_model w in
  count_requests (events_since w result.2) = 1
  ∧ result.1
    = match o with
      | None => Return tt
      | Some (GatewayError _) => Return tt
      | Some (RequestError m) => Raise (GatewayError (repr (RequestError m)))
      | Some (SSHError m) => Raise (GatewayError (repr (SSHError m)))
      | Some e => Raise e
      end
  ∧ (∀ m, o = Some (GatewayError m) →
          last (trace result.2)
          = Some (EvLog WARNING "%s: unregistering replica from service: %s")).
Proof.
  intros Hrun Hgid Hconn Ho result. subst result.
  rewrite get_gateway_connection_run in Hconn.
  unfold unregister_replica, select_run. run. rewrite Hrun. run. rewrite Hgid.
  rewrite get_gateway_connection_run. simpl in *.
  destruct (gateways w !! gateway_id) as [gateway|]; [|done]. simpl in *.
  destruct (GatewayModel.gateway_compute gateway) as [compute|]; [|done].
  destruct (gateway_connections_pool w !! _) as [conn'|]; [|done].
  simpl in Hconn. injection Hconn as ->.
  unfold send. run. rewrite Ho.
  destruct o as [[]|]; run;
    (split; [|split; [reflexivity|intros ? [=]; try apply last_snoc]]);
    match goal with
    | |- count_requests (events_since ?w0 ?w') = 1 =>
        erewrite (events_since_app w0 w') by (simpl; rewrite <- ?app_assoc; reflexivity)
    end; reflexivity.
Qed.

(** X6: [unregister_replica] for a job whose run row does not exist fails
    with [AttributeError] (the select gives [None]) before any lookup of a
    gateway or of a connection. *)
Theorem unregister_replica_missing_run (job_model : JobModel.t) (w : World) :
  runs w !! JobModel.run_id job_model = None →
  unregister_replica daemon repr job_model w
  = (Raise AttributeError,
     record_event (EvSessionGet "runs" (Some (JobModel.run_id job_model))) w).
Proof.
  intros Hrun. unfold unregister_replica, select_run. run. by rewrite Hrun.
Qed.

End ReplicaFacts.

Lemma unregister_replica_outcomes_witness :
  let g := Fixtures.gw_running "*.example.com" true in
  let r := RunModel.set_gateway g (Fixtures.run false (Fixtures.project (Some g))) in
  let w := Fixtures.connected (Fixtures.world_of r)
             (GatewayConnection.Make "10.0.0.1" "private") in
  (unregister_replica Fixtures.daemon_without_service Fixtures.class_name
     (JobModel.Make 9 (RunModel.id r)) w).1 = Return tt.
Proof.
  intros g r w.
  apply (unregister_replica_outcomes Fixtures.daemon_without_service
           Fixtures.class_name (JobModel.Make 9 (RunModel.id r)) r 10%N
           (GatewayConnection.Make "10.0.0.1" "private") w
           (Some (GatewayError "service not found")));
    reflexivity.
Defined.

Lemma unregister_replica_missing_run_witness :
  (unregister_replica Fixtures.daemon_accepts Fixtures.class_name
     (JobModel.Make 9 5) Fixtures.empty_world).1 = Raise AttributeError.
Proof.
  by rewrite (unregister_replica_missing_run Fixtures.daemon_accepts
                Fixtures.class_name (JobModel.Make 9 5) Fixtures.empty_world eq_refl).
Defined.


Lemma untouched_trans (w1 w2 w3 : World) :
  untouched w1 w2 → untouched w2 w3 → untouched w1 w3.
Proof.
  unfold untouched. intros (?&?&?&?&?&?) (?&?&?&?&?&?). repeat split; congruence.
Qed.

Lemma get_gateway_connection_untouched (gateway_id : option uuid) (w : World) :
  untouched w (get_gateway_connection gateway_id w).2.
Proof.
  rewrite get_gateway_connection_run. repeat case_match; by repeat split.
Qed.

Section ReplicaMore.

Context (daemon : nat → string → Request → option Exn)
        (daemon_register_replica : nat → string → Run.t → JobModel.t → option Exn)
        (repr : Exn → string).

(** X7: [register_replica]: a failure of the connection lookup is the
    outcome of the call; otherwise the answer of the daemon decides: a
    [RequestError] or an [SSHError] is raised again as
    [GatewayError(repr(e))], and any other error, a [GatewayError] of the
    daemon included, is raised as it is (nothing is turned into a warning). *)
Theorem register_replica_outcomes (gateway_id : uuid) (run : Run.t)
    (job_model : JobModel.t) (w : World) :
  let lookup := get_gateway_connection (Some gateway_id) w in
  let result := register_replica daemon_register_replica repr gateway_id run job_model w in
  (∀ e, lookup.1 = Raise e → result = (Raise e, lookup.2))
  ∧ (∀ conn o,
       lookup.1 = Return conn →
       daemon_register_replica (clock w) (GatewayConnection.ip_address conn)
         run job_model = o →
       result.1
       = match o with
         | None => Return tt
         | Some (RequestError m) => Raise (GatewayError (repr (RequestError m)))
         | Some (SSHError m) => Raise (GatewayError (repr (SSHError m)))
         | Some e => Raise e
         end).
Proof.
  intros lookup result. subst lookup result.
  unfold register_replica, send_register_replica. run.
  pose proof (get_gateway_connection_clock (Some gateway_id) w) as Hclock.
  destruct (get_gateway_connection (Some gateway_id) w) as [r w1]. simpl in *. split.
  - by intros e ->.
  - intros conn o -> Ho.
    rewrite ?clock_record_event, Hclock, Ho. by destruct o as [[]|].
Qed.

(** X8: unregistering and registering replicas never change the session's
    rows, the pool or the registry: after [unregister_service] the run row
    still carries its gateway and its service spec. *)
Theorem unregistering_leaves_rows (w : World) :
  (∀ run_model, untouched w (unregister_service daemon repr run_model w).2)
  ∧ (∀ job_model, untouched w (unregister_replica daemon repr job_model w).2)
  ∧ (∀ gateway_id run job_model,
       untouched w (register_replica daemon_register_replica repr gateway_id run
                      job_model w).2).
Proof.
  split; [|split].
  - intros run_model. unfold unregister_service.
    unfold mbind at 1. unfold M_bind at 1.
    pose proof (get_gateway_connection_untouched (RunModel.gateway_id run_model) w) as Hu.
    destruct (get_gateway_connection _ w) as [[conn|e|] w1]; simpl in *; try done.
    eapply untouched_trans; [exact Hu|].
    unfold session_get_project, send. run.
    repeat case_match; simplify_eq; by repeat split.
  - intros job_model. unfold unregister_replica, select_run. run.
    destruct (runs w !! JobModel.run_id job_model) as [run_model|]; run;
      [|by repeat split].
    destruct (RunModel.gateway_id run_model) as [gid|]; [|by repeat split].
    pose proof (get_gateway_connection_untouched (Some gid)
                  (record_event (EvSessionGet "runs" (Some (JobModel.run_id job_model))) w))
      as Hu.
    destruct (get_gateway_connection _ _) as [[conn|e|] w1]; simpl in *; try done.
    eapply untouched_trans; [exact Hu|].
    unfold send. run.
    repeat case_match; simplify_eq; by repeat split.
  - intros gateway_id run job_model. unfold register_replica.
    unfold mbind at 1. unfold M_bind at 1.
    pose proof (get_gateway_connection_untouched (Some gateway_id) w) as Hu.
    destruct (get_gateway_connection _ w) as [[conn|e|] w1]; simpl in *; try done.
    eapply untouched_trans; [exact Hu|].
    unfold send_register_replica. run.
    repeat case_match; simplify_eq; by repeat split.
Qed.

End ReplicaMore.

Lemma register_replica_outcomes_witness :
  let g := Fixtures.gw_running "*.example.com" true in
  let r := Fixtures.run false (Fixtures.project (Some g)) in
  let w := Fixtures.connected (Fixtures.world_of r)
             (GatewayConnection.Make "10.0.0.1" "private") in
  (register_replica (λ _ _ _ _, Some (GatewayError "service not found"))
     Fixtures.class_name 10 (Run.Make 5) (JobModel.Make 9 5) w).1
  = Raise (GatewayError "service not found").
Proof.
  intros g r w.
  apply (proj2 (register_replica_outcomes
                  (λ _ _ _ _, Some (GatewayError "service not found"))
                  Fixtures.class_name 10 (Run.Make 5) (JobModel.Make 9 5) w)
           (GatewayConnection.Make "10.0.0.1" "private")
           (Some (GatewayError "service not found")));
    reflexivity.
Defined.

(** ** The delays of the retry loops *)

Lemma slept_app (t1 t2 : list Event) : slept (t1 ++ t2) = slept t1 + slept t2.
Proof. induction t1 as [|[] t1 IH]; simpl; lia. Qed.

Section ConnectDelays.

Context (ssh_handshake : nat → string → string → option Exn).

Local Abbreviation host_of gc := (GatewayComputeModel.ip_address gc).
Local Abbreviation key_of gc := (GatewayComputeModel.ssh_private_key gc).

(** A failed attempt sleeps unless it is the last of the 30. *)
Lemma connect_attempt_fails_delay (gateway_compute : GatewayComputeModel.t)
    (attempt : nat) (w : World) (m : string) :
  gateway_connections_pool w !! host_of gateway_compute = None →
  ssh_handshake (clock w) (host_of gateway_compute) (key_of gateway_compute)
    = Some (SSHError m) →
  ∃ w' evs,
    connect_attempt ssh_handshake gateway_compute attempt w = (Return (inr tt), w')
    ∧ clock w' = S (clock w)
    ∧ gateway_connections_pool w' = gateway_connections_pool w
    ∧ trace w' = (trace w ++ evs)%list
    ∧ count_sleeps evs = (if attempt <? GATEWAY_CONNECT_ATTEMPTS - 1 then 1 else 0)
    ∧ slept evs
      = (if attempt <? GATEWAY_CONNECT_ATTEMPTS - 1 then GATEWAY_CONNECT_DELAY else 0).
Proof.
  intros Hp Hh. unfold connect_attempt, pool_add. run. rewrite Hp. run. rewrite Hh. run.
  destruct (attempt <? _); run; eexists _, _; (split; [reflexivity|]); simpl;
    rewrite <- ?app_assoc; repeat split; reflexivity.
Qed.

(** The sleeps of a run of failed attempts numbered [a], [a + 1], ... *)
Lemma connect_loop_delay (gateway_compute : GatewayComputeModel.t) (k : nat) :
  ∀ (n a : nat) (w : World) (connection : option GatewayConnection.t),
    k ≤ n →
    gateway_connections_pool w !! host_of gateway_compute = None →
    (∀ j, j < k →
       ∃ m, ssh_handshake (clock w + j) (host_of gateway_compute)
              (key_of gateway_compute) = Some (SSHError m)) →
    (k = n ∨ ssh_handshake (clock w + k) (host_of gateway_compute)
               (key_of gateway_compute) = None) →
    ∃ w' evs,
      connect_loop ssh_handshake gateway_compute (seq a n) connection w
        = (Return (if decide (k = n) then connection
                   else Some (GatewayConnection.Make (host_of gateway_compute)
                                (key_of gateway_compute))), w')
      ∧ trace w' = (trace w ++ evs)%list
      ∧ count_sleeps evs
        = Nat.min (a + k) (GATEWAY_CONNECT_ATTEMPTS - 1)
          - Nat.min a (GATEWAY_CONNECT_ATTEMPTS - 1)
      ∧ slept evs = GATEWAY_CONNECT_DELAY * count_sleeps evs
      ∧ (k = n → gateway_connections_pool w' = gateway_connections_pool w).
Proof.
  induction k as [|k IH]; intros n a w connection Hk Hp Hfail Hlast.
  - destruct n as [|n].
    + exists w, []. rewrite decide_True by done. simpl. rewrite app_nil_r.
      repeat split; lia.
    + destruct Hlast as [?|Hok]; [lia|]. rewrite Nat.add_0_r in Hok.
      destruct (connect_attempt_ends ssh_handshake gateway_compute a w None Hp Hok eq_refl)
        as (w' & Hrun & Htrace & _).
      exists w', [EvPoolAdd (host_of gateway_compute)].
      rewrite decide_False by lia. simpl. unfold mbind, M_bind at 1. rewrite Hrun. simpl.
      repeat split; try done; lia.
  - destruct n as [|n]; [lia|].
    destruct (Hfail 0) as [m Hm]; [lia|]. rewrite Nat.add_0_r in Hm.
    destruct (connect_attempt_fails_delay gateway_compute a w m Hp Hm)
      as (w1 & evs1 & Hrun1 & Hclock1 & Hpool1 & Htrace1 & Hcount1 & Hslept1).
    destruct (IH n (S a) w1 connection)
      as (w' & evs & Hrun & Htrace & Hcount & Hslept & Hpool).
    + lia.
    + by rewrite Hpool1.
    + intros j Hj. destruct (Hfail (S j)) as [m' Hm']; [lia|].
      exists m'. rewrite <- Hm'. f_equal. lia.
    + destruct Hlast as [?|Hok]; [left; lia|right].
      rewrite <- Hok. f_equal. lia.
    + exists w', (evs1 ++ evs)%list.
      simpl. unfold mbind, M_bind at 1. rewrite Hrun1, Hrun.
      split.
      { destruct (decide (k = n)), (decide (S k = S n)); try done; lia. }
      rewrite Htrace, Htrace1, app_assoc, count_sleeps_app, slept_app.
      split; [done|]. rewrite Hcount, Hslept, Hcount1, Hslept1.
      unfold GATEWAY_CONNECT_ATTEMPTS, GATEWAY_CONNECT_DELAY in *.
      destruct (Nat.ltb_spec a (30 - 1)); repeat split; try lia.
      all: intros; rewrite Hpool, Hpool1; (done || lia).
Qed.

(** X9: the delays of [connect_to_gateway_with_retry], with no pool entry
    for the host: after [k] failed handshakes and a successful one it has
    slept [k] times, [GATEWAY_CONNECT_DELAY = 10] seconds each; when the 30
    handshakes fail it has slept 29 times (there is no sleep after the last
    attempt) and the pool is as it was. *)
Theorem connect_to_gateway_with_retry_delays (gateway_compute : GatewayComputeModel.t)
    (w : World) (k : nat) :
  let result := connect_to_gateway_with_retry ssh_handshake gateway_compute w in
  gateway_connections_pool w !! host_of gateway_compute = None →
  k ≤ GATEWAY_CONNECT_ATTEMPTS →
  (∀ j, j < k →
     ∃ m, ssh_handshake (clock w + j) (host_of gateway_compute)
            (key_of gateway_compute) = Some (SSHError m)) →
  (k = GATEWAY_CONNECT_ATTEMPTS
   ∨ ssh_handshake (clock w + k) (host_of gateway_compute)
       (key_of gateway_compute) = None) →
  count_sleeps (events_since w result.2) = Nat.min k (GATEWAY_CONNECT_ATTEMPTS - 1)
  ∧ slept (events_since w result.2)
    = GATEWAY_CONNECT_DELAY * Nat.min k (GATEWAY_CONNECT_ATTEMPTS - 1)
  ∧ (k = GATEWAY_CONNECT_ATTEMPTS →
     result.1 = Return None
     ∧ gateway_connections_pool result.2 = gateway_connections_pool w).
Proof.
  intros result Hp Hk Hfail Hlast. subst result.
  destruct (connect_loop_delay gateway_compute k GATEWAY_CONNECT_ATTEMPTS 0 w None
              Hk Hp Hfail Hlast) as (w' & evs & Hrun & Htrace & Hcount & Hslept & Hpool).
  unfold connect_to_gateway_with_retry. rewrite Hrun. simpl.
  rewrite (events_since_app w w' evs Htrace), Hslept, Hcount. simpl.
  rewrite Nat.sub_0_r. split; [done|]. split; [done|].
  intros ->. rewrite decide_True by done. split; [done|by apply Hpool].
Qed.

End ConnectDelays.

Lemma connect_to_gateway_with_retry_delays_witness :
  let gc := Fixtures.compute 20 "10.0.0.1" "i-01" in
  let result := connect_to_gateway_with_retry Fixtures.tunnel_never_opens gc
                  Fixtures.empty_world in
  count_sleeps (events_since Fixtures.empty_world result.2) = 29
  ∧ slept (events_since Fixtures.empty_world result.2) = 290
  ∧ (30 = 30 →
     result.1 = Return None
     ∧ gateway_connections_pool result.2 = gateway_connections_pool Fixtures.empty_world).
Proof.
  apply (connect_to_gateway_with_retry_delays Fixtures.tunnel_never_opens
           (Fixtures.compute 20 "10.0.0.1" "i-01") Fixtures.empty_world 30).
  - reflexivity.
  - reflexivity.
  - intros j _. by exists "timed out".
  - by left.
Defined.

Section ConfigureDelays.

Context (daemon : nat → string → Request → option Exn).

Lemma configure_loop_delay (connection : GatewayConnection.t) (k : nat) :
  ∀ (n a : nat) (w : World) (o : option Exn),
    k ≤ n →
    (∀ j, j < k →
       ∃ m, daemon (clock w + j) (GatewayConnection.ip_address connection)
              SubmitGatewayConfig = Some (RequestError m)) →
    daemon (clock w + k) (GatewayConnection.ip_address connection) SubmitGatewayConfig = o →
    (k = n ∨ from_option is_RequestError false o = false) →
    ∃ w' evs,
      configure_loop daemon connection (seq a n) w
        = (from_option Raise (Return tt) o, w')
      ∧ trace w' = (trace w ++ evs)%list
      ∧ count_sleeps evs = k
      ∧ slept evs = GATEWAY_CONFIGURE_DELAY * k
      ∧ untouched w w'.
Proof.
  induction k as [|k IH]; intros n a w o Hk Hfail Ho Hlast.
  - rewrite Nat.add_0_r in Ho.
    destruct n as [|n]; simpl.
    + unfold send. run. rewrite Ho.
      eexists _, [EvRequest (GatewayConnection.ip_address connection) SubmitGatewayConfig].
      destruct o; simpl; by repeat split.
    + unfold configure_attempt, send. run. rewrite Ho.
      destruct Hlast as [?|Hlast]; [lia|].
      eexists _, [EvRequest (GatewayConnection.ip_address connection) SubmitGatewayConfig].
      destruct o as [[]|]; simpl in *; try discriminate; by repeat split.
  - destruct n as [|n]; [lia|]. simpl.
    destruct (Hfail 0) as [m Hm]; [lia|]. rewrite Nat.add_0_r in Hm.
    unfold configure_attempt at 1. unfold send. run. rewrite Hm. run.
    match goal with |- context [configure_loop _ _ _ ?x] => set (w1 := x) end.
    destruct (IH n (S a) w1 o) as (w' & evs & Hrun & Htrace & Hcount & Hslept & Hu).
    + lia.
    + intros j Hj. destruct (Hfail (S j)) as [m' Hm']; [lia|].
      exists m'. rewrite <- Hm'. f_equal. simpl. lia.
    + rewrite <- Ho. f_equal. simpl. lia.
    + destruct Hlast as [?|?]; [left; lia|by right].
    + exists w', ([EvRequest (GatewayConnection.ip_address connection) SubmitGatewayConfig;
                  EvLog DEBUG "Failed attempt %s/%s at configuring gateway %s: %r";
                  EvSleep GATEWAY_CONFIGURE_DELAY] ++ evs)%list.
      rewrite Hrun. split; [done|]. rewrite Htrace. simpl.
      rewrite <- !app_assoc. simpl. rewrite Hcount, Hslept.
      unfold GATEWAY_CONFIGURE_DELAY. repeat split; try lia; apply Hu.
Qed.

(** The sleeps of [configure_gateway] and what it leaves untouched. *)
Lemma configure_gateway_delay_run (connection : GatewayConnection.t) (w : World)
    (k : nat) (o : option Exn) :
  k < GATEWAY_CONFIGURE_ATTEMPTS →
  (∀ j, j < k →
     ∃ m, daemon (clock w + j) (GatewayConnection.ip_address connection)
            SubmitGatewayConfig = Some (RequestError m)) →
  daemon (clock w + k) (GatewayConnection.ip_address connection) SubmitGatewayConfig = o →
  (k = GATEWAY_CONFIGURE_ATTEMPTS - 1 ∨ from_option is_RequestError false o = false) →
  ∃ w' evs,
    configure_gateway daemon connection w = (from_option Raise (Return tt) o, w')
    ∧ trace w' = (trace w ++ evs)%list
    ∧ count_sleeps evs = k
    ∧ slept evs = GATEWAY_CONFIGURE_DELAY * k
    ∧ untouched w w'.
Proof.
  intros Hk Hfail Ho Hlast.
  destruct (configure_loop_delay connection k (GATEWAY_CONFIGURE_ATTEMPTS - 1) 0
              (record_event (EvLog DEBUG "Configuring gateway %s") w) o)
    as (w' & evs & Hrun & Htrace & Hcount & Hslept & Hu); auto.
  { unfold GATEWAY_CONFIGURE_ATTEMPTS in *. lia. }
  unfold configure_gateway.
  remember (configure_loop daemon connection (seq 0 (GATEWAY_CONFIGURE_ATTEMPTS - 1)))
    as loop eqn:Hloop.
  run. rewrite Hrun. destruct o as [e|]; simpl.
  - exists w', (EvLog DEBUG "Configuring gateway %s" :: evs).
    split; [done|]. rewrite Htrace. simpl. rewrite <- app_assoc.
    by repeat split; try apply Hu.
  - eexists _, (EvLog DEBUG "Configuring gateway %s" :: evs
                ++ [EvLog INFO "Gateway %s configured"])%list.
    split; [done|]. simpl. rewrite Htrace, count_sleeps_app, slept_app. simpl.
    rewrite <- !app_assoc. repeat split; try lia; apply Hu.
Qed.


(** X10: the delays of [configure_gateway]: when the first [k] requests fail
    with [RequestError] and the next attempt is the last (it succeeds, fails
    otherwise, or is the 40th), the call has slept [k] times,
    [GATEWAY_CONFIGURE_DELAY = 3] seconds each, never after the last attempt;
    it completes, and the session's rows, the pool and the registry are as
    they were. *)
Theorem configure_gateway_delays (connection : GatewayConnection.t) (w : World)
    (k : nat) (o : option Exn) :
  let result := configure_gateway daemon connection w in
  k < GATEWAY_CONFIGURE_ATTEMPTS →
  (∀ j, j < k →
     ∃ m, daemon (clock w + j) (GatewayConnection.ip_address connection)
            SubmitGatewayConfig = Some (RequestError m)) →
  daemon (clock w + k) (GatewayConnection.ip_address connection) SubmitGatewayConfig = o →
  (k = GATEWAY_CONFIGURE_ATTEMPTS - 1 ∨ from_option is_RequestError false o = false) →
  result.1 ≠ Hang
  ∧ count_sleeps (events_since w result.2) = k
  ∧ slept (events_since w result.2) = GATEWAY_CONFIGURE_DELAY * k
  ∧ untouched w result.2.
Proof.
  intros result Hk Hfail Ho Hlast. subst result.
  destruct (configure_gateway_delay_run connection w k o Hk Hfail Ho Hlast)
    as (w' & evs & -> & Htrace & Hcount & Hslept & Hu).
  simpl. rewrite (events_since_app w w' evs Htrace).
  split; [by destruct o|]. split; [exact Hcount|]. split; [exact Hslept|exact Hu].
Qed.

End ConfigureDelays.

(** Scenario 6: three failures, then success: three sleeps, nine seconds. *)
Lemma configure_gateway_delays_witness :
  let connection := GatewayConnection.Make "10.0.0.1" "private" in
  let result := configure_gateway Fixtures.daemon_starting connection
                  Fixtures.empty_world in
  result.1 ≠ Hang
  ∧ count_sleeps (events_since Fixtures.empty_world result.2) = 3
  ∧ slept (events_since Fixtures.empty_world result.2) = 9
  ∧ untouched Fixtures.empty_world result.2.
Proof.
  apply (configure_gateway_delays Fixtures.daemon_starting
           (GatewayConnection.Make "10.0.0.1" "private") Fixtures.empty_world 3 None).
  - unfold GATEWAY_CONFIGURE_ATTEMPTS. lia.
  - intros j Hj. exists "connection refused".
    destruct j as [|[|[|j]]]; [reflexivity..|lia].
  - reflexivity.
  - by right.
Defined.

(** ** More on deleting gateways *)

Section DeleteMore.

Context (terminate_instance : nat → string → string → option Exn)
        (get_project_backend_by_type_or_error : ProjectModel.t → BackendType.t → option Exn).

Local Abbreviation delete_gateways' :=
  (delete_gateways terminate_instance get_project_backend_by_type_or_error).

Local Abbreviation project_rows project w :=
  (filter (λ g, GatewayModel.project_id g = ProjectModel.id project)
     (map_to_list (gateways w)).*2).

(** X11: when no gateway of the project is to be terminated (an empty list
    of names, names that match no gateway, gateways of the [DSTACK] backend
    only), [delete_gateways] returns and the world is exactly as it was. *)
Theorem delete_gateways_nothing_to_delete (project : ProjectModel.t)
    (gateways_names : list string) (w : World) :
  (∀ key g, gateways w !! key = Some g →
            GatewayModel.project_id g = ProjectModel.id project →
            ¬ processed gateways_names g) →
  delete_gateways' project gateways_names w = (Return tt, w).
Proof.
  intros Hnone.
  assert (filter (processed gateways_names) (project_rows project w) = []) as Hgs.
  { apply elem_of_nil_inv. intros g Hg.
    apply list_elem_of_filter in Hg as [Hp Hg].
    apply list_elem_of_filter in Hg as [Hproject Hg].
    apply list_elem_of_fmap in Hg as ([k g'] & -> & Hin).
    apply elem_of_map_to_list in Hin. by eapply Hnone. }
  unfold delete_gateways, list_project_gateway_models.
  unfold mbind, M_bind, mret, M_ret, get_world.
  rewrite select_gateways_run.
  - cbv beta iota. by rewrite Hgs.
  - intros g Hg Hp. exfalso.
    assert (g ∈ filter (processed gateways_names) (project_rows project w)) as Hin
      by (by apply list_elem_of_filter).
    rewrite Hgs in Hin. by apply elem_of_nil in Hin.
Qed.

(** What [select_gateways] raises is the error of the backend lookup of a
    selected row, and the world is as it was. *)
Lemma select_gateways_raises (project : ProjectModel.t) (gateways_names : list string)
    (rows : list GatewayModel.t) (w : World) :
  (∃ g e, g ∈ rows ∧ processed gateways_names g
          ∧ get_project_backend_by_type_or_error project
              (BackendModel.type (GatewayModel.backend g)) = Some e) →
  ∃ g e, g ∈ rows ∧ processed gateways_names g
         ∧ get_project_backend_by_type_or_error project
             (BackendModel.type (GatewayModel.backend g)) = Some e
         ∧ select_gateways get_project_backend_by_type_or_error project gateways_names
             rows w = (Raise e, w).
Proof.
  induction rows as [|g rows IH]; intros (g0 & e0 & Hin & Hp & He).
  { by apply elem_of_nil in Hin. }
  simpl.
  destruct (decide (processed gateways_names g)) as [Hpg|Hpg].
  - destruct Hpg as [Hd Hn].
    rewrite decide_False by done. rewrite decide_False by (by intros ?).
    destruct (get_project_backend_by_type_or_error project
                (BackendModel.type (GatewayModel.backend g))) as [e|] eqn:Hlookup.
    + exists g, e. run. repeat split; try done. by left.
    + run. apply elem_of_cons in Hin as [->|Hin]; [congruence|].
      destruct IH as (g' & e' & Hin' & Hp' & He' & Hrun); [by exists g0, e0|].
      exists g', e'. rewrite Hrun. split; [by right|]. by repeat split; try apply Hp'.
  - apply elem_of_cons in Hin as [->|Hin]; [done|].
    destruct IH as (g' & e' & Hin' & Hp' & He' & Hrun); [by exists g0, e0|].
    exists g', e'. split; [by right|]. do 2 (split; [done|]).
    destruct (decide (_ = BackendType.DSTACK)); [done|].
    destruct (decide (_ ∉ gateways_names)) as [|Hn]; [done|].
    exfalso. apply Hpg. split; [done|].
    by destruct (decide (GatewayModel.name g ∈ gateways_names)).
Qed.

(** X12: when the project lacks the backend of a gateway that is to be
    terminated, [delete_gateways] raises the error of that lookup and the
    world is exactly as it was: nothing is terminated and no id is taken in
    the registry, also for the gateways whose backend is there. *)
Theorem delete_gateways_backend_missing (project : ProjectModel.t)
    (gateways_names : list string) (w : World) (key : uuid) (g : GatewayModel.t)
    (e : Exn) :
  gateways w !! key = Some g →
  GatewayModel.project_id g = ProjectModel.id project →
  processed gateways_names g →
  get_project_backend_by_type_or_error project
    (BackendModel.type (GatewayModel.backend g)) = Some e →
  ∃ g' e',
    delete_gateways' project gateways_names w = (Raise e', w)
    ∧ processed gateways_names g'
    ∧ get_project_backend_by_type_or_error project
        (BackendModel.type (GatewayModel.backend g')) = Some e'.
Proof.
  intros Hrow Hproject Hp He.
  destruct (select_gateways_raises project gateways_names (project_rows project w) w)
    as (g' & e' & _ & Hp' & He' & Hrun).
  { exists g, e. split; [|done]. apply list_elem_of_filter. split; [done|].
    apply list_elem_of_fmap. exists (key, g). split; [done|].
    by apply elem_of_map_to_list. }
  exists g', e'. split; [|done].
  unfold delete_gateways, list_project_gateway_models.
  unfold mbind, M_bind, mret, M_ret, get_world. by rewrite Hrun.
Qed.

(** [delete_gateways] under the hypotheses of its main property: what is
    deleted, and what stays. *)
Lemma delete_gateways_frame (project : ProjectModel.t) (gateways_names : list string)
    (w : World) :
  keyed_by_id w →
  (∀ g, gateways w !! GatewayModel.id g = Some g →
        GatewayModel.project_id g = ProjectModel.id project →
        processed gateways_names g →
        get_project_backend_by_type_or_error project
          (BackendModel.type (GatewayModel.backend g)) = None
        ∧ GatewayModel.id g ∉ PROCESSING_GATEWAYS_IDS w) →
  ∃ w',
    delete_gateways' project gateways_names w = (Return tt, w')
    ∧ PROCESSING_GATEWAYS_IDS w' = PROCESSING_GATEWAYS_IDS w
    ∧ (∀ k g, gateways w !! k = Some g →
              ¬ (GatewayModel.project_id g = ProjectModel.id project
                 ∧ processed gateways_names g) →
              gateways w' !! k = Some g)
    ∧ (∀ k, gateways w !! k = None → gateways w' !! k = None).
Proof.
  intros Hkeyed Hready.
  destruct (processed_rows project gateways_names w Hkeyed) as [Hnodup Hgs].
  set (gs := filter (processed gateways_names) (project_rows project w)) in *.
  assert (select_gateways get_project_backend_by_type_or_error project gateways_names
            (project_rows project w) w = (Return gs, w)) as Hselect.
  { apply select_gateways_run. intros g Hrow Hp.
    assert (g ∈ gs) as Hg by (by apply list_elem_of_filter).
    apply Hgs in Hg as (? & ? & ?). by apply Hready. }
  assert (∀ g, g ∈ gs → GatewayModel.id g ∉ PROCESSING_GATEWAYS_IDS w) as Hfree.
  { intros g Hg. apply Hgs in Hg as (? & ? & ?). by apply Hready. }
  destruct (gather_terminate_run terminate_instance gs w Hnodup Hfree)
    as (results & w1 & Hgather & Hresults & Hids1 & Hg1 & Hc1 & Hp1).
  destruct (remove_terminated_run (zip gs results) w1)
    as (w2 & Hremove & Hids2 & HG1 & HG2 & HG3 & _).
  destruct (release_run gs w2 Hnodup) as (w3 & Hrelease & Hids3 & Hg3 & _).
  { intros g Hg. rewrite Hids2, Hids1. apply elem_of_union_l, elem_of_list_to_set.
    apply list_elem_of_In, in_map. by apply list_elem_of_In. }
  exists w3. split; [|split; [|split]].
  - unfold delete_gateways, list_project_gateway_models.
    unfold mbind, M_bind, mret, M_ret, get_world.
    rewrite Hselect. cbv beta iota. rewrite Hgather. cbv beta iota.
    rewrite Hremove. cbv beta iota. exact Hrelease.
  - rewrite Hids3, Hids2, Hids1.
    assert (∀ k, k ∈ (list_to_set (map GatewayModel.id gs) : gset uuid) →
                 k ∉ PROCESSING_GATEWAYS_IDS w) as Hdisjoint.
    { intros k Hk. apply elem_of_list_to_set, list_elem_of_In, in_map_iff in Hk
        as (g & <- & Hg). apply Hfree. by apply list_elem_of_In. }
    set_solver.
  - intros k g Hrow Hnot. rewrite Hg3, HG3, Hg1; [done|].
    intros g' Hin <-. apply Hnot.
    apply (elem_of_zip_l g' None gs results) in Hin.
    apply Hgs in Hin as (Hrow' & ? & ?).
    rewrite Hrow in Hrow'. by injection Hrow' as ->.
  - intros k Hk. rewrite Hg3. apply HG1. by rewrite Hg1.
Qed.


(** X14: [delete_gateways] gives back every id it took: when it returns,
    the registry of processing ids is the one it found. *)
Theorem delete_gateways_restores_registry (project : ProjectModel.t)
    (gateways_names : list string) (w : World) :
  keyed_by_id w →
  (∀ g, gateways w !! GatewayModel.id g = Some g →
        GatewayModel.project_id g = ProjectModel.id project →
        processed gateways_names g →
        get_project_backend_by_type_or_error project
          (BackendModel.type (GatewayModel.backend g)) = None
        ∧ GatewayModel.id g ∉ PROCESSING_GATEWAYS_IDS w) →
  let result := delete_gateways' project gateways_names w in
  result.1 = Return tt
  ∧ PROCESSING_GATEWAYS_IDS result.2 = PROCESSING_GATEWAYS_IDS w.
Proof.
  intros Hkeyed Hready result. subst result.
  destruct (delete_gateways_frame project gateways_names w Hkeyed Hready)
    as (w' & -> & Hids & _).
  by split.
Qed.

End DeleteMore.

Lemma two_gateways_keyed : keyed_by_id Fixtures.two_gateways.
Proof.
  intros key g. simpl.
  rewrite lookup_insert_Some, lookup_singleton_Some. by intros [[<- <-]|[_ [<- <-]]].
Defined.

Lemma two_gateways_ready (names : list string) :
  ∀ g, gateways Fixtures.two_gateways !! GatewayModel.id g = Some g →
       GatewayModel.project_id g = ProjectModel.id (Fixtures.project (Some Fixtures.g1)) →
       processed names g →
       Fixtures.backend_found (Fixtures.project (Some Fixtures.g1))
         (BackendModel.type (GatewayModel.backend g)) = None
       ∧ GatewayModel.id g ∉ PROCESSING_GATEWAYS_IDS Fixtures.two_gateways.
Proof. intros g _ _ _. split; [reflexivity|]. simpl. apply not_elem_of_empty. Defined.

Lemma delete_gateways_nothing_to_delete_witness :
  delete_gateways Fixtures.backend_terminates Fixtures.backend_found
    (Fixtures.project (Some Fixtures.g1)) [] Fixtures.two_gateways
  = (Return tt, Fixtures.two_gateways).
Proof.
  apply delete_gateways_nothing_to_delete.
  intros key g _ _ [_ Hin]. by apply elem_of_nil in Hin.
Defined.

Lemma delete_gateways_backend_missing_witness :
  ∃ g' e',
    delete_gateways Fixtures.backend_terminates
      (λ _ _, Some (OtherError "BackendNotAvailable"))
      (Fixtures.project (Some Fixtures.g1)) ["g2"] Fixtures.two_gateways
    = (Raise e', Fixtures.two_gateways)
    ∧ processed ["g2"] g'
    ∧ (λ (_ : ProjectModel.t) (_ : BackendType.t), Some (OtherError "BackendNotAvailable"))
        (Fixtures.project (Some Fixtures.g1))
        (BackendModel.type (GatewayModel.backend g')) = Some e'.
Proof.
  apply (delete_gateways_backend_missing Fixtures.backend_terminates
           (λ _ _, Some (OtherError "BackendNotAvailable"))
           (Fixtures.project (Some Fixtures.g1)) ["g2"] Fixtures.two_gateways
           12%N Fixtures.g2 (OtherError "BackendNotAvailable")).
  - reflexivity.
  - reflexivity.
  - split; [discriminate|]. apply list_elem_of_In. by left.
  - reflexivity.
Defined.


Lemma delete_gateways_restores_registry_witness :
  let result := delete_gateways Fixtures.backend_fails_on_i01 Fixtures.backend_found
                  (Fixtures.project (Some Fixtures.g1)) ["g1"; "g2"]
                  Fixtures.two_gateways in
  result.1 = Return tt
  ∧ PROCESSING_GATEWAYS_IDS result.2 = PROCESSING_GATEWAYS_IDS Fixtures.two_gateways.
Proof.
  exact (delete_gateways_restores_registry Fixtures.backend_fails_on_i01
           Fixtures.backend_found (Fixtures.project (Some Fixtures.g1)) ["g1"; "g2"]
           Fixtures.two_gateways two_gateways_keyed (two_gateways_ready ["g1"; "g2"])).
Defined.

(** ** Views of the gateways *)

(** The view of a gateway whose project row is there. *)
Lemma gateway_model_to_gateway_run (g : GatewayModel.t) (p : ProjectModel.t) (w : World) :
  projects w !! GatewayModel.project_id g = Some p →
  ∃ v,
    gateway_model_to_gateway g w = (Return v, w)
    ∧ Gateway.name v = GatewayModel.name g
    ∧ Gateway.default v
      = bool_decide (ProjectModel.default_gateway_id p = Some (GatewayModel.id g))
    ∧ GatewayConfiguration.default (Gateway.configuration v) = Gateway.default v
    ∧ Gateway.backend v
      = (if decide (BackendModel.type (GatewayModel.backend g) = BackendType.DSTACK)
         then BackendType.AWS else BackendModel.type (GatewayModel.backend g))
    ∧ Gateway.wildcard_domain v = GatewayModel.wildcard_domain g
    ∧ GatewayConfiguration.domain (Gateway.configuration v)
      = GatewayConfiguration.domain (get_gateway_configuration g)
    ∧ Gateway.status v = GatewayModel.status g.
Proof.
  intros Hp. unfold gateway_model_to_gateway. run. rewrite Hp. run.
  eexists. split; [reflexivity|]. by repeat split.
Qed.




(** The row [get_project_gateway_model_by_name] finds, if any, is a row of
    the project with that name; it finds one whenever there is one. *)
Lemma gateway_by_name_found (project : ProjectModel.t) (name : string) (w : World)
    (g : GatewayModel.t) :
  get_project_gateway_model_by_name project name w = (Return (Some g), w) →
  (∃ k, gateways w !! k = Some g)
  ∧ GatewayModel.project_id g = ProjectModel.id project
  ∧ GatewayModel.name g = name.
Proof.
  unfold get_project_gateway_model_by_name. run. intros [= Hhead].
  apply head_Some in Hhead as [rest Hrest].
  assert (g ∈ filter (λ g, GatewayModel.project_id g = ProjectModel.id project
                           ∧ GatewayModel.name g = name)
                (map_to_list (gateways w)).*2) as Hin
    by (rewrite Hrest; by left).
  apply list_elem_of_filter in Hin as [[? ?] Hin].
  apply list_elem_of_fmap in Hin as ([k g'] & -> & Hin).
  apply elem_of_map_to_list in Hin. split; [by exists k|done].
Qed.

Lemma gateway_by_name_exists (project : ProjectModel.t) (name : string) (w : World)
    (k : uuid) (g : GatewayModel.t) :
  gateways w !! k = Some g →
  GatewayModel.project_id g = ProjectModel.id project →
  GatewayModel.name g = name →
  ∃ g', get_project_gateway_model_by_name project name w = (Return (Some g'), w).
Proof.
  intros Hrow Hproject Hname. unfold get_project_gateway_model_by_name. run.
  destruct (filter _ _) as [|g' rest] eqn:Hf; [|by exists g'].
  exfalso. eapply (filter_nil_not_elem_of _ _ g Hf); [done|].
  apply list_elem_of_fmap. exists (k, g). split; [done|].
  by apply elem_of_map_to_list.
Qed.

Lemma gateway_by_name_missing (project : ProjectModel.t) (name : string) (w : World) :
  (∀ k g, gateways w !! k = Some g →
          ¬ (GatewayModel.project_id g = ProjectModel.id project
             ∧ GatewayModel.name g = name)) →
  get_project_gateway_model_by_name project name w = (Return None, w).
Proof.
  intros Hnone. unfold get_project_gateway_model_by_name. run.
  destruct (filter _ _) as [|g' rest] eqn:Hf; [done|].
  assert (g' ∈ filter (λ g, GatewayModel.project_id g = ProjectModel.id project
                            ∧ GatewayModel.name g = name)
                 (map_to_list (gateways w)).*2) as Hin
    by (rewrite Hf; by left).
  apply list_elem_of_filter in Hin as [Hm Hin].
  apply list_elem_of_fmap in Hin as ([k g] & -> & Hin).
  apply elem_of_map_to_list in Hin. by destruct (Hnone k g Hin).
Qed.

(** X16: [get_gateway_by_name], for a project whose row is there, never
    raises and changes nothing: it returns [None] when the project has no
    gateway of that name, and otherwise the view of a gateway with that
    name. *)
Theorem get_gateway_by_name_outcomes (p : ProjectModel.t) (name : string) (w : World) :
  projects w !! ProjectModel.id p = Some p →
  ((∀ k g, gateways w !! k = Some g →
           ¬ (GatewayModel.project_id g = ProjectModel.id p
              ∧ GatewayModel.name g = name)) →
   get_gateway_by_name p name w = (Return None, w))
  ∧ (∀ k g, gateways w !! k = Some g →
            GatewayModel.project_id g = ProjectModel.id p →
            GatewayModel.name g = name →
            ∃ v, get_gateway_by_name p name w = (Return (Some v), w)
                 ∧ Gateway.name v = name).
Proof.
  intros Hp. split.
  - intros Hnone. unfold get_gateway_by_name. unfold mbind, M_bind at 1.
    by rewrite gateway_by_name_missing.
  - intros k g Hrow Hproject Hname.
    destruct (gateway_by_name_exists p name w k g Hrow Hproject Hname) as [g' Hfound].
    destruct (gateway_by_name_found p name w g' Hfound) as (_ & Hproject' & Hname').
    destruct (gateway_model_to_gateway_run g' p w) as (v & Hv & Hvname & _);
      [by rewrite Hproject'|].
    exists v. unfold get_gateway_by_name. unfold mbind, M_bind at 1. rewrite Hfound.
    unfold mbind, M_bind. rewrite Hv. split; [done|congruence].
Qed.

Lemma get_gateway_by_name_outcomes_witness :
  ∃ v, get_gateway_by_name (Fixtures.project (Some Fixtures.g1)) "g2"
         Fixtures.two_gateways = (Return (Some v), Fixtures.two_gateways)
       ∧ Gateway.name v = "g2".
Proof.
  apply (proj2 (get_gateway_by_name_outcomes (Fixtures.project (Some Fixtures.g1)) "g2"
                  Fixtures.two_gateways eq_refl) 12%N Fixtures.g2);
    reflexivity.
Defined.



Lemma filter_fmap_preserved {A} (P : A → Prop) `{!∀ x, Decision (P x)} (f : A → A)
    (l : list A) :
  (∀ x, P (f x) ↔ P x) → filter P (f <$> l) = f <$> filter P l.
Proof.
  intros Hf. induction l as [|x l IH]; [done|].
  rewrite fmap_cons, !filter_cons, IH.
  destruct (decide (P (f x))) as [Hfx|Hfx], (decide (P x)) as [Hx|Hx]; try done.
  - by destruct Hx; apply Hf.
  - by destruct Hfx; apply Hf.
Qed.

Lemma with_wildcard_domain_key (project_id : uuid) (name : string)
    (wildcard_domain : option string) (g : GatewayModel.t) :
  GatewayModel.id (with_wildcard_domain project_id name wildcard_domain g)
  = GatewayModel.id g
  ∧ GatewayModel.project_id (with_wildcard_domain project_id name wildcard_domain g)
    = GatewayModel.project_id g
  ∧ GatewayModel.name (with_wildcard_domain project_id name wildcard_domain g)
    = GatewayModel.name g
  ∧ GatewayModel.configuration (with_wildcard_domain project_id name wildcard_domain g)
    = GatewayModel.configuration g
  ∧ GatewayModel.backend (with_wildcard_domain project_id name wildcard_domain g)
    = GatewayModel.backend g.
Proof. unfold with_wildcard_domain. by destruct (decide _). Qed.

(** The lookup by name after the update finds the updated row. *)
Lemma gateway_by_name_after_update (project : ProjectModel.t) (name : string)
    (wildcard_domain : option string) (w : World) (g : GatewayModel.t) :
  get_project_gateway_model_by_name project name w = (Return (Some g), w) →
  let w' := set_gateways (fmap (with_wildcard_domain (ProjectModel.id project) name
                                  wildcard_domain)) w in
  get_project_gateway_model_by_name project name w'
  = (Return (Some (with_wildcard_domain (ProjectModel.id project) name
                     wildcard_domain g)), w').
Proof.
  unfold get_project_gateway_model_by_name. run. intros [= Hhead].
  rewrite map_to_list_fmap, <- list_fmap_compose.
  assert (snd ∘ prod_map id (with_wildcard_domain (ProjectModel.id project) name
                               wildcard_domain)
          = with_wildcard_domain (ProjectModel.id project) name wildcard_domain ∘ snd)
    as -> by done.
  rewrite list_fmap_compose, filter_fmap_preserved.
  - destruct (filter _ _) as [|g0 rest]; [done|]. simpl in *. by injection Hhead as ->.
  - intros x.
    destruct (with_wildcard_domain_key (ProjectModel.id project) name wildcard_domain x)
      as (_ & -> & -> & _). done.
Qed.

(** X18: [set_gateway_wildcard_domain]: without a gateway of that name it
    raises [ResourceNotExistsError], for a gateway of the [DSTACK] backend
    [ServerClientError], and in both cases changes nothing.  Otherwise it
    returns the view of the gateway with the new wildcard domain; the rows
    with another name or project are as they were; and the configuration
    stored in the row is not rewritten: [configuration.domain] of the view
    is still the domain the gateway was created with. *)
Theorem set_gateway_wildcard_domain_outcomes (project : ProjectModel.t) (name : string)
    (wildcard_domain : option string) (w : World) :
  let result := set_gateway_wildcard_domain project name wildcard_domain w in
  ((∀ k g, gateways w !! k = Some g →
           ¬ (GatewayModel.project_id g = ProjectModel.id project
              ∧ GatewayModel.name g = name)) →
   result = (Raise (ResourceNotExistsError None), w))
  ∧ (∀ g,
       get_project_gateway_model_by_name project name w = (Return (Some g), w) →
       BackendModel.type (GatewayModel.backend g) = BackendType.DSTACK →
       result
       = (Raise (ServerClientError
                   "Custom domains for dstack Sky gateway are not supported"), w))
  ∧ (∀ g p,
       get_project_gateway_model_by_name project name w = (Return (Some g), w) →
       BackendModel.type (GatewayModel.backend g) ≠ BackendType.DSTACK →
       projects w !! ProjectModel.id project = Some p →
       ∃ v,
         result.1 = Return v
         ∧ Gateway.name v = name
         ∧ Gateway.wildcard_domain v = wildcard_domain
         ∧ (∀ c, GatewayModel.configuration g = Some c →
                 GatewayConfiguration.domain (Gateway.configuration v)
                 = GatewayConfiguration.domain c)
         ∧ (∀ k g', gateways w !! k = Some g' →
                    ¬ (GatewayModel.project_id g' = ProjectModel.id project
                       ∧ GatewayModel.name g' = name) →
                    gateways result.2 !! k = Some g')
         ∧ projects result.2 = projects w).
Proof.
  intros result. subst result.
  split; [|split].
  - intros Hnone. unfold set_gateway_wildcard_domain, mbind, M_bind.
    by rewrite gateway_by_name_missing.
  - intros g Hfound Hd. unfold set_gateway_wildcard_domain, mbind, M_bind.
    rewrite Hfound. by rewrite decide_True.
  - intros g p Hfound Hd Hp.
    pose proof (gateway_by_name_after_update project name wildcard_domain w g Hfound)
      as Hfound'. simpl in Hfound'.
    destruct (gateway_by_name_found project name w g Hfound) as (_ & Hproject & Hname).
    set (g' := with_wildcard_domain (ProjectModel.id project) name wildcard_domain g) in *.
    set (w' := set_gateways (fmap (with_wildcard_domain (ProjectModel.id project) name
                                     wildcard_domain)) w) in *.
    destruct (with_wildcard_domain_key (ProjectModel.id project) name wildcard_domain g)
      as (_ & Hproject' & Hname' & Hcfg' & _). fold g' in Hproject', Hname', Hcfg'.
    destruct (gateway_model_to_gateway_run g' p w')
      as (v & Hv & Hvname & _ & _ & _ & Hvdomain & Hvcfg & _).
    { by rewrite Hproject', Hproject. }
    exists v.
    assert (set_gateway_wildcard_domain project name wildcard_domain w = (Return v, w'))
      as ->.
    { unfold set_gateway_wildcard_domain. unfold mbind, M_bind at 1. rewrite Hfound.
      rewrite decide_False by done.
      unfold mbind, M_bind, modify. cbv beta iota. fold w'.
      rewrite Hfound'. cbv beta iota. by rewrite Hv. }
    simpl. split; [done|]. split; [congruence|]. split; [|split; [|split; [|done]]].
    + rewrite Hvdomain. unfold g', with_wildcard_domain.
      by rewrite decide_True.
    + intros c Hc. rewrite Hvcfg. unfold get_gateway_configuration.
      by rewrite Hcfg', Hc.
    + intros k g0 Hrow Hnot. rewrite lookup_fmap, Hrow. simpl.
      unfold with_wildcard_domain. by rewrite decide_False.
Qed.

Lemma set_gateway_wildcard_domain_outcomes_witness :
  ∃ v,
    (set_gateway_wildcard_domain (Fixtures.project (Some Fixtures.g1)) "g2"
       (Some "*.new.example.com") Fixtures.two_gateways).1 = Return v
    ∧ Gateway.name v = "g2"
    ∧ Gateway.wildcard_domain v = Some "*.new.example.com"
    ∧ GatewayConfiguration.domain (Gateway.configuration v) = Some "*.example.com".
Proof.
  destruct (proj2 (proj2 (set_gateway_wildcard_domain_outcomes
                            (Fixtures.project (Some Fixtures.g1)) "g2"
                            (Some "*.new.example.com") Fixtures.two_gateways))
              Fixtures.g2 (Fixtures.project (Some Fixtures.g1)))
    as (v & Hv & Hname & Hdomain & Hcfg & _).
  - reflexivity.
  - discriminate.
  - reflexivity.
  - exists v. split; [exact Hv|]. split; [exact Hname|]. split; [exact Hdomain|].
    exact (Hcfg (Fixtures.configuration true) eq_refl).
Defined.

(** ** Names of new gateways *)

Section NameFacts.

Context (generate_name : nat → string).

Lemma draw_name_first_free (names : list string) (k : nat) :
  ∀ (fuel : nat) (w : World),
    k < fuel →
    (∀ j, j < k → generate_name (clock w + j) ∈ names) →
    generate_name (clock w + k) ∉ names →
    ∃ w', draw_name generate_name names fuel w
          = (Return (generate_name (clock w + k)), w')
          ∧ untouched w w' ∧ clock w' = clock w + S k ∧ trace w' = trace w.
Proof.
  induction k as [|k IH]; intros fuel w Hk Htaken Hfree.
  - destruct fuel as [|fuel]; [lia|]. simpl. run.
    rewrite Nat.add_0_r in *. rewrite decide_True by done.
    eexists. split; [reflexivity|]. simpl. repeat split. lia.
  - destruct fuel as [|fuel]; [lia|]. simpl. run.
    rewrite decide_False.
    2: { intros Hnot. apply Hnot. specialize (Htaken 0). rewrite Nat.add_0_r in Htaken.
         apply Htaken. lia. }
    destruct (IH fuel (tick w)) as (w' & Hrun & Hu & Hclock & Htrace).
    + lia.
    + intros j Hj. simpl. replace (S (clock w + j)) with (clock w + S j) by lia.
      apply Htaken. lia.
    + simpl. by replace (S (clock w + k)) with (clock w + S k) by lia.
    + exists w'. simpl in *.
      replace (S (clock w + k)) with (clock w + S k) in Hrun by lia.
      split; [exact Hrun|]. split; [exact Hu|]. split; [lia|done].
Qed.

(** X19: [generate_gateway_name] returns the first name drawn that no
    gateway of the project has: when the first [k] names drawn are names of
    gateways of the project and the next one is not, it returns that one
    after [k + 1] draws and leaves the rows as they were.  The gateways of
    other projects do not count. *)
Theorem generate_gateway_name_first_free (fuel : nat) (project : ProjectModel.t)
    (w : World) (k : nat) :
  k < fuel →
  (∀ j, j < k →
     ∃ key g, gateways w !! key = Some g
              ∧ GatewayModel.project_id g = ProjectModel.id project
              ∧ GatewayModel.name g = generate_name (clock w + j)) →
  (∀ key g, gateways w !! key = Some g →
            GatewayModel.project_id g = ProjectModel.id project →
            GatewayModel.name g ≠ generate_name (clock w + k)) →
  ∃ w',
    generate_gateway_name generate_name fuel project w
    = (Return (generate_name (clock w + k)), w')
    ∧ untouched w w'
    ∧ clock w' = clock w + S k.
Proof.
  intros Hk Htaken Hfree.
  unfold generate_gateway_name, list_project_gateway_models. run.
  match goal with
  | |- context [draw_name generate_name ?l fuel w] => set (names := l)
  end.
  destruct (draw_name_first_free names k fuel w Hk) as (w' & Hrun & Hu & Hclock & _).
  - intros j Hj. destruct (Htaken j Hj) as (key & g & Hrow & Hproject & Hname).
    rewrite <- Hname. apply list_elem_of_In, in_map, list_elem_of_In.
    apply list_elem_of_filter. split; [done|].
    apply list_elem_of_fmap. exists (key, g). split; [done|].
    by apply elem_of_map_to_list.
  - intros Hin. apply list_elem_of_In, in_map_iff in Hin as (g & Hname & Hin).
    apply list_elem_of_In, list_elem_of_filter in Hin as [Hproject Hin].
    apply list_elem_of_fmap in Hin as ([key g'] & -> & Hin).
    apply elem_of_map_to_list in Hin. by apply (Hfree key g').
  - exists w'. by rewrite Hrun.
Qed.

End NameFacts.

(** In a project whose only gateway is ["brave-otter"], the second name
    drawn is returned. *)
Lemma generate_gateway_name_first_free_witness :
  ∃ w',
    generate_gateway_name Fixtures.names 10 (Fixtures.project (Some Fixtures.brave_otter))
      Fixtures.one_gateway
    = (Return "calm-heron", w')
    ∧ clock w' = 2.
Proof.
  destruct (generate_gateway_name_first_free Fixtures.names 10
              (Fixtures.project (Some Fixtures.brave_otter)) Fixtures.one_gateway 1)
    as (w' & Hrun & _ & Hclock).
  - lia.
  - intros j Hj. exists 11%N, Fixtures.brave_otter.
    assert (j = 0) as -> by lia. by vm_compute.
  - intros key g Hrow _. unfold Fixtures.one_gateway in Hrow. simpl in Hrow.
    apply lookup_singleton_Some in Hrow as [_ <-]. discriminate.
  - exists w'. split; [exact Hrun|exact Hclock].
Defined.

(** ** Creating a gateway *)

Section CreateMore.

Context (get_project_backend_with_model_by_type_or_error :
           ProjectModel.t → BackendType.t → Exn + BackendModel.t)
        (BACKENDS_WITH_PRIVATE_GATEWAY_SUPPORT : list BackendType.t)
        (generate_name : nat → string)
        (uuid4 : nat → uuid)
        (get_current_datetime : nat → Z).

Local Abbreviation create_gateway' :=
  (create_gateway get_project_backend_with_model_by_type_or_error
     BACKENDS_WITH_PRIVATE_GATEWAY_SUPPORT generate_name uuid4 get_current_datetime).

(** A row added under a fresh key and a fresh name is the one its name
    finds. *)
Lemma gateway_by_name_added (project : ProjectModel.t) (name : string) (w : World)
    (row : GatewayModel.t) :
  GatewayModel.project_id row = ProjectModel.id project →
  GatewayModel.name row = name →
  (∀ k g, gateways w !! k = Some g →
          ¬ (GatewayModel.project_id g = ProjectModel.id project
             ∧ GatewayModel.name g = name)) →
  let w' := set_gateways (insert (GatewayModel.id row) row) w in
  get_project_gateway_model_by_name project name w' = (Return (Some row), w').
Proof.
  intros Hproject Hname Hunique w'.
  destruct (gateway_by_name_exists project name w' (GatewayModel.id row) row)
    as [g Hg]; [by apply lookup_insert_eq|done|done|].
  destruct (gateway_by_name_found project name w' g Hg) as ([k Hk] & Hgp & Hgn).
  simpl in Hk. apply lookup_insert_Some in Hk as [[_ <-]|[_ Hk]]; [done|].
  by destruct (Hunique k g Hk).
Qed.

(** X20: [create_gateway] with a name, a backend that passes the
    private-gateway check, and no gateway of that name in the project: it
    returns the view of a new row, [SUBMITTED] and without a compute
    instance (so the view has no IP address), whose wildcard domain is the
    domain of the configuration; the other rows stay.  When the project had
    no default gateway, or the configuration asks for it, the new gateway
    becomes the default of the project; otherwise the projects are as they
    were. *)
Theorem create_gateway_outcomes (fuel : nat) (project p : ProjectModel.t)
    (configuration : GatewayConfiguration.t) (backend_model : BackendModel.t)
    (name : string) (w : World) :
  let result := create_gateway' fuel project configuration w in
  let id := uuid4 (clock w) in
  get_project_backend_with_model_by_type_or_error project
    (GatewayConfiguration.backend configuration) = inr backend_model →
  (GatewayConfiguration.public_ip configuration = true
   ∨ GatewayConfiguration.backend configuration ∈ BACKENDS_WITH_PRIVATE_GATEWAY_SUPPORT) →
  GatewayConfiguration.name configuration = Some name →
  gateways w !! id = None →
  (∀ k g, gateways w !! k = Some g →
          ¬ (GatewayModel.project_id g = ProjectModel.id project
             ∧ GatewayModel.name g = name)) →
  projects w !! ProjectModel.id project = Some p →
  ∃ v row,
    result.1 = Return v
    ∧ gateways result.2 = <[id := row]> (gateways w)
    ∧ GatewayModel.name row = name
    ∧ GatewayModel.project_id row = ProjectModel.id project
    ∧ GatewayModel.status row = GatewayStatus.SUBMITTED
    ∧ GatewayModel.gateway_compute row = None
    ∧ GatewayModel.wildcard_domain row = GatewayConfiguration.domain configuration
    ∧ Gateway.name v = name
    ∧ Gateway.status v = GatewayStatus.SUBMITTED
    ∧ Gateway.ip_address v = ""
    ∧ (ProjectModel.default_gateway project = None
       ∨ GatewayConfiguration.default configuration = true →
       (projects result.2 !! ProjectModel.id project ≫= ProjectModel.default_gateway_id)
       = Some id)
    ∧ (ProjectModel.default_gateway project ≠ None →
       GatewayConfiguration.default configuration = false →
       projects result.2 = projects w).
Proof.
  intros result id Hbackend Hcheck Hname Hfresh Hunique Hp. subst result.
  set (row := GatewayModel.Make id name (GatewayConfiguration.region configuration)
                (ProjectModel.id project) backend_model
                (GatewayConfiguration.domain configuration) (Some configuration)
                GatewayStatus.SUBMITTED None (get_current_datetime (clock w))
                (get_current_datetime (clock w)) None).
  set (w1 := set_gateways (insert id row) (tick w)).
  assert (session_add_gateway row (tick w) = (Return tt, w1)) as Hadd.
  { unfold session_add_gateway. run. rewrite decide_False; [done|].
    intros [Hid|Hdup].
    - rewrite Hfresh in Hid. by destruct Hid.
    - apply Exists_exists in Hdup as (g & Hin & Hdup).
      apply list_elem_of_fmap in Hin as ([k g'] & -> & Hin).
      apply elem_of_map_to_list in Hin. by destruct (Hunique k g' Hin). }
  pose proof (gateway_by_name_added project name (tick w) row eq_refl eq_refl Hunique)
    as Hfound. simpl in Hfound. fold id in Hfound. fold w1 in Hfound.
  set (ws := set_projects (alter (ProjectModel.set_default_gateway row)
                              (ProjectModel.id project)) w1).
  assert (set_default_gateway project name w1 = (Return tt, ws)) as Hset.
  { unfold set_default_gateway. unfold mbind, M_bind. by rewrite Hfound. }
  set (w2 := if decide (ProjectModel.default_gateway project = None) then ws
             else if GatewayConfiguration.default configuration then ws else w1).
  assert (create_gateway' fuel project configuration w = gateway_model_to_gateway row w2)
    as Hrun.
  { unfold create_gateway. rewrite Hbackend, Hname.
    assert (negb (GatewayConfiguration.public_ip configuration)
            && bool_decide (GatewayConfiguration.backend configuration
                            ∉ BACKENDS_WITH_PRIVATE_GATEWAY_SUPPORT) = false) as ->.
    { destruct Hcheck as [->|Hin]; [done|].
      rewrite bool_decide_eq_false_2; [by rewrite andb_false_r|]. by intros ?. }
    unfold mbind, M_bind, mret, M_ret, get_world, modify. cbv beta iota.
    fold id. fold row. rewrite Hadd. cbv beta iota. subst w2.
    destruct (decide _); [by rewrite Hset|].
    destruct (GatewayConfiguration.default configuration); [by rewrite Hset|done]. }
  rewrite Hrun.
  assert (∃ p2, projects w2 !! ProjectModel.id project = Some p2) as [p2 Hp2].
  { subst w2 ws. destruct (decide _); [|destruct (GatewayConfiguration.default _)];
      simpl; rewrite ?lookup_alter_eq, ?Hp; by eexists. }
  assert (gateways w2 = <[id:=row]> (gateways w)) as Hrows.
  { subst w2 ws. by destruct (decide _); [|destruct (GatewayConfiguration.default _)]. }
  unfold gateway_model_to_gateway. run. rewrite Hp2. run.
  eexists _, row. split; [reflexivity|]. split; [exact Hrows|].
  do 8 (split; [reflexivity|]). split.
  - intros Hdefault. subst w2 ws.
    destruct (decide _) as [|Hsome].
    + simpl. by rewrite lookup_alter_eq, Hp.
    + destruct Hdefault as [Hnone | ->]; [done|]. simpl. by rewrite lookup_alter_eq, Hp.
  - intros Hsome Hflag. subst w2 ws. rewrite decide_False by done. by rewrite Hflag.
Qed.

End CreateMore.

(** The first gateway of a project becomes its default. *)
Lemma create_gateway_outcomes_witness :
  ∃ v,
    (create_gateway Fixtures.backend_with_model Fixtures.private_backends Fixtures.names
       Fixtures.ids Fixtures.time 10 (Fixtures.project None) (Fixtures.configuration true)
       (set_projects (insert 1%N (Fixtures.project None)) Fixtures.empty_world)).1
    = Return v
    ∧ Gateway.name v = "gw"
    ∧ Gateway.status v = GatewayStatus.SUBMITTED
    ∧ Gateway.ip_address v = "".
Proof.
  destruct (create_gateway_outcomes Fixtures.backend_with_model Fixtures.private_backends
              Fixtures.names Fixtures.ids Fixtures.time 10 (Fixtures.project None)
              (Fixtures.project None) (Fixtures.configuration true)
              (BackendModel.Make 100 BackendType.AWS) "gw"
              (set_projects (insert 1%N (Fixtures.project None)) Fixtures.empty_world))
    as (v & row & Hv & _ & _ & _ & _ & _ & _ & Hname & Hstatus & Hip & _).
  - reflexivity.
  - by left.
  - reflexivity.
  - reflexivity.
  - intros k g Hrow. simpl in Hrow. by rewrite lookup_empty in Hrow.
  - reflexivity.
  - exists v. split; [exact Hv|]. split; [exact Hname|]. split; [exact Hstatus|exact Hip].
Defined.

(** ** Startup *)








Section StartupFacts.

Context (ssh_handshake : nat → string → string → option Exn)
        (daemon : nat → string → Request → option Exn)
        (tunnel_exec : nat → string → string → Exn + string)
        (SKIP_GATEWAY_UPDATE : bool)
        (get_dstack_runner_version : string)
        (get_dstack_gateway_wheel : string → string).




End StartupFacts.
